(** * AI-Commit-Message-Generator: the git client and the Ollama client

    A shallow embedding of [internal/git/client.go] (repository handle
    cache, staged-change detection, synthetic staged diff, commit writer)
    and of the retry loop of the Ollama client
    ([GenerateCommitMessage]), together with the properties the
    specification states about them.

    Go strings are byte sequences; they are modelled as [string]
    (a list of 8-bit [ascii]), so [String.length] is Go's [len] and
    [substring 0 n] is the slice [s[:n]]. *)

From Stdlib Require Import String Ascii List Bool Arith Lia ZArith Permutation.
From Stdlib Require Import DecimalString.
Import ListNotations.
Open Scope list_scope.
Open Scope string_scope.

(** ** Go strings *)

Module GoStrings.

(** The line feed byte, written ["\n"] in the Go source. *)
Definition LF : ascii := ascii_of_nat 10.
Definition nl : string := String LF "".

(** The double quote byte (code 34), which the Go source escapes inside
    its string literals. *)
Definition dq : string := String (ascii_of_nat 34) "".

(** [strings.Count(s, sep)] for a one-byte separator. *)
Fixpoint Count (s : string) (sep : ascii) : nat :=
  match s with
  | "" => 0
  | String c s' => (if Ascii.eqb c sep then 1 else 0) + Count s' sep
  end.

(** [strings.Split(s, sep)] for a one-byte separator, the only way the
    source calls it ([strings.Split(string(content), "\n")]): the
    substrings between separators, so one more than the number of
    separators, and [[""]] for the empty string. *)
Fixpoint Split (s : string) (sep : ascii) : list string :=
  match s with
  | "" => [""]
  | String c s' =>
      if Ascii.eqb c sep then "" :: Split s' sep
      else match Split s' sep with
           | [] => [String c ""]
           | l :: ls => String c l :: ls
           end
  end.

(** [strings.HasPrefix]. *)
Definition HasPrefix (s p : string) : bool := String.prefix p s.

(** The concatenation of a list of strings. *)
Definition flat (ls : list string) : string := String.concat "" ls.

End GoStrings.
Import GoStrings.

(** ** Errors and results *)

(** Go's [error] values. The two sentinel errors the source compares
    against are constructors of their own; [errorString] is an error made
    by [errors.New] or by [fmt.Errorf] without a wrapped cause (and any
    library error identified by its message); [wrapError msg err] is
    [fmt.Errorf(msg + "%w", err)]. *)
Inductive error : Type :=
| ErrRepositoryNotExists
| ErrReferenceNotFound
| errorString (msg : string)
| wrapError (msg : string) (err : error).

(** A Go call returning [(A, error)]. *)
Inductive result (A : Type) : Type :=
| Ok (a : A)
| Err (err : error).
Arguments Ok {A} a.
Arguments Err {A} err.

Definition isOk {A} (r : result A) : bool :=
  match r with Ok _ => true | Err _ => false end.

(** [err == git.ErrRepositoryNotExists] *)
Definition isErrRepositoryNotExists (err : error) : bool :=
  match err with ErrRepositoryNotExists => true | _ => false end.

(** [err == plumbing.ErrReferenceNotFound] *)
Definition isErrReferenceNotFound (err : error) : bool :=
  match err with ErrReferenceNotFound => true | _ => false end.

(** ** The go-git objects the client talks to

    go-git is a library outside this repository. Each object is a record
    of the answers its methods give; a method that returns [(x, error)]
    is a [result]. *)

Module gogit.

(** Modelled from the spec: go-git's [StatusCode] type is not part of the
    repository. These are the states the specification lists for a path
    (added / modified / deleted / renamed / copied / unchanged /
    untracked), under the names the source uses ([git.Unmodified],
    [git.Untracked], [git.Added], [git.Deleted], [git.Modified],
    [git.Renamed]; [Copied] is named in the comment of
    [HasStagedChanges]). *)
Inductive StatusCode : Type :=
| Unmodified | Untracked | Modified | Added | Deleted | Renamed | Copied.

Definition StatusCode_eqb (a b : StatusCode) : bool :=
  match a, b with
  | Unmodified, Unmodified | Untracked, Untracked | Modified, Modified
  | Added, Added | Deleted, Deleted | Renamed, Renamed | Copied, Copied => true
  | _, _ => false
  end.

(** [git.FileStatus]: the staging (index against commit) state, the
    worktree (working copy against index) state, and the [Extra] text. *)
Record FileStatus : Type := {
  Staging : StatusCode;
  WorktreeState : StatusCode;
  Extra : string
}.

(** [git.Status] is a Go map from path to [*FileStatus]. A [range] loop
    visits its entries in an order that Go leaves unspecified: a [Status]
    here is the list of entries in the order one loop visits them.
    Another loop over the same map may take another order: what is said
    of more than one call is said for every permutation of the list. *)
Definition Status : Type := list (string * FileStatus).

Definition Hash : Type := string.

Record TreeEntry : Type := { Name : string; EntryHash : Hash }.

(** An [io.ReadCloser] over a blob: [Reader_Read r n] is the bytes one
    call of [Read] delivers into a buffer of [n] bytes. *)
Record Reader : Type := { Reader_Read : nat -> string }.

Record Blob : Type := { Blob_Size : nat; Blob_Reader : result Reader }.

Record Tree : Type := { Tree_FindEntry : string -> result TreeEntry }.

Record Commit : Type := { Commit_Tree : result Tree }.

(** [time.Time], as an instant on the wall clock. *)
Definition Time : Type := Z.

Record Signature : Type := { SigName : string; SigEmail : string; When : Time }.

Record User : Type := { UserName : string; UserEmail : string }.
Record Config : Type := { ConfigUser : User }.

Record Worktree : Type := {
  Worktree_Status : result Status;
  (** [worktree.Commit(message, &git.CommitOptions{Author: author})] *)
  Worktree_Commit : string -> Signature -> result Hash
}.

Record Repository : Type := {
  Repository_Worktree : result Worktree;
  (** [repo.Head()], reduced to the hash of the reference *)
  Repository_Head : result Hash;
  Repository_CommitObject : Hash -> result Commit;
  Repository_BlobObject : Hash -> result Blob;
  Repository_Config : result Config
}.

End gogit.
Import gogit.

(** ** The operating system, as one call sees it *)

Record OS : Type := {
  (** [os.Getwd()] *)
  Getwd : result string;
  (** [os.ReadFile(path)] *)
  ReadFile : string -> result string;
  (** [filepath.Join(dir, name)] *)
  Join : string -> string -> string;
  (** [time.Now()] *)
  Now : Time;
  (** [git.PlainOpenWithOptions(path, {DetectDotGit: true})] *)
  PlainOpenWithOptions : string -> result Repository;
  (** [exec.Command(name, args...).Run()] *)
  RunCommand : string -> list string -> result unit
}.

(** ** The client and its effects *)

(** [ClientImpl]: the cached handle ([nil] is [None]) and the working
    directory it was opened for. The mutex serialises [openRepo]; calls
    are modelled one at a time. *)
Record ClientImpl : Type := {
  repo : option Repository;
  repoPath : string
}.

(** [NewClient()] *)
Definition NewClient : ClientImpl := {| repo := None; repoPath := "" |}.

(** What a call does to the world besides returning: opening a repository,
    closing a handle, asking the worktree to create a commit. *)
Inductive Event : Type :=
| EvPlainOpen (path : string)
| EvClose
| EvCommit (message : string) (author : Signature).

Record State : Type := {
  client : ClientImpl;
  trace : list Event
}.

Definition emit (ev : Event) (s : State) : State :=
  {| client := client s; trace := (trace s ++ [ev])%list |}.

Definition setClient (c : ClientImpl) (s : State) : State :=
  {| client := c; trace := trace s |}.

(** A method of the client: it reads and updates the client, logs its
    effects and returns a value or an error. *)
Definition M (A : Type) : Type := State -> result A * State.

Definition ret {A} (a : A) : M A := fun s => (Ok a, s).

Definition fail {A} (err : error) : M A := fun s => (Err err, s).

Definition bind {A B} (m : M A) (k : A -> M B) : M B :=
  fun s => match m s with
           | (Ok a, s') => k a s'
           | (Err err, s') => (Err err, s')
           end.

Definition lift {A} (r : result A) : M A := fun s => (r, s).

(** [if err != nil { return ..., fmt.Errorf(msg + "%w", err) }] *)
Definition orWrap {A} (msg : string) (m : M A) : M A :=
  fun s => match m s with
           | (Ok a, s') => (Ok a, s')
           | (Err err, s') => (Err (wrapError msg err), s')
           end.

Notation "x <- m ;; k" := (bind m (fun x => k))
  (at level 61, m at next level, right associativity).

(** ** [internal/git/client.go] *)

Module git.

(** [openRepo]: the cached handle when there is one and it was opened for
    the current working directory, a freshly opened one (which replaces
    the cache) otherwise. *)
Definition openRepo (os : OS) : M Repository := fun s =>
  match Getwd os with
  | Err err => (Err (wrapError "failed to get working directory: " err), s)
  | Ok wd =>
      let c := client s in
      let cached :=
        match repo c with
        | Some r => if String.eqb (repoPath c) wd then Some r else None
        | None => None
        end in
      match cached with
      | Some r => (Ok r, s)
      | None =>
          let s1 := emit (EvPlainOpen wd) s in
          match PlainOpenWithOptions os wd with
          | Err err => (Err err, s1)
          | Ok r => (Ok r, setClient {| repo := Some r; repoPath := wd |} s1)
          end
      end
  end.

(** [IsInsideRepo] *)
Definition IsInsideRepo (os : OS) : M bool := fun s =>
  match openRepo os s with
  | (Err err, s') =>
      if isErrRepositoryNotExists err then (Ok false, s') else (Err err, s')
  | (Ok _, s') => (Ok true, s')
  end.

(** The [range] loop of [HasStagedChanges], which returns at the first
    entry whose staging state is neither [Unmodified] nor [Untracked]. *)
Fixpoint anyStaged (status : Status) : bool :=
  match status with
  | [] => false
  | (_, fileStatus) :: rest =>
      if negb (StatusCode_eqb (Staging fileStatus) Unmodified)
         && negb (StatusCode_eqb (Staging fileStatus) Untracked)
      then true
      else anyStaged rest
  end.

(** [HasStagedChanges] *)
Definition HasStagedChanges (os : OS) : M bool :=
  repo <- orWrap "failed to open repository: " (openRepo os) ;;
  worktree <- orWrap "failed to get worktree: " (lift (Repository_Worktree repo)) ;;
  status <- orWrap "failed to get status: " (lift (Worktree_Status worktree)) ;;
  ret (anyStaged status).

(** [strings.Builder]: the text written so far. *)
Definition Builder : Type := string.

Definition WriteString (b : Builder) (s : string) : Builder := b ++ s.

(** [n] zero bytes, as [make([]byte, n)] gives. *)
Fixpoint zeros (n : nat) : string :=
  match n with
  | 0 => ""
  | S k => String zero (zeros k)
  end.

(** [content := make([]byte, blob.Size); reader.Read(content)]: a buffer
    of [blob.Size] zero bytes, overwritten from the start by what one
    [Read] delivers. *)
Definition readBlob (blob : Blob) (reader : Reader) : string :=
  let got := substring 0 (Blob_Size blob) (Reader_Read reader (Blob_Size blob)) in
  got ++ zeros (Blob_Size blob - String.length got).

(** The nested lookups the [Deleted] and [Modified] cases both spell out:
    the entry of the path in the HEAD tree, its blob, a reader on it, and
    the bytes read. Every failure on the way is dropped. *)
Definition headContent (repo : Repository) (headTree : option Tree)
    (filePath : string) : option string :=
  match headTree with
  | None => None
  | Some tree =>
      match Tree_FindEntry tree filePath with
      | Err _ => None
      | Ok entry =>
          match Repository_BlobObject repo (EntryHash entry) with
          | Err _ => None
          | Ok blob =>
              match Blob_Reader blob with
              | Err _ => None
              | Ok reader => Some (readBlob blob reader)
              end
          end
      end
  end.

(** [for _, line := range lines { WriteString(marker); WriteString(line);
    WriteString("\n") }] *)
Fixpoint writeLines (marker : string) (lines : list string) (b : Builder)
  : Builder :=
  match lines with
  | [] => b
  | line :: rest =>
      let b := WriteString b marker in
      let b := WriteString b line in
      let b := WriteString b nl in
      writeLines marker rest b
  end.

(** The body of the [range status] loop of [GetStagedDiff] for one entry. *)
Definition processEntry (os : OS) (repo : Repository) (wd : string)
    (headTree : option Tree) (diffBuilder : Builder)
    (filePath : string) (fileStatus : FileStatus) : Builder :=
  match Staging fileStatus with
  | Unmodified | Untracked => diffBuilder
  | Added =>
      let b := WriteString diffBuilder "diff --git a/" in
      let b := WriteString b filePath in
      let b := WriteString b " b/" in
      let b := WriteString b filePath in
      let b := WriteString b (nl ++ "new file mode 100644" ++ nl ++ "index 0000000..") in
      let b := WriteString b (Extra fileStatus) in
      let b := WriteString b (nl ++ "--- /dev/null" ++ nl ++ "+++ b/") in
      let b := WriteString b filePath in
      let b := WriteString b nl in
      let fullPath := Join os wd filePath in
      match ReadFile os fullPath with
      | Ok content => writeLines "+" (Split content LF) b
      | Err _ => b
      end
  | Deleted =>
      let b := WriteString diffBuilder "diff --git a/" in
      let b := WriteString b filePath in
      let b := WriteString b " b/" in
      let b := WriteString b filePath in
      let b := WriteString b (nl ++ "deleted file mode 100644" ++ nl ++ "index ") in
      let b := WriteString b (Extra fileStatus) in
      let b := WriteString b ("..0000000" ++ nl ++ "--- a/") in
      let b := WriteString b filePath in
      let b := WriteString b (nl ++ "+++ /dev/null" ++ nl) in
      match headContent repo headTree filePath with
      | Some content => writeLines "-" (Split content LF) b
      | None => b
      end
  | Modified =>
      let b := WriteString diffBuilder "diff --git a/" in
      let b := WriteString b filePath in
      let b := WriteString b " b/" in
      let b := WriteString b filePath in
      let b := WriteString b (nl ++ "index ") in
      let b := WriteString b (Extra fileStatus) in
      let b := WriteString b ".." in
      let b := WriteString b (Extra fileStatus) in
      let b := WriteString b (" 100644" ++ nl ++ "--- a/") in
      let b := WriteString b filePath in
      let b := WriteString b (nl ++ "+++ b/") in
      let b := WriteString b filePath in
      let b := WriteString b nl in
      let oldContent :=
        match headContent repo headTree filePath with
        | Some content => content
        | None => ""
        end in
      let fullPath := Join os wd filePath in
      let newContent :=
        match ReadFile os fullPath with
        | Ok content => content
        | Err _ => ""
        end in
      let oldLines := Split oldContent LF in
      let newLines := Split newContent LF in
      let b := writeLines "-" oldLines b in
      writeLines "+" newLines b
  | Renamed =>
      let b := WriteString diffBuilder "diff --git a/" in
      let b := WriteString b (Extra fileStatus) in
      let b := WriteString b " b/" in
      let b := WriteString b filePath in
      let b := WriteString b (nl ++ "rename from ") in
      let b := WriteString b (Extra fileStatus) in
      let b := WriteString b (nl ++ "rename to ") in
      let b := WriteString b filePath in
      WriteString b nl
  | Copied => diffBuilder
  end.

(** The [range status] loop of [GetStagedDiff]. *)
Fixpoint rangeStatus (os : OS) (repo : Repository) (wd : string)
    (headTree : option Tree) (status : Status) (diffBuilder : Builder)
  : Builder :=
  match status with
  | [] => diffBuilder
  | (filePath, fileStatus) :: rest =>
      rangeStatus os repo wd headTree rest
        (processEntry os repo wd headTree diffBuilder filePath fileStatus)
  end.

(** The tree of the HEAD commit, as [GetStagedDiff] finds it: [nil] when
    there is no HEAD reference or the commit object cannot be read, an
    error when [Head] fails otherwise or the commit's tree cannot be
    read. *)
Definition headTreeOf (repo : Repository) : result (option Tree) :=
  match Repository_Head repo with
  | Err err =>
      if isErrReferenceNotFound err then Ok None
      else Err (wrapError "failed to get HEAD: " err)
  | Ok head =>
      match Repository_CommitObject repo head with
      | Err _ => Ok None
      | Ok headCommit =>
          match Commit_Tree headCommit with
          | Err err => Err (wrapError "failed to get HEAD tree: " err)
          | Ok tree => Ok (Some tree)
          end
      end
  end.

(** [wd, _ := os.Getwd()]: the error is dropped, and the string is empty
    when there is one. *)
Definition getwd (os : OS) : string :=
  match Getwd os with Ok wd => wd | Err _ => "" end.

(** The literal [10000] of [GetStagedDiff], in bytes. *)
Definition diffLimit : nat := Z.to_nat 10000.

(** The end of [GetStagedDiff]:
    [if len(diff) > 10000 { return diff[:10000] + "\n...[TRUNCATED]" }]. *)
Definition capDiff (diff : string) : string :=
  if Nat.ltb diffLimit (String.length diff)
  then substring 0 diffLimit diff ++ nl ++ "...[TRUNCATED]"
  else diff.

(** [GetStagedDiff] *)
Definition GetStagedDiff (os : OS) : M string :=
  repo <- orWrap "failed to open repository: " (openRepo os) ;;
  worktree <- orWrap "failed to get worktree: " (lift (Repository_Worktree repo)) ;;
  status <- orWrap "failed to get status: " (lift (Worktree_Status worktree)) ;;
  let diffBuilder : Builder := "" in
  let wd := getwd os in
  headTree <- lift (headTreeOf repo) ;;
  let diffBuilder := rangeStatus os repo wd headTree status diffBuilder in
  let diff := diffBuilder in
  ret (capDiff diff).

(** [CommitWithMessage], as the go-git version of the file has it: the
    author identity is read from the configuration of the repository and
    checked before the worktree is asked to commit. *)
Definition CommitWithMessage (os : OS) (message : string) : M unit :=
  repo <- orWrap "failed to open repository: " (openRepo os) ;;
  worktree <- orWrap "failed to get worktree: " (lift (Repository_Worktree repo)) ;;
  config <- orWrap "failed to get git config: " (lift (Repository_Config repo)) ;;
  if String.eqb (UserName (ConfigUser config)) ""
  then fail (errorString
    ("git user name is not configured. Please set it with: git config user.name "
       ++ dq ++ "Your Name" ++ dq))
  else if String.eqb (UserEmail (ConfigUser config)) ""
  then fail (errorString
    ("git user email is not configured. Please set it with: git config user.email "
       ++ dq ++ "your.email@example.com" ++ dq))
  else
    let author := {| SigName := UserName (ConfigUser config);
                     SigEmail := UserEmail (ConfigUser config);
                     When := Now os |} in
    fun s =>
      let s1 := emit (EvCommit message author) s in
      match Worktree_Commit worktree message author with
      | Err err => (Err (wrapError "failed to commit: " err), s1)
      | Ok _ => (Ok tt, s1)
      end.

End git.

Import git.

(** The copy of the file under [internal/git/client.go] still has the
    earlier [CommitWithMessage], which runs the [git] program and reads
    no configuration itself. *)
Module git_exec.

(** [CommitWithMessage] *)
Definition CommitWithMessage (os : OS) (message : string) : M unit :=
  fun s =>
    match RunCommand os "git" ["commit"; "-m"; message] with
    | Err err => (Err (wrapError "failed to commit: " err), s)
    | Ok _ => (Ok tt, s)
    end.

End git_exec.

(** ** The Ollama client: [GenerateCommitMessage] *)

Module ai.

(** [time.Duration]: a signed 64-bit count of nanoseconds. *)
Definition Duration : Type := Z.

Definition wrap64 (z : Z) : Z := ((z + 2 ^ 63) mod 2 ^ 64 - 2 ^ 63)%Z.

Definition Second : Duration := 1000000000%Z.

Record OllamaClient : Type := {
  apiKey : string;
  baseURL : string;
  model : string;
  (** [client.Timeout] of the [http.Client] *)
  timeout : Duration
}.

(** [NewClient] *)
Definition NewClient (apiKey baseURL model : string) (timeout : Duration)
  : OllamaClient :=
  let baseURL :=
    if String.eqb baseURL "" then "http://localhost:11434/api/generate" else baseURL in
  let model := if String.eqb model "" then "gpt-oss:120b" else model in
  let timeout := if Z.eqb timeout 0 then (60 * Second)%Z else timeout in
  {| apiKey := apiKey; baseURL := baseURL; model := model; timeout := timeout |}.

Record ollamaRequest : Type := {
  Model : string;
  Prompt : string;
  Stream : bool
}.

Record ollamaResponse : Type := {
  Response : string;
  Done : bool
}.

(** An [http.Request], as the loop builds it. *)
Record Request : Type := {
  Method : string;
  URL : string;
  RequestBody : string;
  Header : list (string * string)
}.

(** An [http.Response]: [Body] is what [io.ReadAll(resp.Body)] gives. *)
Record HTTPResponse : Type := {
  StatusCode : Z;
  Status : string;
  Body : string
}.

(** The library functions and the network, as one call sees them. *)
Record Env : Type := {
  (** [json.Marshal(reqBody)] *)
  Marshal : ollamaRequest -> result string;
  (** the error of [http.NewRequest(method, url, body)], if any *)
  NewRequestError : string -> string -> option error;
  (** [c.client.Do(req)], for the request sent after [n] earlier ones *)
  Do : nat -> Request -> result HTTPResponse;
  (** [json.NewDecoder(resp.Body).Decode(&ollamaResp)] *)
  Decode : string -> result ollamaResponse;
  (** [strings.TrimSpace] *)
  TrimSpace : string -> string
}.

(** What the loop does besides returning. *)
Inductive Event : Type :=
| EvSleep (d : Duration)
| EvDo (req : Request).

(** [buildPrompt] *)
Definition buildPrompt (diff rules : string) : string :=
  let sb := "" in
  let sb := sb ++ "You are an expert DevOps engineer specialized in writing git commit messages." ++ nl ++ nl in
  let sb := sb ++ "Analyze the following code diff." ++ nl ++ nl in
  let sb := sb ++ "First, determine whether the diff represents a single logical change or multiple independent changes that should be split into smaller commits to follow clean code and best practices." ++ nl ++ nl in
  let sb := sb ++ "If the diff should be split, briefly state that it can be broken down and list the suggested commit scopes or purposes (do not generate the commits yet)." ++ nl ++ nl in
  let sb := sb ++ "If the diff represents a single logical change, generate a single-line git commit message following the Conventional Commits specification." ++ nl ++ nl in
  let sb := sb ++ "Format for commit message:" ++ nl ++ "<type>(<scope>): <description>" ++ nl ++ nl in
  let sb := sb ++ "Allowed types: feat, fix, docs, style, refactor, test, chore." ++ nl ++ nl in
  let sb := sb ++ "Do not output anything other than the message or the split suggestion." ++ nl ++ nl in
  let sb :=
    if negb (String.eqb rules "")
    then sb ++ "Team Rules:" ++ nl ++ rules ++ nl ++ nl
    else sb in
  let sb := sb ++ "Diff:" ++ nl in
  sb ++ diff.

Definition maxRetries : nat := 3.
Definition baseDelay : Duration := (2 * Second)%Z.

(** [baseDelay * time.Duration(1<<uint(attempt-1))] *)
Definition backoff (attempt : nat) : Duration :=
  wrap64 (baseDelay * wrap64 (Z.shiftl 1 (Z.of_nat attempt - 1))).

(** [%d] of a count. *)
Definition itoa (n : nat) : string := NilEmpty.string_of_uint (Nat.to_uint n).

(** The request of every attempt. *)
Definition requestOf (c : OllamaClient) (jsonBody : string) : Request :=
  {| Method := "POST";
     URL := baseURL c;
     RequestBody := jsonBody;
     Header := [("Content-Type", "application/json");
                ("Authorization", "Bearer " ++ apiKey c)] |}.

(** How one pass through the loop body ends: [continue], or [return]. *)
Inductive Outcome : Type :=
| Retry
| Return (r : result string).

(** The body of the retry loop at [attempt], with what it does. The
    notice written to standard error before a sleep is left out. *)
Definition attemptOnce (env : Env) (c : OllamaClient) (jsonBody : string)
    (attempt : nat) : Outcome * list Event :=
  let slept := if Nat.ltb 0 attempt then [EvSleep (backoff attempt)] else [] in
  match NewRequestError env "POST" (baseURL c) with
  | Some err => (Return (Err (wrapError "failed to create request: " err)), slept)
  | None =>
      let req := requestOf c jsonBody in
      let done := (slept ++ [EvDo req])%list in
      match Do env attempt req with
      | Err err => (Return (Err (wrapError "API call failed: " err)), done)
      | Ok resp =>
          if Z.eqb (StatusCode resp) 429 then
            if Nat.eqb attempt maxRetries then
              (Return (Err (errorString
                 ("API rate limit exceeded after " ++ itoa maxRetries ++
                  " retries: " ++ Body resp))), done)
            else (Retry, done)
          else if negb (Z.eqb (StatusCode resp) 200) then
            (Return (Err (errorString
               ("API returned error: " ++ Status resp ++
                " (body: " ++ Body resp ++ ")"))), done)
          else
            match Decode env (Body resp) with
            | Err err =>
                (Return (Err (wrapError "failed to decode response: " err)), done)
            | Ok ollamaResp =>
                if String.eqb (Response ollamaResp) ""
                then (Return (Err (errorString "empty response from model")), done)
                else (Return (Ok (TrimSpace env (Response ollamaResp))), done)
            end
      end
  end.

(** [for attempt := 0; attempt <= maxRetries; attempt++ { ... }], with
    [remaining] the passes left ([maxRetries + 1 - attempt]); falling out
    of the loop is the [unreachable] error. *)
Fixpoint retryLoop (env : Env) (c : OllamaClient) (jsonBody : string)
    (remaining attempt : nat) (done : list Event) : result string * list Event :=
  match remaining with
  | 0 => (Err (errorString "unreachable"), done)
  | S remaining' =>
      match attemptOnce env c jsonBody attempt with
      | (Return r, evs) => (r, (done ++ evs)%list)
      | (Retry, evs) =>
          retryLoop env c jsonBody remaining' (S attempt) (done ++ evs)%list
      end
  end.

(** [GenerateCommitMessage] *)
Definition GenerateCommitMessage (env : Env) (c : OllamaClient)
    (diff rules : string) : result string * list Event :=
  let prompt := buildPrompt diff rules in
  let reqBody := {| Model := model c; Prompt := prompt; Stream := false |} in
  match Marshal env reqBody with
  | Err err => (Err (wrapError "failed to marshal request: " err), [])
  | Ok jsonBody => retryLoop env c jsonBody (maxRetries + 1) 0 []
  end.

End ai.

(** ** What the diff loop writes *)

(** The lines of a body: every line between a marker and a line feed. *)
Definition markedLines (marker : string) (lines : list string) : string :=
  flat (map (fun line => marker ++ line ++ nl) lines).

(** What the loop body appends for one entry. *)
Definition fragment (os : OS) (repo : Repository) (headTree : option Tree)
    (entry : string * FileStatus) : string :=
  processEntry os repo (getwd os) headTree "" (fst entry) (snd entry).

(** The concatenation of the fragments of a status, in its order. *)
Definition naiveDiff (os : OS) (repo : Repository) (headTree : option Tree)
    (status : Status) : string :=
  flat (map (fragment os repo headTree) status).

(** The calls [GetStagedDiff] makes before its loop all succeed: the
    repository opens as [r] (leaving the client in [s']), its worktree
    reports [status], and the HEAD tree is [headTree]. *)
Definition ready (os : OS) (s : State) (r : Repository) (s' : State)
    (status : Status) (headTree : option Tree) : Prop :=
  openRepo os s = (Ok r, s') /\
  (exists worktree, Repository_Worktree r = Ok worktree /\
                    Worktree_Status worktree = Ok status) /\
  headTreeOf r = Ok headTree.

(** ** The text of each kind of fragment *)

Definition addedHeader (p extra : string) : string :=
  "diff --git a/" ++ p ++ " b/" ++ p ++ nl ++
  "new file mode 100644" ++ nl ++
  "index 0000000.." ++ extra ++ nl ++
  "--- /dev/null" ++ nl ++
  "+++ b/" ++ p ++ nl.

Definition deletedHeader (p extra : string) : string :=
  "diff --git a/" ++ p ++ " b/" ++ p ++ nl ++
  "deleted file mode 100644" ++ nl ++
  "index " ++ extra ++ "..0000000" ++ nl ++
  "--- a/" ++ p ++ nl ++
  "+++ /dev/null" ++ nl.

Definition modifiedHeader (p oldId newId : string) : string :=
  "diff --git a/" ++ p ++ " b/" ++ p ++ nl ++
  "index " ++ oldId ++ ".." ++ newId ++ " 100644" ++ nl ++
  "--- a/" ++ p ++ nl ++
  "+++ b/" ++ p ++ nl.

Definition renamedHeader (p extra : string) : string :=
  "diff --git a/" ++ extra ++ " b/" ++ p ++ nl ++
  "rename from " ++ extra ++ nl ++
  "rename to " ++ p ++ nl.

(** The bytes a lookup yields, or none when it failed. *)
Definition orEmpty (r : result string) : string :=
  match r with Ok content => content | Err _ => "" end.

Definition someOrEmpty (o : option string) : string :=
  match o with Some content => content | None => "" end.

(** The staging states the specification counts as staged. *)
Definition stagedKind (code : StatusCode) : Prop :=
  In code [Added; Modified; Deleted; Renamed; Copied].

(** An entry the diff loop skips: nothing of it is staged. *)
Definition unstaged (entry : string * FileStatus) : Prop :=
  Staging (snd entry) = Unmodified \/ Staging (snd entry) = Untracked.

(** How many of [lines] are equal to [line]. *)
Definition countLine (line : string) (lines : list string) : nat :=
  List.length (filter (String.eqb line) lines).

(** The blob of [p] cannot be had from the HEAD tree: there is no tree,
    or no entry for [p], or no object for its hash, or no reader on it. *)
Definition blobUnavailable (r : Repository) (headTree : option Tree)
    (p : string) : Prop :=
  match headTree with
  | None => True
  | Some tree =>
      match Tree_FindEntry tree p with
      | Err _ => True
      | Ok entry =>
          match Repository_BlobObject r (EntryHash entry) with
          | Err _ => True
          | Ok blob => isOk (Blob_Reader blob) = false
          end
      end
  end.

(** The client after a sequence of [openRepo] calls, each made in the
    world of its moment. *)
Fixpoint openRepoCalls (calls : list OS) (s : State) : State :=
  match calls with
  | [] => s
  | os :: rest => openRepoCalls rest (snd (openRepo os s))
  end.

(** The errors of a missing author identity. *)
Definition nameMissing : error :=
  errorString
    ("git user name is not configured. Please set it with: git config user.name "
       ++ dq ++ "Your Name" ++ dq).

Definition emailMissing : error :=
  errorString
    ("git user email is not configured. Please set it with: git config user.email "
       ++ dq ++ "your.email@example.com" ++ dq).

(** ** Stating the retry policy *)

(** The answer to the request of [attempt] is a 429. *)
Definition rateLimitedAt (env : ai.Env) (c : ai.OllamaClient) (jsonBody : string)
    (attempt : nat) : Prop :=
  exists resp, ai.Do env attempt (ai.requestOf c jsonBody) = Ok resp /\
               ai.StatusCode resp = 429%Z.

(** What one pass does when it gets an answer: sleep first on every pass
    but the first, then send. *)
Definition attemptEvents (c : ai.OllamaClient) (jsonBody : string)
    (attempt : nat) : list ai.Event :=
  ((if Nat.ltb 0 attempt then [ai.EvSleep (ai.backoff attempt)] else [])
     ++ [ai.EvDo (ai.requestOf c jsonBody)])%list.

Definition isDo (ev : ai.Event) : bool :=
  match ev with ai.EvDo _ => true | ai.EvSleep _ => false end.

(** The number of requests sent. *)
Definition requests (evs : list ai.Event) : nat := List.length (filter isDo evs).

(** The trace of a call whose first [retries] requests are answered by a
    429 and whose next one gets another answer: a request, then for each
    retry a sleep of [2 * 2 ^ i] seconds ([i] from 0) and a request. *)
Definition retryTrace (req : ai.Request) (retries : nat) : list ai.Event :=
  ai.EvDo req ::
  flat_map (fun i => [ai.EvSleep (2 * 2 ^ Z.of_nat i * ai.Second)%Z; ai.EvDo req])
           (seq 0 retries).

(** ** A small world to run the client in *)

Module Demo.

Definition join (dir name : string) : string := dir ++ "/" ++ name.

(** A reader that delivers the whole of [content]. *)
Definition readerOf (content : string) : Reader :=
  {| Reader_Read := fun n => substring 0 n content |}.

Definition blobOf (content : string) : Blob :=
  {| Blob_Size := String.length content; Blob_Reader := Ok (readerOf content) |}.

Definition notFound {A} (what : string) : result A := Err (errorString what).

(** The tree of the last commit: [old.txt] and [gone.txt]. *)
Definition tree : Tree :=
  {| Tree_FindEntry := fun p =>
       if String.eqb p "old.txt" then Ok {| Name := p; EntryHash := "h-old" |}
       else if String.eqb p "gone.txt" then Ok {| Name := p; EntryHash := "h-gone" |}
       else notFound "entry not found" |}.

Definition user : Config :=
  {| ConfigUser := {| UserName := "Test User"; UserEmail := "test@example.com" |} |}.

Definition repository (head : result Hash) (cfg : Config) (status : Status)
  : Repository :=
  {| Repository_Worktree :=
       Ok {| Worktree_Status := Ok status;
             Worktree_Commit := fun _ _ => Ok "c0ffee" |};
     Repository_Head := head;
     Repository_CommitObject := fun _ => Ok {| Commit_Tree := Ok tree |};
     Repository_BlobObject := fun h =>
       if String.eqb h "h-old" then Ok (blobOf ("one" ++ nl ++ "two" ++ nl))
       else if String.eqb h "h-gone" then Ok (blobOf ("bye" ++ nl))
       else notFound "object not found";
     Repository_Config := Ok cfg |}.

(** Files of the working copy, under [/w]. *)
Definition files (big : string) (path : string) : result string :=
  if String.eqb path "/w/hello.txt" then Ok ("hello" ++ nl)
  else if String.eqb path "/w/old.txt" then Ok ("one" ++ nl ++ "2" ++ nl)
  else if String.eqb path "/w/big.txt" then Ok big
  else notFound "no such file or directory".

Definition world (big : string) (r : Repository) : OS :=
  {| Getwd := Ok "/w";
     ReadFile := files big;
     Join := join;
     Now := 1700000000%Z;
     PlainOpenWithOptions := fun p =>
       if String.eqb p "/w" then Ok r else Err ErrRepositoryNotExists;
     RunCommand := fun _ _ => notFound "executable file not found in $PATH" |}.

Definition fresh : State := {| client := NewClient; trace := [] |}.

Definition opened (r : Repository) : State :=
  {| client := {| repo := Some r; repoPath := "/w" |};
     trace := [EvPlainOpen "/w"] |}.

Definition staged (code : StatusCode) (extra : string) : FileStatus :=
  {| Staging := code; WorktreeState := Unmodified; Extra := extra |}.

(** [n] copies of the byte [x]. *)
Fixpoint fill (n : nat) : string :=
  match n with 0 => "" | S k => String "x" (fill k) end.

Definition bigStatus : Status := [("big.txt", staged Added "")].
Definition bigRepo : Repository := repository (Ok "head") user bigStatus.
Definition bigWorld : OS := world (fill (Z.to_nat 10001)) bigRepo.

Definition helloStatus : Status :=
  [("notes.txt", staged Untracked ""); ("hello.txt", staged Added "")].
Definition helloRepo : Repository :=
  repository (Err ErrReferenceNotFound) user helloStatus.
Definition helloWorld : OS := world "" helloRepo.

Definition mixedStatus : Status :=
  [("kept.txt", staged Unmodified "");
   ("old.txt", staged Modified "");
   ("new.txt", staged Untracked "");
   ("gone.txt", staged Deleted "")].
Definition mixedRepo : Repository := repository (Ok "head") user mixedStatus.
Definition mixedWorld : OS := world "" mixedRepo.

(** One added file, [new.txt]: unreadable in the first world, empty in
    the second, which is otherwise the same. *)
Definition newStatus : Status := [("new.txt", staged Added "")].
Definition newRepo : Repository :=
  repository (Err ErrReferenceNotFound) user newStatus.
Definition unreadableWorld : OS := world "" newRepo.
Definition emptyFileWorld : OS :=
  {| Getwd := Getwd unreadableWorld;
     ReadFile := fun path =>
       if String.eqb path "/w/new.txt" then Ok ""
       else ReadFile unreadableWorld path;
     Join := Join unreadableWorld;
     Now := Now unreadableWorld;
     PlainOpenWithOptions := PlainOpenWithOptions unreadableWorld;
     RunCommand := RunCommand unreadableWorld |}.

End Demo.

Module DemoAI.

Definition ollama : ai.OllamaClient :=
  ai.NewClient "key" "" "" 0%Z.

(** A server that answers the first [n] requests by a 429 and the next
    ones by [status]. *)
Definition server (n : nat) (code : Z) (status : string) : ai.Env :=
  {| ai.Marshal := fun r => Ok (ai.Prompt r);
     ai.NewRequestError := fun _ _ => None;
     ai.Do := fun sent _ =>
       if Nat.ltb sent n
       then Ok {| ai.StatusCode := 429; ai.Status := "429 Too Many Requests";
                  ai.Body := "slow down" |}
       else Ok {| ai.StatusCode := code; ai.Status := status;
                  ai.Body := "feat: add hello" |};
     ai.Decode := fun body => Ok {| ai.Response := body; ai.Done := true |};
     ai.TrimSpace := fun s => s |}.

End DemoAI.


(** ** More of the operating system *)

(** The calls of [os], [path/filepath] and [runtime] that the
    configuration loaders and the application make besides those of
    [OS]. *)
Record Files : Type := {
  (** [os.Stat(path)], the file information dropped *)
  Stat : string -> result unit;
  (** [filepath.Dir(path)] *)
  Dir : string -> string;
  (** [os.Getenv(key)] *)
  Getenv : string -> string;
  (** [os.IsNotExist(err)] *)
  IsNotExist : error -> bool;
  (** [runtime.GOOS] *)
  GOOS : string;
  (** whether [os.WriteFile(path, data, perm)] succeeds *)
  WriteFile : string -> string -> Z -> result unit
}.

(** A call of [os.WriteFile]. *)
Inductive FileEvent : Type :=
| CallWriteFile (path data : string) (perm : Z).

(** [os.ErrNotExist], made by [errors.New]. *)
Definition ErrNotExist : error := errorString "file does not exist".

(** ** [internal/config] *)

Module config.

(** [Config]; [TimeoutSeconds] is a Go [int]. *)
Record Config : Type := {
  APIKey : string;
  Model : string;
  BaseURL : string;
  TimeoutSeconds : Z
}.

(** [encoding/json], for [Config]: [Unmarshal data config] is [config]
    after [json.Unmarshal(data, config)]. *)
Record JSON : Type := {
  Unmarshal : string -> Config -> result Config;
  MarshalIndent : Config -> result string
}.

(** The loop of [findRepoRoot], from [dir] upwards. The Go loop has no
    bound; [fuel] bounds the number of directories looked at, and [None]
    is the loop still running when it is used up. *)
Fixpoint findRepoRootFrom (fs : Files) (os : OS) (fuel : nat) (dir : string)
  : option (result string) :=
  match fuel with
  | 0 => None
  | S fuel' =>
      match Stat fs (Join os dir ".git") with
      | Ok _ => Some (Ok dir)
      | Err _ =>
          let parent := Dir fs dir in
          if String.eqb parent dir then Some (Err ErrNotExist)
          else findRepoRootFrom fs os fuel' parent
      end
  end.

(** [findRepoRoot] *)
Definition findRepoRoot (fs : Files) (os : OS) (fuel : nat)
  : option (result string) :=
  match Getwd os with
  | Err err => Some (Err err)
  | Ok dir => findRepoRootFrom fs os fuel dir
  end.

(** [FileLoader]; the mutex serialises [LoadRules]. *)
Record FileLoader : Type := {
  cachedRepoRoot : string;
  cachedRules : string
}.

(** [NewLoader()] *)
Definition NewLoader : FileLoader := {| cachedRepoRoot := ""; cachedRules := "" |}.

(** [LoadRules]: the rules and the error it returns, and the loader
    after the call. *)
Definition LoadRules (fs : Files) (os : OS) (fuel : nat) (c : FileLoader)
  : option (string * option error * FileLoader) :=
  match findRepoRoot fs os fuel with
  | None => None
  | Some (Err _) => Some ("", None, c)
  | Some (Ok repoRoot) =>
      if String.eqb (cachedRepoRoot c) repoRoot && negb (String.eqb (cachedRules c) "")
      then Some (cachedRules c, None, c)
      else
        let rulesPath := Join os repoRoot ".git-commit-rules-for-ai" in
        match ReadFile os rulesPath with
        | Err err =>
            if IsNotExist fs err
            then Some ("", None, {| cachedRepoRoot := repoRoot; cachedRules := "" |})
            else Some ("", Some err, c)
        | Ok content =>
            Some (content, None, {| cachedRepoRoot := repoRoot; cachedRules := content |})
        end
  end.

(** The configuration [LoadConfig] starts from. *)
Definition defaults : Config :=
  {| APIKey := "";
     Model := "gpt-oss:120b";
     BaseURL := "http://localhost:11434/api/generate";
     TimeoutSeconds := 60 |}.

Definition setAPIKey (key : string) (config : Config) : Config :=
  {| APIKey := key; Model := Model config; BaseURL := BaseURL config;
     TimeoutSeconds := TimeoutSeconds config |}.

(** [LoadConfig] *)
Definition LoadConfig (fs : Files) (json : JSON) (os : OS) (fuel : nat)
  : option (result Config) :=
  let config := defaults in
  match findRepoRoot fs os fuel with
  | None => None
  | Some found =>
      let parsed :=
        match found with
        | Ok repoRoot =>
            let configPath := Join os repoRoot ".commit-generator-config" in
            match ReadFile os configPath with
            | Ok fileData =>
                match Unmarshal json fileData config with
                | Err err => Err (wrapError "failed to parse config file: " err)
                | Ok config => Ok config
                end
            | Err _ => Ok config
            end
        | Err _ => Ok config
        end in
      match parsed with
      | Err err => Some (Err err)
      | Ok config =>
          if String.eqb (APIKey config) ""
          then Some (Ok (setAPIKey (Getenv fs "OLLAMA_API_KEY") config))
          else Some (Ok config)
      end
  end.

(** [GetTimeout]: [time.Duration(c.TimeoutSeconds) * time.Second]. *)
Definition GetTimeout (c : Config) : ai.Duration :=
  ai.wrap64 (ai.wrap64 (TimeoutSeconds c) * ai.Second).

(** [ConfigExists] *)
Definition ConfigExists (fs : Files) (os : OS) (fuel : nat)
  : option (result bool) :=
  match findRepoRoot fs os fuel with
  | None => None
  | Some (Err err) => Some (Err err)
  | Some (Ok repoRoot) =>
      let configPath := Join os repoRoot ".commit-generator-config" in
      match Stat fs configPath with
      | Ok _ => Some (Ok true)
      | Err err => if IsNotExist fs err then Some (Ok false) else Some (Err err)
      end
  end.

(** [SaveDefaultConfig]: the error it returns, and the write it makes. *)
Definition SaveDefaultConfig (fs : Files) (json : JSON) (os : OS)
    (repoRoot : string) : option error * list FileEvent :=
  let config := {| APIKey := Getenv fs "OLLAMA_API_KEY";
                   Model := "gpt-oss:120b";
                   BaseURL := "http://localhost:11434/api/generate";
                   TimeoutSeconds := 60 |} in
  let configPath := Join os repoRoot ".commit-generator-config" in
  match MarshalIndent json config with
  | Err err => (Some (wrapError "failed to marshal config: " err), [])
  | Ok data =>
      let wrote := [CallWriteFile configPath data 420] in
      match WriteFile fs configPath data 420 with
      | Err err => (Some (wrapError "failed to write config file: " err), wrote)
      | Ok _ => (None, wrote)
      end
  end.

End config.

(** ** [GetRepoRoot] of the git client *)

Module gitroot.

(** The loop of [GetRepoRoot], from [dir] upwards, bounded by [fuel] as
    [config.findRepoRootFrom] is: the directory with a [.git] entry, or
    [None] of the inner option when the loop breaks at the top. *)
Fixpoint climb (fs : Files) (os : OS) (fuel : nat) (dir : string)
  : option (option string) :=
  match fuel with
  | 0 => None
  | S fuel' =>
      match Stat fs (Join os dir ".git") with
      | Ok _ => Some (Some dir)
      | Err _ =>
          let parent := Dir fs dir in
          if String.eqb parent dir then Some None
          else climb fs os fuel' parent
      end
  end.

(** [GetRepoRoot]. [boundRoot worktree] is the root of the worktree's
    filesystem when that is an [*osfs.BoundOS]. *)
Definition GetRepoRoot (fs : Files) (boundRoot : Worktree -> option string)
    (os : OS) (fuel : nat) (s : State) : option (result string * State) :=
  match openRepo os s with
  | (Err err, s') => Some (Err (wrapError "failed to open repository: " err), s')
  | (Ok repo, s') =>
      match Repository_Worktree repo with
      | Err err => Some (Err (wrapError "failed to get worktree: " err), s')
      | Ok worktree =>
          match boundRoot worktree with
          | Some root => Some (Ok root, s')
          | None =>
              match Getwd os with
              | Err err =>
                  Some (Err (wrapError "failed to get working directory: " err), s')
              | Ok wd =>
                  match climb fs os fuel wd with
                  | None => None
                  | Some (Some dir) => Some (Ok dir, s')
                  | Some None =>
                      Some (Err (errorString
                        "failed to determine repository root: .git directory not found"),
                            s')
                  end
              end
          end
      end
  end.

End gitroot.

(** ** [internal/app]: [Run] *)

Module app.

(** The escape byte, written [\033] in the Go source. *)
Definition ESC : string := String (ascii_of_nat 27) "".

(** [git.Client], as the application sees it. [GetRepoRoot] may be a
    loop that does not end, which is [None]. *)
Record GitClient : Type := {
  IsInsideRepo : M bool;
  HasStagedChanges : M bool;
  GetStagedDiff : M string;
  CommitWithMessage : string -> M unit;
  GetRepoRoot : State -> option (result string * State)
}.

(** [config.Loader]: the rules and the error of one [LoadRules()]. *)
Record Loader : Type := {
  LoadRules : string * option error
}.

(** [ai.Client]: the answer of one [GenerateCommitMessage(diff, rules)]. *)
Record AIClient : Type := {
  GenerateCommitMessage : string -> string -> result string
}.

(** [App], without the configuration loader, which [Run] does not use. *)
Record App : Type := {
  Git : GitClient;
  RulesLoader : Loader;
  AI : AIClient
}.

(** What [Run] does besides returning: the calls it makes on its three
    collaborators, the warning it prints for an error [err] of the rules
    loader, and the lines it prints with [fmt.Println]. *)
Inductive Event : Type :=
| CallIsInsideRepo
| CallHasStagedChanges
| CallLoadRules
| CallGetStagedDiff
| CallGenerate (diff rules : string)
| Warning (err : error)
| Println (line : string).

(** [strings.Contains(message, "\n")] *)
Definition containsLF (message : string) : bool :=
  negb (Nat.eqb (Count message LF) 0).

(** [Run]: the error it returns ([None] is [nil]), the client after it,
    and what it did. *)
Definition Run (a : App) (s : State) : option error * State * list Event :=
  let done := [CallIsInsideRepo] in
  match IsInsideRepo (Git a) s with
  | (Err err, s) =>
      (Some (wrapError "failed to check repository status: " err), s, done)
  | (Ok isRepo, s) =>
      if negb isRepo then (Some (errorString "not a git repository"), s, done)
      else
        let done := (done ++ [CallHasStagedChanges])%list in
        match HasStagedChanges (Git a) s with
        | (Err err, s) =>
            (Some (wrapError "failed to check for staged changes: " err), s, done)
        | (Ok hasChanges, s) =>
            if negb hasChanges
            then (Some (errorString
                    "no staged changes found. Please stage your changes using 'git add'"),
                  s, done)
            else
              let '(rules, failed) := LoadRules (RulesLoader a) in
              let done := (done ++ [CallLoadRules])%list in
              let done :=
                match failed with
                | Some err => (done ++ [Warning err])%list
                | None => done
                end in
              let done := (done ++ [CallGetStagedDiff])%list in
              match GetStagedDiff (Git a) s with
              | (Err err, s) => (Some (wrapError "failed to get diff: " err), s, done)
              | (Ok diff, s) =>
                  let done := (done ++ [Println "Generating commit message...";
                                        CallGenerate diff rules])%list in
                  match GenerateCommitMessage (AI a) diff rules with
                  | Err err =>
                      (Some (wrapError "failed to generate commit message: " err),
                       s, done)
                  | Ok message =>
                      if containsLF message
                      then (None, s,
                            (done ++
                             [Println (nl ++ ESC ++ "[33mAI Suggestion (Split Changes):"
                                          ++ ESC ++ "[0m");
                              Println message])%list)
                      else (None, s,
                            (done ++
                             [Println (nl ++ ESC ++ "[36m" ++ message ++ ESC ++ "[0m")])%list)
                  end
              end
        end
  end.

End app.

(** ** [internal/app]: [Init] *)

Module appinit.

(** [generateUnixHook] *)
Definition generateUnixHook : string :=
  "#!/bin/bash" ++ nl ++
  "# Pre-commit hook for AI commit message generator" ++ nl ++
  nl ++
  "# Check if there are staged changes" ++ nl ++
  "if ! git diff --staged --quiet; then" ++ nl ++
  "    # Generate commit message" ++ nl ++
  "    COMMIT_MSG=$(generate-commit 2>&1)" ++ nl ++
  "    EXIT_CODE=$?" ++ nl ++
  "    " ++ nl ++
  "    if [ $EXIT_CODE -ne 0 ]; then" ++ nl ++
  "        echo " ++ dq ++ "Error generating commit message: $COMMIT_MSG" ++ dq ++ nl ++
  "        exit 1" ++ nl ++
  "    fi" ++ nl ++
  "    " ++ nl ++
  "    # Extract just the message (skip " ++ dq ++ "Generating commit message..." ++ dq ++ " line)" ++ nl ++
  "    COMMIT_MSG=$(echo " ++ dq ++ "$COMMIT_MSG" ++ dq ++ " | grep -v " ++ dq ++ "Generating commit message" ++ dq ++ " | sed 's/^[[:space:]]*//' | sed '/^$/d')" ++ nl ++
  "    " ++ nl ++
  "    if [ -z " ++ dq ++ "$COMMIT_MSG" ++ dq ++ " ]; then" ++ nl ++
  "        echo " ++ dq ++ "No commit message generated" ++ dq ++ nl ++
  "        exit 1" ++ nl ++
  "    fi" ++ nl ++
  "    " ++ nl ++
  "    # Display the generated message" ++ nl ++
  "    echo " ++ dq ++ dq ++ nl ++
  "    echo " ++ dq ++ "Generated commit message:" ++ dq ++ nl ++
  "    echo " ++ dq ++ "==========================" ++ dq ++ nl ++
  "    echo " ++ dq ++ "$COMMIT_MSG" ++ dq ++ nl ++
  "    echo " ++ dq ++ "==========================" ++ dq ++ nl ++
  "    echo " ++ dq ++ dq ++ nl ++
  "    echo " ++ dq ++ "Options:" ++ dq ++ nl ++
  "    echo " ++ dq ++ "  [A]ccept and commit" ++ dq ++ nl ++
  "    echo " ++ dq ++ "  [R]eject (abort commit)" ++ dq ++ nl ++
  "    echo " ++ dq ++ "  [E]dit message" ++ dq ++ nl ++
  "    echo " ++ dq ++ dq ++ nl ++
  "    read -p " ++ dq ++ "Your choice (A/R/E): " ++ dq ++ " choice" ++ nl ++
  "    " ++ nl ++
  "    case " ++ dq ++ "$choice" ++ dq ++ " in" ++ nl ++
  "        [Aa]*)" ++ nl ++
  "            # Accept: commit with the generated message" ++ nl ++
  "            git commit -m " ++ dq ++ "$COMMIT_MSG" ++ dq ++ " --no-verify" ++ nl ++
  "            # Exit with error to prevent original commit from proceeding" ++ nl ++
  "            # (since we already committed)" ++ nl ++
  "            exit 1" ++ nl ++
  "            ;;" ++ nl ++
  "        [Rr]*)" ++ nl ++
  "            # Reject: abort the commit" ++ nl ++
  "            echo " ++ dq ++ "Commit aborted by user" ++ dq ++ nl ++
  "            exit 1" ++ nl ++
  "            ;;" ++ nl ++
  "        [Ee]*)" ++ nl ++
  "            # Edit: allow user to modify" ++ nl ++
  "            echo " ++ dq ++ "$COMMIT_MSG" ++ dq ++ " > /tmp/commit_msg.txt" ++ nl ++
  "            ${EDITOR:-nano} /tmp/commit_msg.txt" ++ nl ++
  "            EDITED_MSG=$(cat /tmp/commit_msg.txt)" ++ nl ++
  "            git commit -m " ++ dq ++ "$EDITED_MSG" ++ dq ++ " --no-verify" ++ nl ++
  "            rm -f /tmp/commit_msg.txt" ++ nl ++
  "            # Exit with error to prevent original commit from proceeding" ++ nl ++
  "            exit 1" ++ nl ++
  "            ;;" ++ nl ++
  "        *)" ++ nl ++
  "            echo " ++ dq ++ "Invalid choice. Aborting commit." ++ dq ++ nl ++
  "            exit 1" ++ nl ++
  "            ;;" ++ nl ++
  "    esac" ++ nl ++
  "fi" ++ nl.

(** [generateWindowsHook] *)
Definition generateWindowsHook : string :=
  "@echo off" ++ nl ++
  "REM Pre-commit hook for AI commit message generator (Windows)" ++ nl ++
  nl ++
  "REM Check if there are staged changes" ++ nl ++
  "git diff --staged --quiet >nul 2>&1" ++ nl ++
  "if %errorlevel% equ 0 exit /b 0" ++ nl ++
  nl ++
  "REM Generate commit message" ++ nl ++
  "for /f " ++ dq ++ "delims=" ++ dq ++ " %%i in ('generate-commit 2^>^&1') do set OUTPUT=%%i" ++ nl ++
  "if errorlevel 1 (" ++ nl ++
  "    echo Error generating commit message" ++ nl ++
  "    exit /b 1" ++ nl ++
  ")" ++ nl ++
  nl ++
  "REM Extract commit message (basic extraction - may need refinement)" ++ nl ++
  "set COMMIT_MSG=%OUTPUT%" ++ nl ++
  "REM Remove " ++ dq ++ "Generating commit message..." ++ dq ++ " line if present" ++ nl ++
  "set COMMIT_MSG=%COMMIT_MSG:Generating commit message...=%" ++ nl ++
  nl ++
  "if " ++ dq ++ "%COMMIT_MSG%" ++ dq ++ "==" ++ dq ++ dq ++ " (" ++ nl ++
  "    echo No commit message generated" ++ nl ++
  "    exit /b 1" ++ nl ++
  ")" ++ nl ++
  nl ++
  "REM Display the generated message" ++ nl ++
  "echo." ++ nl ++
  "echo Generated commit message:" ++ nl ++
  "echo ==========================" ++ nl ++
  "echo %COMMIT_MSG%" ++ nl ++
  "echo ==========================" ++ nl ++
  "echo." ++ nl ++
  "echo Options:" ++ nl ++
  "echo   [A]ccept and commit" ++ nl ++
  "echo   [R]eject (abort commit)" ++ nl ++
  "echo   [E]dit message" ++ nl ++
  "echo." ++ nl ++
  "set /p CHOICE=Your choice (A/R/E): " ++ nl ++
  nl ++
  "if /i " ++ dq ++ "%CHOICE%" ++ dq ++ "==" ++ dq ++ "A" ++ dq ++ " goto accept" ++ nl ++
  "if /i " ++ dq ++ "%CHOICE:~0,1%" ++ dq ++ "==" ++ dq ++ "A" ++ dq ++ " goto accept" ++ nl ++
  "if /i " ++ dq ++ "%CHOICE%" ++ dq ++ "==" ++ dq ++ "R" ++ dq ++ " goto reject" ++ nl ++
  "if /i " ++ dq ++ "%CHOICE:~0,1%" ++ dq ++ "==" ++ dq ++ "R" ++ dq ++ " goto reject" ++ nl ++
  "if /i " ++ dq ++ "%CHOICE%" ++ dq ++ "==" ++ dq ++ "E" ++ dq ++ " goto edit" ++ nl ++
  "if /i " ++ dq ++ "%CHOICE:~0,1%" ++ dq ++ "==" ++ dq ++ "E" ++ dq ++ " goto edit" ++ nl ++
  "echo Invalid choice. Aborting commit." ++ nl ++
  "exit /b 1" ++ nl ++
  nl ++
  ":accept" ++ nl ++
  "git commit -m " ++ dq ++ "%COMMIT_MSG%" ++ dq ++ " --no-verify" ++ nl ++
  "exit /b 1" ++ nl ++
  nl ++
  ":reject" ++ nl ++
  "echo Commit aborted by user" ++ nl ++
  "exit /b 1" ++ nl ++
  nl ++
  ":edit" ++ nl ++
  "echo %COMMIT_MSG% > %TEMP%\commit_msg.txt" ++ nl ++
  "notepad %TEMP%\commit_msg.txt" ++ nl ++
  "set /p EDITED_MSG=<%TEMP%\commit_msg.txt" ++ nl ++
  "git commit -m " ++ dq ++ "%EDITED_MSG%" ++ dq ++ " --no-verify" ++ nl ++
  "del %TEMP%\commit_msg.txt" ++ nl ++
  "exit /b 1" ++ nl.

(** [rulesContent] of [Init] *)
Definition rulesContent : string :=
  "# Git Commit Rules for AI Generator" ++ nl ++
  "# Customize these rules to match your team's conventions" ++ nl ++
  nl ++
  "# Example rules:" ++ nl ++
  "# - Always start with a verb (Add, Fix, Update)" ++ nl ++
  "# - If the change affects the UI, mention it" ++ nl ++
  "# - Max 50 characters for the subject line" ++ nl ++
  "# - Include Jira ticket ID if applicable" ++ nl.

(** [generatePreCommitHook], which never fails. *)
Definition generatePreCommitHook (fs : Files) : string :=
  if String.eqb (GOOS fs) "windows" then generateWindowsHook else generateUnixHook.

(** The check mark that [Init] prints, in UTF-8. *)
Definition check : string :=
  String (ascii_of_nat 226) (String (ascii_of_nat 156) (String (ascii_of_nat 147) "")).

(** What [Init] does besides returning: the files it writes and the text
    it prints. *)
Inductive Event : Type :=
| File (ev : FileEvent)
| Stdout (text : string).

(** The last lines [Init] prints. *)
Definition nextSteps : list Event :=
  [Stdout (nl ++ "Initialization complete!" ++ nl);
   Stdout ("Next steps:" ++ nl);
   Stdout ("1. Update .commit-generator-config with your API key if needed" ++ nl);
   Stdout ("2. Customize .git-commit-rules-for-ai with your team's rules" ++ nl);
   Stdout ("3. Stage your changes and commit - the hook will generate your commit message!" ++ nl)].

(** [Init]. The permissions [0644] and [0755] are 420 and 493. [None] is
    a call that does not return, because [GetRepoRoot] or [ConfigExists]
    does not. The four-argument [filepath.Join] is taken as three joins
    of two. *)
Definition Init (fs : Files) (json : config.JSON) (os : OS) (fuel : nat)
    (Git : app.GitClient) (s : State)
  : option (option error * State * list Event) :=
  match app.IsInsideRepo Git s with
  | (Err err, s) =>
      Some (Some (wrapError "failed to check repository status: " err), s, [])
  | (Ok isRepo, s) =>
      if negb isRepo
      then Some (Some (errorString
             "not a git repository. Please run this command from within a git repository"),
             s, [])
      else
        match app.GetRepoRoot Git s with
        | None => None
        | Some (Err err, s) =>
            Some (Some (wrapError "failed to get repository root: " err), s, [])
        | Some (Ok repoRoot, s) =>
            match config.ConfigExists fs os fuel with
            | None => None
            | Some (Err err) =>
                Some (Some (wrapError "failed to check config existence: " err), s, [])
            | Some (Ok true) =>
                Some (None, s,
                      [Stdout ("Repository already initialized. Use --force to reinitialize."
                                 ++ nl)])
            | Some (Ok false) =>
                let done := [Stdout ("Initializing commit generator..." ++ nl)] in
                let '(failed, wrote) := config.SaveDefaultConfig fs json os repoRoot in
                let done := (done ++ map File wrote)%list in
                match failed with
                | Some err =>
                    Some (Some (wrapError "failed to create config file: " err), s, done)
                | None =>
                    let done :=
                      (done ++ [Stdout (check ++ " Created .commit-generator-config" ++ nl)])%list in
                    let rulesPath := Join os repoRoot ".git-commit-rules-for-ai" in
                    let missing :=
                      match Stat fs rulesPath with
                      | Ok _ => false
                      | Err err => IsNotExist fs err
                      end in
                    let rulesStep :=
                      if missing then
                        let wrote := [File (CallWriteFile rulesPath rulesContent 420)] in
                        match WriteFile fs rulesPath rulesContent 420 with
                        | Err err =>
                            (Some (wrapError "failed to create rules file: " err), wrote)
                        | Ok _ =>
                            (None,
                             (wrote ++
                              [Stdout (check ++ " Created .git-commit-rules-for-ai" ++ nl)])%list)
                        end
                      else (None, [Stdout (check ++ " Rules file already exists" ++ nl)]) in
                    let done := (done ++ snd rulesStep)%list in
                    match fst rulesStep with
                    | Some err => Some (Some err, s, done)
                    | None =>
                        let hookPath :=
                          Join os (Join os (Join os repoRoot ".git") "hooks") "pre-commit" in
                        let hookContent := generatePreCommitHook fs in
                        let hookPath :=
                          if String.eqb (GOOS fs) "windows" then hookPath ++ ".bat"
                          else hookPath in
                        let done :=
                          (done ++ [File (CallWriteFile hookPath hookContent 493)])%list in
                        match WriteFile fs hookPath hookContent 493 with
                        | Err err =>
                            Some (Some (wrapError "failed to create pre-commit hook: " err),
                                  s, done)
                        | Ok _ =>
                            Some (None, s,
                                  (done ++
                                   [Stdout (check ++ " Created pre-commit hook" ++ nl)] ++
                                   nextSteps)%list)
                        end
                    end
                end
            end
        end
  end.

End appinit.

(** The files a call of [Init] writes, in order. *)
Definition writesOf (evs : list appinit.Event) : list FileEvent :=
  flat_map (fun ev => match ev with
                      | appinit.File w => [w]
                      | appinit.Stdout _ => []
                      end) evs.

(** The path of a write. *)
Definition pathOf (w : FileEvent) : string :=
  match w with CallWriteFile path _ _ => path end.

(** The path of the hook. *)
Definition hookPathOf (fs : Files) (os : OS) (root : string) : string :=
  let path := Join os (Join os (Join os root ".git") "hooks") "pre-commit" in
  if String.eqb (GOOS fs) "windows" then path ++ ".bat" else path.

(** The git client of this repository behind the interface of the
    application. *)
Definition realGit (fs : Files) (boundRoot : Worktree -> option string)
    (os : OS) (fuel : nat) : app.GitClient :=
  {| app.IsInsideRepo := git.IsInsideRepo os;
     app.HasStagedChanges := git.HasStagedChanges os;
     app.GetStagedDiff := git.GetStagedDiff os;
     app.CommitWithMessage := git.CommitWithMessage os;
     app.GetRepoRoot := gitroot.GetRepoRoot fs boundRoot os fuel |}.

(** The events of a run, and its error. *)
Definition eventsOf (run : option error * State * list app.Event) : list app.Event :=
  snd run.
Definition errorOf (run : option error * State * list app.Event) : option error :=
  fst (fst run).
Definition stateOf (run : option error * State * list app.Event) : State :=
  snd (fst run).

(** How many repositories a trace opens. *)
Definition opens (evs : list Event) : nat :=
  List.length (filter (fun ev => match ev with EvPlainOpen _ => true | _ => false end) evs).

Module DemoApp.

(** Collaborators that answer without looking at anything, as the mocks
    of the tests do. *)
Definition mockGit (isRepo hasChanges : result bool) (diff : result string)
  : app.GitClient :=
  {| app.IsInsideRepo := lift isRepo;
     app.HasStagedChanges := lift hasChanges;
     app.GetStagedDiff := lift diff;
     app.CommitWithMessage := fun _ => ret tt;
     app.GetRepoRoot := fun s => Some (Ok "/tmp/test-repo", s) |}.

Definition mockApp (isRepo hasChanges : result bool) (diff : result string)
    (rules : string * option error) (message : result string) : app.App :=
  {| app.Git := mockGit isRepo hasChanges diff;
     app.RulesLoader := {| app.LoadRules := rules |};
     app.AI := {| app.GenerateCommitMessage := fun _ _ => message |} |}.

End DemoApp.


(** ** Notions used to state properties of the configuration loaders *)

(** The [n]-th directory above [dir]. *)
Definition ancestor (fs : Files) (n : nat) (dir : string) : string :=
  Nat.iter n (Dir fs) dir.

(** [dir] holds a [.git] entry. *)
Definition hasDotGit (fs : Files) (os : OS) (dir : string) : bool :=
  isOk (Stat fs (Join os dir ".git")).

(** The client [runGenerate] makes from a configuration. *)
Definition clientOf (cfg : config.Config) : ai.OllamaClient :=
  ai.NewClient (config.APIKey cfg) (config.BaseURL cfg) (config.Model cfg)
    (config.GetTimeout cfg).

Module DemoFiles.

(** Directories are [/], [/w] and [/w/sub]; [/w] is a repository. *)
Definition dir (path : string) : string :=
  if String.eqb path "/w/sub" then "/w" else "/".

Definition files : Files :=
  {| Stat := fun path =>
       if String.eqb path "/w/.git" then Ok tt
       else Demo.notFound "no such file or directory";
     Dir := dir;
     Getenv := fun key => if String.eqb key "OLLAMA_API_KEY" then "env-key" else "";
     IsNotExist := fun err =>
       match err with
       | errorString msg => String.eqb msg "no such file or directory"
       | _ => false
       end;
     GOOS := "linux";
     WriteFile := fun _ _ _ => Ok tt |}.

(** A world whose working directory is [/w/sub], with the given rules
    file and configuration file in [/w]. *)
Definition world (rules cfg : result string) : OS :=
  {| Getwd := Ok "/w/sub";
     ReadFile := fun path =>
       if String.eqb path "/w/.git-commit-rules-for-ai" then rules
       else if String.eqb path "/w/.commit-generator-config" then cfg
       else Demo.notFound "no such file or directory";
     Join := Demo.join;
     Now := 1700000000%Z;
     PlainOpenWithOptions := fun _ => Err ErrRepositoryNotExists;
     RunCommand := fun _ _ => Demo.notFound "executable file not found in $PATH" |}.

(** A decoder that knows one file text, which sets the key and the
    timeout. *)
Definition json : config.JSON :=
  {| config.Unmarshal := fun data cfg =>
       if String.eqb data "{key, 5s}"
       then Ok {| config.APIKey := "file-key"; config.Model := config.Model cfg;
                  config.BaseURL := config.BaseURL cfg; config.TimeoutSeconds := 5 |}
       else if String.eqb data "{}" then Ok cfg
       else Demo.notFound "invalid character";
     config.MarshalIndent := fun _ => Ok "{}" |}.

End DemoFiles.


(** ** Further notions used to state properties of the git client *)

(** An entry for which the diff loop writes nothing: it is skipped, or
    its staging state has no case in the [switch]. *)
Definition silent (entry : string * FileStatus) : Prop :=
  Staging (snd entry) = Unmodified \/ Staging (snd entry) = Untracked \/
  Staging (snd entry) = Copied.

(** A line of a body without its first byte, the marker. *)
Definition stripMarker (line : string) : string :=
  substring 1 (String.length line - 1) line.

(** The content a body was written from: its lines but the empty rest
    after the last line feed, each without its marker, joined by line
    feeds. *)
Definition contentOfBody (body : string) : string :=
  String.concat nl (map stripMarker (removelast (Split body LF))).

(** What a text holds behind its first [n] bytes. *)
Definition behind (n : nat) (text : string) : string :=
  substring n (String.length text - n) text.

Module DemoGit.

Definition copiedStatus : Status :=
  [("kept.txt", Demo.staged Unmodified ""); ("copy.txt", Demo.staged Copied "orig.txt")].
Definition copiedRepo : Repository := Demo.repository (Ok "head") Demo.user copiedStatus.
Definition copiedWorld : OS := Demo.world "" copiedRepo.

Definition goneStatus : Status := [("gone.txt", Demo.staged Deleted "")].
Definition goneRepo : Repository := Demo.repository (Ok "head") Demo.user goneStatus.
Definition goneWorld : OS := Demo.world "" goneRepo.

Definition movedStatus : Status := [("new/name.txt", Demo.staged Renamed "old/name.txt")].

(** The repository of [Demo.mixedWorld] at a call whose loop visits the
    status map in the opposite order. *)
Definition reorderedRepo : Repository :=
  Demo.repository (Ok "head") Demo.user (rev Demo.mixedStatus).
Definition reorderedWorld : OS := Demo.world "" reorderedRepo.

(** A working directory that is in no repository. *)
Definition elsewhere : OS :=
  {| Getwd := Ok "/elsewhere";
     ReadFile := Demo.files "";
     Join := Demo.join;
     Now := 1700000000%Z;
     PlainOpenWithOptions := fun _ => Err ErrRepositoryNotExists;
     RunCommand := fun _ _ => Demo.notFound "executable file not found in $PATH" |}.

(** The working directory [/w] after its repository is gone. *)
Definition vanished : OS :=
  {| Getwd := Ok "/w";
     ReadFile := Demo.files "";
     Join := Demo.join;
     Now := 1700000000%Z;
     PlainOpenWithOptions := fun _ => Err ErrRepositoryNotExists;
     RunCommand := fun _ _ => Demo.notFound "executable file not found in $PATH" |}.

(** A machine that cannot tell its working directory. *)
Definition lost : OS :=
  {| Getwd := Demo.notFound "getwd: no such file or directory";
     ReadFile := Demo.files "";
     Join := Demo.join;
     Now := 1700000000%Z;
     PlainOpenWithOptions := fun _ => Err ErrRepositoryNotExists;
     RunCommand := fun _ _ => Demo.notFound "executable file not found in $PATH" |}.

End DemoGit.


(** ** Further notions used to state properties of the Ollama client *)

(** The time a call spends sleeping. *)
Definition totalSleep (evs : list ai.Event) : ai.Duration :=
  fold_right (fun ev acc =>
                match ev with
                | ai.EvSleep d => (d + acc)%Z
                | ai.EvDo _ => acc
                end) 0%Z evs.

(** The instructions every prompt starts with: the prompt for no rules
    and no diff, without its last line [Diff:]. *)
Definition promptInstructions : string :=
  substring 0 (String.length (ai.buildPrompt "" "") - 6) (ai.buildPrompt "" "").



(** * Properties *)

(** ** Facts about Go strings *)

Section StringFacts.

Lemma app_empty_r (s : string) : s ++ "" = s.
Proof. induction s; simpl; congruence. Qed.

Lemma app_assoc_s (a b c : string) : (a ++ b) ++ c = a ++ (b ++ c).
Proof. induction a; simpl; congruence. Qed.

Lemma length_app (a b : string) :
  String.length (a ++ b) = String.length a + String.length b.
Proof. induction a; simpl; congruence. Qed.

Lemma substring_0_app (a b : string) :
  substring 0 (String.length a) (a ++ b) = a.
Proof. induction a; simpl; [destruct b; reflexivity | congruence]. Qed.

Lemma length_substring_0 (n : nat) (s : string) :
  n <= String.length s -> String.length (substring 0 n s) = n.
Proof.
  revert s; induction n as [|n IH]; intros [|c s] H; simpl in *;
    try reflexivity; try lia.
  rewrite IH; lia.
Qed.

Lemma substring_0_prefix (n : nat) (s : string) :
  n <= String.length s -> exists t, s = substring 0 n s ++ t.
Proof.
  revert s; induction n as [|n IH]; intros s H.
  - exists s. destruct s; reflexivity.
  - destruct s as [|c s]; simpl in *; [lia|].
    destruct (IH s) as [t Ht]; [lia|].
    exists t. simpl. congruence.
Qed.

Lemma Count_app (a b : string) (c : ascii) :
  Count (a ++ b) c = Count a c + Count b c.
Proof. induction a; simpl; [reflexivity | rewrite IHa; lia]. Qed.

Lemma Split_nonempty (s : string) (c : ascii) : Split s c <> [].
Proof.
  induction s as [|a s IH]; simpl; [discriminate|].
  destruct (Ascii.eqb a c); [discriminate|].
  destruct (Split s c); discriminate.
Qed.

(** [Split] returns one more piece than there are separators. *)
Lemma Split_length (s : string) (c : ascii) :
  List.length (Split s c) = Count s c + 1.
Proof.
  induction s as [|a s IH]; simpl; [reflexivity|].
  destruct (Ascii.eqb a c); simpl; [lia|].
  destruct (Split s c) eqn:E; simpl in *; lia.
Qed.

(** No piece contains the separator. *)
Lemma Split_pieces (s : string) (c : ascii) :
  Forall (fun l => Count l c = 0) (Split s c).
Proof.
  induction s as [|a s IH]; simpl.
  - constructor; [reflexivity | constructor].
  - destruct (Ascii.eqb a c) eqn:E.
    + constructor; [reflexivity | assumption].
    + destruct (Split s c) as [|l ls].
      * constructor; [simpl; rewrite E; reflexivity | constructor].
      * inversion IH; subst.
        constructor; [simpl; rewrite E; simpl; assumption | assumption].
Qed.

Lemma Split_no_sep (s : string) (c : ascii) :
  Count s c = 0 -> Split s c = [s].
Proof.
  induction s as [|a s IH]; simpl; [reflexivity|].
  destruct (Ascii.eqb a c); simpl; [discriminate|].
  intros H. rewrite IH by assumption. reflexivity.
Qed.

(** Splitting at the first separator. *)
Lemma Split_app_sep (a b : string) (c : ascii) :
  Count a c = 0 -> Split (a ++ String c b) c = a :: Split b c.
Proof.
  induction a as [|x a IH]; simpl.
  - intros _. rewrite Ascii.eqb_refl. reflexivity.
  - destruct (Ascii.eqb x c); simpl; [discriminate|].
    intros H. rewrite IH by assumption. reflexivity.
Qed.

(** Joining the pieces with the separator gives the string back. *)
Lemma Split_join (s : string) (c : ascii) :
  String.concat (String c "") (Split s c) = s.
Proof.
  induction s as [|a s IH]; simpl; [reflexivity|].
  destruct (Ascii.eqb a c) eqn:E.
  - apply Ascii.eqb_eq in E; subst a.
    pose proof (Split_nonempty s c) as NE.
    destruct (Split s c) as [|l ls]; [congruence|].
    simpl in *. congruence.
  - destruct (Split s c) as [|l ls] eqn:ES.
    + exfalso. eapply Split_nonempty; eassumption.
    + destruct ls; simpl in *; congruence.
Qed.

(** A string that ends with the separator has an empty last piece. *)
Lemma Split_trailing_sep (s : string) (c : ascii) :
  exists ls, Split (s ++ String c "") c = (ls ++ [""])%list /\ ls = Split s c.
Proof.
  exists (Split s c). split; [|reflexivity].
  induction s as [|a s IH]; simpl.
  - rewrite Ascii.eqb_refl. reflexivity.
  - destruct (Ascii.eqb a c); simpl.
    + rewrite IH. reflexivity.
    + rewrite IH.
      pose proof (Split_nonempty s c) as NE.
      destruct (Split s c); [congruence | reflexivity].
Qed.

End StringFacts.

(** ** The diff loop *)

Section DiffLoop.

Variables (os : OS) (repo : Repository) (headTree : option Tree).

Lemma flat_cons (x : string) (xs : list string) : flat (x :: xs) = x ++ flat xs.
Proof.
  unfold flat. destruct xs; simpl; [rewrite app_empty_r|]; reflexivity.
Qed.

Lemma flat_app (xs ys : list string) :
  flat (xs ++ ys)%list = flat xs ++ flat ys.
Proof.
  induction xs as [|x xs IH]; [reflexivity|].
  change ((x :: xs) ++ ys)%list with (x :: (xs ++ ys)%list).
  rewrite !flat_cons, IH, app_assoc_s. reflexivity.
Qed.

Lemma writeLines_app (marker : string) (lines : list string) (b : Builder) :
  writeLines marker lines b = b ++ markedLines marker lines.
Proof.
  revert b; induction lines as [|l ls IH]; intros b; simpl.
  - unfold markedLines; simpl. rewrite app_empty_r. reflexivity.
  - rewrite IH. unfold markedLines, WriteString.
    change (map ?f (l :: ls)) with (f l :: map f ls).
    rewrite flat_cons, !app_assoc_s. reflexivity.
Qed.

Lemma processEntry_app (wd : string) (b : Builder) (p : string) (fs : FileStatus) :
  processEntry os repo wd headTree b p fs =
  b ++ processEntry os repo wd headTree "" p fs.
Proof.
  unfold processEntry, WriteString.
  destruct (Staging fs);
    try (rewrite app_empty_r; reflexivity).
  - destruct (headContent repo headTree p); destruct (ReadFile os (Join os wd p));
      rewrite !writeLines_app; repeat rewrite app_assoc_s; reflexivity.
  - destruct (ReadFile os (Join os wd p));
      rewrite ?writeLines_app; repeat rewrite app_assoc_s; reflexivity.
  - destruct (headContent repo headTree p);
      rewrite ?writeLines_app; repeat rewrite app_assoc_s; reflexivity.
  - repeat rewrite app_assoc_s; reflexivity.
Qed.

Lemma rangeStatus_app (status : Status) (b : Builder) :
  rangeStatus os repo (getwd os) headTree status b =
  b ++ naiveDiff os repo headTree status.
Proof.
  revert b; induction status as [|[p fs] rest IH]; intros b; simpl.
  - unfold naiveDiff; simpl. rewrite app_empty_r. reflexivity.
  - rewrite IH, processEntry_app. unfold naiveDiff.
    change (map ?f ((p, fs) :: rest)) with (f (p, fs) :: map f rest).
    rewrite flat_cons, app_assoc_s. reflexivity.
Qed.

End DiffLoop.

(** [GetStagedDiff] returns the capped concatenation of the fragments
    whenever the calls before its loop succeed. *)
Lemma GetStagedDiff_run (os : OS) (s s' : State) (r : Repository)
    (status : Status) (headTree : option Tree) :
  ready os s r s' status headTree ->
  GetStagedDiff os s = (Ok (capDiff (naiveDiff os r headTree status)), s').
Proof.
  intros (Hopen & (wt & Hwt & Hst) & Hhead).
  unfold GetStagedDiff, bind, orWrap, lift, ret.
  rewrite Hopen, Hwt, Hst, Hhead, rangeStatus_app. reflexivity.
Qed.

Section Fragments.

Variables (os : OS) (repo : Repository) (headTree : option Tree) (wd : string).

Lemma processEntry_Added (b : Builder) (p : string) (fs : FileStatus) :
  Staging fs = Added ->
  processEntry os repo wd headTree b p fs =
  b ++ addedHeader p (Extra fs) ++
  match ReadFile os (Join os wd p) with
  | Ok content => markedLines "+" (Split content LF)
  | Err _ => ""
  end.
Proof.
  intros H. unfold processEntry, WriteString, addedHeader. rewrite H.
  destruct (ReadFile os (Join os wd p));
    rewrite ?writeLines_app, ?app_empty_r; repeat rewrite app_assoc_s; reflexivity.
Qed.

Lemma processEntry_Deleted (b : Builder) (p : string) (fs : FileStatus) :
  Staging fs = Deleted ->
  processEntry os repo wd headTree b p fs =
  b ++ deletedHeader p (Extra fs) ++
  match headContent repo headTree p with
  | Some content => markedLines "-" (Split content LF)
  | None => ""
  end.
Proof.
  intros H. unfold processEntry, WriteString, deletedHeader. rewrite H.
  destruct (headContent repo headTree p);
    rewrite ?writeLines_app, ?app_empty_r; repeat rewrite app_assoc_s; reflexivity.
Qed.

Lemma processEntry_Modified (b : Builder) (p : string) (fs : FileStatus) :
  Staging fs = Modified ->
  processEntry os repo wd headTree b p fs =
  b ++ modifiedHeader p (Extra fs) (Extra fs) ++
  markedLines "-" (Split (someOrEmpty (headContent repo headTree p)) LF) ++
  markedLines "+" (Split (orEmpty (ReadFile os (Join os wd p))) LF).
Proof.
  intros H. unfold processEntry, WriteString, modifiedHeader. rewrite H.
  unfold someOrEmpty, orEmpty.
  rewrite !writeLines_app; repeat rewrite app_assoc_s; reflexivity.
Qed.

Lemma processEntry_Renamed (b : Builder) (p : string) (fs : FileStatus) :
  Staging fs = Renamed ->
  processEntry os repo wd headTree b p fs = b ++ renamedHeader p (Extra fs).
Proof.
  intros H. unfold processEntry, WriteString, renamedHeader. rewrite H.
  repeat rewrite app_assoc_s; reflexivity.
Qed.

End Fragments.

(** A fragment sits in the concatenation wherever its entry is visited. *)
Lemma naiveDiff_In (os : OS) (r : Repository) (headTree : option Tree)
    (status : Status) (entry : string * FileStatus) :
  In entry status ->
  exists before after,
    naiveDiff os r headTree status =
    before ++ fragment os r headTree entry ++ after.
Proof.
  intros H. apply in_split in H. destruct H as (l1 & l2 & ->).
  exists (naiveDiff os r headTree l1), (naiveDiff os r headTree l2).
  unfold naiveDiff. rewrite map_app, flat_app.
  change (map ?f (entry :: l2)) with (f entry :: map f l2).
  rewrite flat_cons. reflexivity.
Qed.

(** The synthesized diff of the example repositories. *)
Example hello_diff :
  GetStagedDiff Demo.helloWorld Demo.fresh =
  (Ok ("diff --git a/hello.txt b/hello.txt" ++ nl ++
       "new file mode 100644" ++ nl ++
       "index 0000000.." ++ nl ++
       "--- /dev/null" ++ nl ++
       "+++ b/hello.txt" ++ nl ++
       "+hello" ++ nl ++
       "+" ++ nl),
   Demo.opened Demo.helloRepo).
Proof. reflexivity. Qed.

Example mixed_diff :
  fst (GetStagedDiff Demo.mixedWorld Demo.fresh) =
  Ok ("diff --git a/old.txt b/old.txt" ++ nl ++
      "index .. 100644" ++ nl ++
      "--- a/old.txt" ++ nl ++
      "+++ b/old.txt" ++ nl ++
      "-one" ++ nl ++ "-two" ++ nl ++ "-" ++ nl ++
      "+one" ++ nl ++ "+2" ++ nl ++ "+" ++ nl ++
      "diff --git a/gone.txt b/gone.txt" ++ nl ++
      "deleted file mode 100644" ++ nl ++
      "index ..0000000" ++ nl ++
      "--- a/gone.txt" ++ nl ++
      "+++ /dev/null" ++ nl ++
      "-bye" ++ nl ++ "-" ++ nl).
Proof. reflexivity. Qed.

Example big_diff_length :
  match fst (GetStagedDiff Demo.bigWorld Demo.fresh) with
  | Ok out => Z.of_nat (String.length out) = 10015%Z /\
              HasPrefix out "diff --git a/big.txt b/big.txt" = true
  | Err _ => False
  end.
Proof. vm_compute. split; reflexivity. Qed.

(** ** The size cap (C1) *)

Lemma capDiff_long (diff : string) :
  (10000 < Z.of_nat (String.length diff))%Z ->
  capDiff diff = substring 0 (Z.to_nat 10000) diff ++ nl ++ "...[TRUNCATED]".
Proof.
  intros H. unfold capDiff, diffLimit.
  destruct (Nat.ltb_spec (Z.to_nat 10000) (String.length diff)); [reflexivity | lia].
Qed.

Lemma capDiff_short (diff : string) :
  (Z.of_nat (String.length diff) <= 10000)%Z -> capDiff diff = diff.
Proof.
  intros H. unfold capDiff, diffLimit.
  destruct (Nat.ltb_spec (Z.to_nat 10000) (String.length diff)); [lia | reflexivity].
Qed.

(** C1. Whatever the status map and the order its entries are visited
    in, [GetStagedDiff] returns the concatenation of the fragments
    unchanged when it has at most 10,000 bytes, and otherwise its first
    10,000 bytes (exactly that many, a prefix of the concatenation)
    followed by a line feed and [...[TRUNCATED]], which makes 10,015
    bytes. *)
Theorem GetStagedDiff_truncation (os : OS) (s s' : State) (r : Repository)
    (status : Status) (headTree : option Tree) :
  ready os s r s' status headTree ->
  let diff := naiveDiff os r headTree status in
  let kept := substring 0 (Z.to_nat 10000) diff in
  exists out,
    GetStagedDiff os s = (Ok out, s') /\
    ((10000 < Z.of_nat (String.length diff))%Z ->
       out = kept ++ nl ++ "...[TRUNCATED]" /\
       Z.of_nat (String.length kept) = 10000%Z /\
       (exists dropped, diff = kept ++ dropped) /\
       Z.of_nat (String.length out) = 10015%Z) /\
    ((Z.of_nat (String.length diff) <= 10000)%Z -> out = diff).
Proof.
  intros Hready diff kept.
  exists (capDiff diff). split; [apply GetStagedDiff_run; assumption|].
  split.
  - intros Hlong.
    assert (Hlen : String.length kept = Z.to_nat 10000)
      by (apply length_substring_0; lia).
    repeat split.
    + apply capDiff_long; assumption.
    + lia.
    + apply substring_0_prefix; lia.
    + rewrite capDiff_long by assumption. fold kept.
      rewrite !length_app, Hlen. simpl String.length. lia.
  - apply capDiff_short.
Qed.

Lemma ready_bigWorld :
  ready Demo.bigWorld Demo.fresh Demo.bigRepo
        (Demo.opened Demo.bigRepo) Demo.bigStatus (Some Demo.tree).
Proof.
  split; [reflexivity|]. split; [|reflexivity].
  eexists; split; reflexivity.
Defined.

Lemma GetStagedDiff_truncation_witness :
  ready Demo.bigWorld Demo.fresh Demo.bigRepo
        (Demo.opened Demo.bigRepo) Demo.bigStatus (Some Demo.tree) /\
  exists out,
    GetStagedDiff Demo.bigWorld Demo.fresh =
      (Ok out, Demo.opened Demo.bigRepo) /\
    Z.of_nat (String.length out) = 10015%Z.
Proof.
  split; [exact ready_bigWorld|].
  destruct (GetStagedDiff_truncation _ _ _ _ _ _ ready_bigWorld)
    as (out & Hrun & Hlong & _).
  exists out. split; [exact Hrun|].
  apply Hlong. vm_compute. reflexivity.
Defined.

(** ** Staged changes (C2) *)

(** The test of the loop, whatever states [StatusCode] has: some entry is
    neither [Unmodified] nor [Untracked]. *)
Lemma anyStaged_true (status : Status) :
  anyStaged status = true <->
  exists p fs, In (p, fs) status /\
               Staging fs <> Unmodified /\ Staging fs <> Untracked.
Proof.
  induction status as [|[p fs] rest IH]; simpl.
  - split; [discriminate | intros (? & ? & [] & _)].
  - destruct (Staging fs) eqn:E; simpl;
      try (split; [intros _; exists p, fs; rewrite E;
                     repeat split; [left; reflexivity | discriminate | discriminate]
                  | reflexivity]);
      (rewrite IH; split;
       [ intros (q & gs & Hin & H1 & H2); exists q, gs; repeat split; auto
       | intros (q & gs & [Heq | Hin] & H1 & H2);
         [ inversion Heq; subst; congruence | exists q, gs; repeat split; auto ] ]).
Qed.

Lemma stagedKind_iff (code : StatusCode) :
  stagedKind code <-> code <> Unmodified /\ code <> Untracked.
Proof.
  unfold stagedKind; simpl. split.
  - intros H; split; intros ->; repeat destruct H as [H | H]; try discriminate H; exact H.
  - intros [H1 H2]. destruct code; try congruence; tauto.
Qed.

(** C2. When the repository opens and reports its status,
    [HasStagedChanges] returns [true] exactly when some path has a
    staging state among Added, Modified, Deleted, Renamed and Copied; a
    status whose paths are all Unmodified or Untracked gives [false]. *)
Theorem HasStagedChanges_iff (os : OS) (s s' : State) (r : Repository)
    (worktree : Worktree) (status : Status) :
  openRepo os s = (Ok r, s') ->
  Repository_Worktree r = Ok worktree ->
  Worktree_Status worktree = Ok status ->
  exists answer,
    HasStagedChanges os s = (Ok answer, s') /\
    (answer = true <->
     exists p fs, In (p, fs) status /\ stagedKind (Staging fs)) /\
    ((forall p fs, In (p, fs) status ->
        Staging fs = Unmodified \/ Staging fs = Untracked) ->
     answer = false).
Proof.
  intros Hopen Hwt Hst.
  exists (anyStaged status). split; [|split].
  - unfold HasStagedChanges, bind, orWrap, lift, ret.
    rewrite Hopen, Hwt, Hst. reflexivity.
  - rewrite anyStaged_true. split; intros (p & fs & Hin & H);
      exists p, fs; (split; [exact Hin|]); apply stagedKind_iff; exact H.
  - intros Hall. destruct (anyStaged status) eqn:E; [|reflexivity].
    apply anyStaged_true in E. destruct E as (p & fs & Hin & H1 & H2).
    destruct (Hall p fs Hin); congruence.
Qed.

Lemma HasStagedChanges_iff_witness :
  exists answer,
    HasStagedChanges Demo.mixedWorld Demo.fresh =
      (Ok answer, Demo.opened Demo.mixedRepo) /\
    answer = true.
Proof.
  destruct (HasStagedChanges_iff Demo.mixedWorld Demo.fresh
              (Demo.opened Demo.mixedRepo) Demo.mixedRepo
              {| Worktree_Status := Ok Demo.mixedStatus;
                 Worktree_Commit := fun _ _ => Ok "c0ffee" |}
              Demo.mixedStatus eq_refl eq_refl eq_refl)
    as (answer & Hrun & Hiff & _).
  exists answer. split; [exact Hrun|].
  apply Hiff. exists "old.txt", (Demo.staged Modified "").
  split; [simpl; tauto | unfold stagedKind; simpl; tauto].
Defined.

(** ** The lines of a body *)

Lemma markedLines_cons (marker line : string) (rest : list string) :
  markedLines marker (line :: rest) =
  (marker ++ line) ++ String LF (markedLines marker rest).
Proof.
  unfold markedLines. change (map ?f (line :: rest)) with (f line :: map f rest).
  rewrite flat_cons, !app_assoc_s. reflexivity.
Qed.

Lemma markedLines_app (marker : string) (xs ys : list string) :
  markedLines marker (xs ++ ys)%list =
  markedLines marker xs ++ markedLines marker ys.
Proof. unfold markedLines. rewrite map_app, flat_app. reflexivity. Qed.

(** Read back as text, a body written from separator-free lines has
    those lines, each behind the marker, and nothing after the last line
    feed. *)
Lemma Split_markedLines_then (marker : string) (lines : list string) (tail : string) :
  Count marker LF = 0 ->
  Forall (fun l => Count l LF = 0) lines ->
  Split (markedLines marker lines ++ tail) LF =
  (map (append marker) lines ++ Split tail LF)%list.
Proof.
  intros Hm Hl. induction Hl as [|l ls Hl0 _ IH]; [reflexivity|].
  rewrite markedLines_cons, app_assoc_s.
  change (String LF (markedLines marker ls) ++ tail)
    with (String LF (markedLines marker ls ++ tail)).
  rewrite Split_app_sep by (rewrite Count_app; lia).
  rewrite IH. reflexivity.
Qed.

Lemma Split_markedLines (marker : string) (lines : list string) :
  Count marker LF = 0 ->
  Forall (fun l => Count l LF = 0) lines ->
  Split (markedLines marker lines) LF = (map (append marker) lines ++ [""])%list.
Proof.
  intros Hm Hl. rewrite <- (app_empty_r (markedLines marker lines)).
  apply Split_markedLines_then; assumption.
Qed.

Lemma Count_markedLines (marker : string) (lines : list string) :
  Count marker LF = 0 ->
  Forall (fun l => Count l LF = 0) lines ->
  Count (markedLines marker lines) LF = List.length lines.
Proof.
  intros Hm Hl. induction Hl as [|l ls Hl0 _ IH]; [reflexivity|].
  rewrite markedLines_cons, !Count_app.
  change (Count (String LF (markedLines marker ls)) LF)
    with ((if Ascii.eqb LF LF then 1 else 0) + Count (markedLines marker ls) LF).
  rewrite Ascii.eqb_refl, IH. simpl List.length. lia.
Qed.

(** ** The handle cache, one call *)

Lemma openRepo_again (os : OS) (s s' : State) (r : Repository) :
  openRepo os s = (Ok r, s') -> openRepo os s' = (Ok r, s').
Proof.
  unfold openRepo. destruct (Getwd os) as [wd|]; [|discriminate].
  destruct (repo (client s)) as [r0|] eqn:Hrepo.
  - destruct (String.eqb (repoPath (client s)) wd) eqn:Hpath.
    + intros H; inversion H; subst. rewrite Hrepo, Hpath. reflexivity.
    + destruct (PlainOpenWithOptions os wd); intros H; inversion H; subst.
      simpl. rewrite String.eqb_refl. reflexivity.
  - destruct (PlainOpenWithOptions os wd); intros H; inversion H; subst.
    simpl. rewrite String.eqb_refl. reflexivity.
Qed.

Lemma ready_again (os : OS) (s s' : State) (r : Repository)
    (status : Status) (headTree : option Tree) :
  ready os s r s' status headTree -> ready os s' r s' status headTree.
Proof.
  intros (Hopen & Hrest). split; [eapply openRepo_again; eassumption | exact Hrest].
Qed.

(** ** Modified paths (C4, C10) *)

Lemma ready_mixedWorld :
  ready Demo.mixedWorld Demo.fresh Demo.mixedRepo
        (Demo.opened Demo.mixedRepo) Demo.mixedStatus (Some Demo.tree).
Proof.
  split; [reflexivity|]. split; [|reflexivity].
  eexists; split; reflexivity.
Defined.

Lemma ready_reorderedWorld :
  ready DemoGit.reorderedWorld Demo.fresh DemoGit.reorderedRepo
        (Demo.opened DemoGit.reorderedRepo) (rev Demo.mixedStatus) (Some Demo.tree).
Proof.
  split; [reflexivity|]. split; [|reflexivity].
  eexists; split; reflexivity.
Defined.

(** C4. For a path staged as Modified whose old content [O] is read from
    its blob in the HEAD tree and whose new content [N] is read from the
    working copy, the loop appends the header, then every line of [O]
    behind ['-'], then every line of [N] behind ['+'] (the lines being
    the pieces of [O] and of [N] between line feeds, which joined give
    [O] and [N] back). The text does not depend on what was written
    before or on the order the status is visited in. Synthesizing again
    gives the same bytes for the fragment: at every call of
    [GetStagedDiff] where the two lookups answer the same and the status
    has the same entries, in whatever order its loop visits them, the
    text returned is the capped concatenation in which the fragment
    stands, and the fragment stands in the text returned when nothing is
    cut. (The fragments around it may come in another order.) *)
Theorem modified_full_replacement (os : OS) (r : Repository) (tree : Tree)
    (entry : TreeEntry) (blob : Blob) (reader : Reader)
    (p : string) (fs : FileStatus) (N : string) :
  Staging fs = Modified ->
  Tree_FindEntry tree p = Ok entry ->
  Repository_BlobObject r (EntryHash entry) = Ok blob ->
  Blob_Reader blob = Ok reader ->
  ReadFile os (Join os (getwd os) p) = Ok N ->
  let O := readBlob blob reader in
  let body := markedLines "-" (Split O LF) ++ markedLines "+" (Split N LF) in
  let frag := modifiedHeader p (Extra fs) (Extra fs) ++ body in
  (forall b, processEntry os r (getwd os) (Some tree) b p fs = b ++ frag) /\
  Split body LF =
    (map (append "-") (Split O LF) ++ map (append "+") (Split N LF) ++ [""])%list /\
  String.concat nl (Split O LF) = O /\
  String.concat nl (Split N LF) = N /\
  (forall status status',
     In (p, fs) status -> Permutation status status' ->
     exists before after,
       naiveDiff os r (Some tree) status' = before ++ frag ++ after) /\
  (forall os2 r2 s s' status status2,
     ReadFile os2 (Join os2 (getwd os2) p) = Ok N ->
     Repository_BlobObject r2 (EntryHash entry) = Ok blob ->
     In (p, fs) status -> Permutation status status2 ->
     ready os2 s r2 s' status2 (Some tree) ->
     exists before after,
       naiveDiff os2 r2 (Some tree) status2 = before ++ frag ++ after /\
       GetStagedDiff os2 s = (Ok (capDiff (before ++ frag ++ after)), s') /\
       ((Z.of_nat (String.length (before ++ frag ++ after)) <= 10000)%Z ->
        GetStagedDiff os2 s = (Ok (before ++ frag ++ after), s'))).
Proof.
  intros Hmod Hentry Hblob Hreader Hfile O body frag.
  assert (Hfrag : forall os2 r2 b,
            ReadFile os2 (Join os2 (getwd os2) p) = Ok N ->
            Repository_BlobObject r2 (EntryHash entry) = Ok blob ->
            processEntry os2 r2 (getwd os2) (Some tree) b p fs = b ++ frag).
  { intros os2 r2 b Hfile2 Hblob2.
    assert (Hold : headContent r2 (Some tree) p = Some O).
    { unfold headContent. rewrite Hentry, Hblob2, Hreader. reflexivity. }
    rewrite processEntry_Modified by assumption.
    rewrite Hold, Hfile2. reflexivity. }
  assert (Hin : forall os2 r2 status2,
            ReadFile os2 (Join os2 (getwd os2) p) = Ok N ->
            Repository_BlobObject r2 (EntryHash entry) = Ok blob ->
            In (p, fs) status2 ->
            exists before after,
              naiveDiff os2 r2 (Some tree) status2 = before ++ frag ++ after).
  { intros os2 r2 status2 Hfile2 Hblob2 Hin2.
    destruct (naiveDiff_In os2 r2 (Some tree) status2 (p, fs) Hin2)
      as (before & after & Heq).
    exists before, after. rewrite Heq. unfold fragment; simpl.
    rewrite (Hfrag os2 r2 "" Hfile2 Hblob2). reflexivity. }
  repeat split.
  - intros b. apply Hfrag; assumption.
  - unfold body.
    rewrite Split_markedLines_then by (try reflexivity; apply Split_pieces).
    rewrite Split_markedLines by (try reflexivity; apply Split_pieces).
    reflexivity.
  - apply Split_join.
  - apply Split_join.
  - intros status status' Hin1 Hperm. apply Hin; try assumption.
    eapply Permutation_in; eassumption.
  - intros os2 r2 s s' status status2 Hfile2 Hblob2 Hin1 Hperm Hready.
    assert (Hin2 : In (p, fs) status2) by (eapply Permutation_in; eassumption).
    destruct (Hin os2 r2 status2 Hfile2 Hblob2 Hin2) as (before & after & Heq).
    exists before, after. split; [exact Heq|].
    rewrite (GetStagedDiff_run _ _ _ _ _ _ Hready), Heq.
    split; [reflexivity|].
    intros Hshort. rewrite (capDiff_short _ Hshort). reflexivity.
Qed.

Lemma modified_full_replacement_witness :
  processEntry Demo.mixedWorld Demo.mixedRepo "/w" (Some Demo.tree)
    "earlier text" "old.txt" (Demo.staged Modified "") =
  "earlier text" ++
       "diff --git a/old.txt b/old.txt" ++ nl ++
       "index .. 100644" ++ nl ++
       "--- a/old.txt" ++ nl ++
       "+++ b/old.txt" ++ nl ++
       "-one" ++ nl ++ "-two" ++ nl ++ "-" ++ nl ++
       "+one" ++ nl ++ "+2" ++ nl ++ "+" ++ nl /\
  exists before after,
    GetStagedDiff DemoGit.reorderedWorld Demo.fresh =
    (Ok (before ++
         (modifiedHeader "old.txt" "" "" ++
          markedLines "-" (Split ("one" ++ nl ++ "two" ++ nl) LF) ++
          markedLines "+" (Split ("one" ++ nl ++ "2" ++ nl) LF)) ++
         after),
     Demo.opened DemoGit.reorderedRepo).
Proof.
  pose proof (modified_full_replacement Demo.mixedWorld Demo.mixedRepo
                Demo.tree {| Name := "old.txt"; EntryHash := "h-old" |}
                (Demo.blobOf ("one" ++ nl ++ "two" ++ nl))
                (Demo.readerOf ("one" ++ nl ++ "two" ++ nl))
                "old.txt" (Demo.staged Modified "")
                ("one" ++ nl ++ "2" ++ nl)
                eq_refl eq_refl eq_refl eq_refl eq_refl) as (Hfrag & _ & _ & _ & _ & Hcall).
  split; [exact (Hfrag "earlier text")|].
  destruct (Hcall DemoGit.reorderedWorld DemoGit.reorderedRepo Demo.fresh
              (Demo.opened DemoGit.reorderedRepo) Demo.mixedStatus
              (rev Demo.mixedStatus) eq_refl eq_refl
              (or_intror (or_introl eq_refl))
              (Permutation_rev Demo.mixedStatus) ready_reorderedWorld)
    as (before & after & Hn & _ & Hshort).
  exists before, after. apply Hshort. rewrite <- Hn. vm_compute. discriminate.
Defined.

(** C10. For a path staged as Modified the header line is
    [index <Extra>..<Extra> 100644]: both object ids are the [Extra]
    field of the status, whatever the repository, the HEAD tree and the
    blobs are; when the path and [Extra] hold no line feed it is the
    second line of the fragment. *)
Theorem modified_index_same_id (os : OS) (r : Repository) (wd : string)
    (headTree : option Tree) (b : Builder) (p : string) (fs : FileStatus) :
  Staging fs = Modified ->
  exists rest,
    processEntry os r wd headTree b p fs =
      b ++ "diff --git a/" ++ p ++ " b/" ++ p ++ nl ++
           "index " ++ Extra fs ++ ".." ++ Extra fs ++ " 100644" ++ nl ++ rest /\
    (Count p LF = 0 -> Count (Extra fs) LF = 0 ->
     nth 1 (Split (processEntry os r wd headTree "" p fs) LF) "" =
       "index " ++ Extra fs ++ ".." ++ Extra fs ++ " 100644").
Proof.
  intros Hmod.
  exists ("--- a/" ++ p ++ nl ++ "+++ b/" ++ p ++ nl ++
          markedLines "-" (Split (someOrEmpty (headContent r headTree p)) LF) ++
          markedLines "+" (Split (orEmpty (ReadFile os (Join os wd p))) LF)).
  split.
  - rewrite processEntry_Modified by assumption. unfold modifiedHeader.
    repeat rewrite app_assoc_s. reflexivity.
  - intros Hp He. rewrite processEntry_Modified by assumption.
    set (tail := markedLines "-" _ ++ _).
    replace ("" ++ modifiedHeader p (Extra fs) (Extra fs) ++ tail)
      with (("diff --git a/" ++ p ++ " b/" ++ p) ++
            String LF (("index " ++ Extra fs ++ ".." ++ Extra fs ++ " 100644") ++
              String LF ("--- a/" ++ p ++ nl ++ "+++ b/" ++ p ++ nl ++ tail)))
      by (unfold modifiedHeader; repeat rewrite app_assoc_s; reflexivity).
    rewrite Split_app_sep by (rewrite !Count_app; simpl; lia).
    rewrite Split_app_sep by (rewrite !Count_app; simpl; lia).
    reflexivity.
Qed.

Lemma modified_index_same_id_witness :
  exists rest,
    processEntry Demo.mixedWorld Demo.mixedRepo "/w" (Some Demo.tree) ""
      "old.txt" (Demo.staged Modified "abc1234") =
    "" ++ "diff --git a/" ++ "old.txt" ++ " b/" ++ "old.txt" ++ nl ++
          "index " ++ "abc1234" ++ ".." ++ "abc1234" ++ " 100644" ++ nl ++ rest.
Proof.
  destruct (modified_index_same_id Demo.mixedWorld Demo.mixedRepo "/w"
              (Some Demo.tree) "" "old.txt" (Demo.staged Modified "abc1234")
              eq_refl) as (rest & Heq & _).
  exists rest. exact Heq.
Defined.

(** ** Added and deleted paths (C5, C9) *)

Lemma ready_getwd (os : OS) (s s' : State) (r : Repository)
    (status : Status) (headTree : option Tree) :
  ready os s r s' status headTree -> Getwd os = Ok (getwd os).
Proof.
  intros (Hopen & _). unfold openRepo in Hopen. unfold getwd.
  destruct (Getwd os); [reflexivity | discriminate].
Qed.

Lemma naiveDiff_app (os : OS) (r : Repository) (headTree : option Tree)
    (xs ys : Status) :
  naiveDiff os r headTree (xs ++ ys)%list =
  naiveDiff os r headTree xs ++ naiveDiff os r headTree ys.
Proof. unfold naiveDiff. rewrite map_app, flat_app. reflexivity. Qed.

Lemma naiveDiff_unstaged (os : OS) (r : Repository) (headTree : option Tree)
    (status : Status) :
  Forall unstaged status -> naiveDiff os r headTree status = "".
Proof.
  induction 1 as [|[q gs] rest Hq _ IH]; [reflexivity|].
  change (naiveDiff os r headTree ((q, gs) :: rest))
    with (flat (fragment os r headTree (q, gs) :: map (fragment os r headTree) rest)).
  rewrite flat_cons. fold (naiveDiff os r headTree rest). rewrite IH.
  unfold fragment, processEntry; simpl fst; simpl snd.
  destruct Hq as [Hq | Hq]; simpl in Hq; rewrite Hq; reflexivity.
Qed.

(** The diff of a status with a single staged entry is its fragment. *)
Lemma naiveDiff_only (os : OS) (r : Repository) (headTree : option Tree)
    (before after : Status) (p : string) (fs : FileStatus) :
  Forall unstaged before -> Forall unstaged after ->
  naiveDiff os r headTree (before ++ (p, fs) :: after)%list =
  processEntry os r (getwd os) headTree "" p fs.
Proof.
  intros Hb Ha. rewrite naiveDiff_app, (naiveDiff_unstaged _ _ _ _ Hb).
  change ((p, fs) :: after) with ([(p, fs)] ++ after)%list.
  rewrite naiveDiff_app, (naiveDiff_unstaged _ _ _ _ Ha), app_empty_r.
  reflexivity.
Qed.

(** C5. For a newly added file [p] with content [C], the only staged
    entry of the status, the loop appends the header (with its [--- /dev/null] line) and then
    every line of [C] behind ['+'], in the order of [C]; read back as
    lines, the body is exactly those lines and an empty rest.
    For [hello.txt] with content ["hello\n"] the synthesized diff starts
    with [diff --git a/hello.txt b/hello.txt], has the line
    [--- /dev/null] and has exactly one line equal to [+hello]. *)
Theorem added_file_diff (os : OS) (s s' : State) (r : Repository)
    (headTree : option Tree) (before after : Status)
    (p : string) (fs : FileStatus) (C : string) :
  ready os s r s' (before ++ (p, fs) :: after)%list headTree ->
  Forall unstaged before -> Forall unstaged after ->
  Staging fs = Added ->
  ReadFile os (Join os (getwd os) p) = Ok C ->
  let body := markedLines "+" (Split C LF) in
  let frag := addedHeader p (Extra fs) ++ body in
  (forall b, processEntry os r (getwd os) headTree b p fs = b ++ frag) /\
  Split body LF = (map (append "+") (Split C LF) ++ [""])%list /\
  GetStagedDiff os s = (Ok (capDiff frag), s') /\
  (p = "hello.txt" -> C = "hello" ++ nl ->
   Count (Extra fs) LF = 0 -> (Z.of_nat (String.length (Extra fs)) <= 9000)%Z ->
   exists out,
     GetStagedDiff os s = (Ok out, s') /\
     HasPrefix out "diff --git a/hello.txt b/hello.txt" = true /\
     In "--- /dev/null" (Split out LF) /\
     countLine "+hello" (Split out LF) = 1).
Proof.
  intros Hready Hbefore Hafter Hadded Hfile body frag.
  assert (Hfrag : forall b, processEntry os r (getwd os) headTree b p fs = b ++ frag).
  { intros b. rewrite processEntry_Added by assumption. rewrite Hfile. reflexivity. }
  assert (Hrun : GetStagedDiff os s = (Ok (capDiff frag), s')).
  { rewrite (GetStagedDiff_run _ _ _ _ _ _ Hready).
    rewrite naiveDiff_only by assumption. rewrite Hfrag. reflexivity. }
  split; [exact Hfrag|]. split; [|split; [exact Hrun|]].
  - apply Split_markedLines; [reflexivity | apply Split_pieces].
  - intros -> HC Hnl Hlen. exists frag.
    assert (Htext : frag =
      "diff --git a/hello.txt b/hello.txt" ++ String LF
        ("new file mode 100644" ++ String LF
           (("index 0000000.." ++ Extra fs) ++ String LF
              ("--- /dev/null" ++ nl ++ "+++ b/hello.txt" ++ nl ++
               "+hello" ++ nl ++ "+" ++ nl)))).
    { unfold frag, body, addedHeader. subst C.
      repeat rewrite app_assoc_s. reflexivity. }
    assert (Hshort : capDiff frag = frag).
    { apply capDiff_short. rewrite Htext.
      unfold nl. repeat (rewrite !length_app; cbn [String.length]). lia. }
    assert (Hlines : Split frag LF =
      ["diff --git a/hello.txt b/hello.txt"; "new file mode 100644";
       "index 0000000.." ++ Extra fs; "--- /dev/null"; "+++ b/hello.txt";
       "+hello"; "+"; ""]).
    { rewrite Htext.
      rewrite Split_app_sep by reflexivity.
      rewrite Split_app_sep by reflexivity.
      rewrite Split_app_sep by (rewrite Count_app; simpl; lia).
      reflexivity. }
    rewrite <- Hshort at 1. split; [exact Hrun|].
    split; [rewrite Htext; reflexivity|].
    rewrite Hlines. split; [simpl; tauto | reflexivity].
Qed.

Lemma ready_helloWorld :
  ready Demo.helloWorld Demo.fresh Demo.helloRepo
        (Demo.opened Demo.helloRepo) Demo.helloStatus None.
Proof.
  split; [reflexivity|]. split; [|reflexivity].
  eexists; split; reflexivity.
Defined.

Lemma added_file_diff_witness :
  exists out,
    GetStagedDiff Demo.helloWorld Demo.fresh =
      (Ok out, Demo.opened Demo.helloRepo) /\
    HasPrefix out "diff --git a/hello.txt b/hello.txt" = true /\
    In "--- /dev/null" (Split out LF) /\
    countLine "+hello" (Split out LF) = 1.
Proof.
  refine (proj2 (proj2 (proj2
    (added_file_diff Demo.helloWorld Demo.fresh
       (Demo.opened Demo.helloRepo) Demo.helloRepo None
       [("notes.txt", Demo.staged Untracked "")] []
       "hello.txt" (Demo.staged Added "") ("hello" ++ nl)
       ready_helloWorld _ (Forall_nil _) eq_refl eq_refl))) eq_refl eq_refl eq_refl _).
  - constructor; [right; reflexivity | constructor].
  - simpl. lia.
Defined.

(** C9. For a path staged as Added whose file is read, and for a path
    staged as Deleted whose old content is read from the HEAD tree, the
    body holds one marked line for each piece of the content between line
    feeds: as many lines as the content has line feeds, plus one. When the
    content ends with a line feed, the last of them is the bare marker.
    These are the lines [GetStagedDiff] emits for the path: wherever the
    path stands in the status, the text returned is the capped
    concatenation in which the header and this body stand, and they
    stand in the text returned when nothing is cut. *)
Theorem body_line_count (os : OS) (r : Repository) (wd : string)
    (headTree : option Tree) (p : string) (fs : FileStatus) (content : string) :
  (Staging fs = Added /\ ReadFile os (Join os wd p) = Ok content) \/
  (Staging fs = Deleted /\ headContent r headTree p = Some content) ->
  let marker := match Staging fs with Added => "+" | _ => "-" end in
  let header := match Staging fs with
                | Added => addedHeader p (Extra fs)
                | _ => deletedHeader p (Extra fs)
                end in
  let body := markedLines marker (Split content LF) in
  (forall b, processEntry os r wd headTree b p fs = b ++ header ++ body) /\
  Split body LF = (map (append marker) (Split content LF) ++ [""])%list /\
  List.length (Split content LF) = Count content LF + 1 /\
  Count body LF = Count content LF + 1 /\
  (forall start, content = start ++ nl ->
     body = markedLines marker (Split start LF) ++ marker ++ nl) /\
  (forall s s' status,
     wd = getwd os -> In (p, fs) status ->
     ready os s r s' status headTree ->
     exists before after,
       naiveDiff os r headTree status = before ++ header ++ body ++ after /\
       GetStagedDiff os s =
         (Ok (capDiff (before ++ header ++ body ++ after)), s') /\
       ((Z.of_nat (String.length (before ++ header ++ body ++ after)) <= 10000)%Z ->
        GetStagedDiff os s = (Ok (before ++ header ++ body ++ after), s'))).
Proof.
  intros Hcase marker header body.
  assert (Hm : Count marker LF = 0)
    by (unfold marker; destruct (Staging fs); reflexivity).
  assert (Hfrag : forall b, processEntry os r wd headTree b p fs = b ++ header ++ body).
  { intros b. destruct Hcase as [[Hk Hread] | [Hk Hread]].
    + rewrite processEntry_Added by assumption.
      unfold header, body, marker. rewrite Hread, Hk. reflexivity.
    + rewrite processEntry_Deleted by assumption.
      unfold header, body, marker. rewrite Hread, Hk. reflexivity. }
  split; [exact Hfrag|]. split; [|split; [|split; [|split]]].
  - apply Split_markedLines; [exact Hm | apply Split_pieces].
  - apply Split_length.
  - unfold body. rewrite Count_markedLines by (try exact Hm; apply Split_pieces).
    apply Split_length.
  - intros start ->. unfold body, nl.
    destruct (Split_trailing_sep start LF) as (ls & -> & ->).
    rewrite markedLines_app. reflexivity.
  - intros s s' status Hwd Hin Hready.
    destruct (naiveDiff_In os r headTree status (p, fs) Hin)
      as (before & after & Heq).
    assert (Heq' : naiveDiff os r headTree status =
                   before ++ header ++ body ++ after).
    { rewrite Heq. unfold fragment; simpl. rewrite <- Hwd, Hfrag.
      change ("" ++ header ++ body) with (header ++ body).
      rewrite app_assoc_s. reflexivity. }
    exists before, after. split; [exact Heq'|].
    rewrite (GetStagedDiff_run _ _ _ _ _ _ Hready), Heq'.
    split; [reflexivity|].
    intros Hshort. rewrite (capDiff_short _ Hshort). reflexivity.
Qed.

Lemma body_line_count_witness :
  Count (markedLines "-" (Split ("bye" ++ nl) LF)) LF = 2 /\
  exists before after,
    GetStagedDiff Demo.mixedWorld Demo.fresh =
    (Ok (before ++ deletedHeader "gone.txt" "" ++
         markedLines "-" (Split ("bye" ++ nl) LF) ++ after),
     Demo.opened Demo.mixedRepo).
Proof.
  pose proof (body_line_count Demo.mixedWorld Demo.mixedRepo "/w"
                (Some Demo.tree) "gone.txt" (Demo.staged Deleted "") ("bye" ++ nl)
                (or_intror (conj eq_refl eq_refl)))
    as (_ & _ & _ & Hcount & _ & Hcall).
  split; [exact Hcount|].
  destruct (Hcall Demo.fresh (Demo.opened Demo.mixedRepo) Demo.mixedStatus eq_refl
              (or_intror (or_intror (or_intror (or_introl eq_refl))))
              ready_mixedWorld)
    as (before & after & Hn & _ & Hshort).
  exists before, after. apply Hshort. rewrite <- Hn. vm_compute. discriminate.
Defined.

(** ** Missing HEAD and failed lookups (C6) *)

Lemma headContent_None (r : Repository) (headTree : option Tree) (p : string) :
  headContent r headTree p = None <-> blobUnavailable r headTree p.
Proof.
  unfold headContent, blobUnavailable.
  destruct headTree as [tree|]; [|tauto].
  destruct (Tree_FindEntry tree p) as [entry|]; [|tauto].
  destruct (Repository_BlobObject r (EntryHash entry)) as [blob|]; [|tauto].
  destruct (Blob_Reader blob); simpl; split; congruence.
Qed.

Lemma headTreeOf_no_HEAD (r : Repository) :
  Repository_Head r = Err ErrReferenceNotFound -> headTreeOf r = Ok None.
Proof. intros H. unfold headTreeOf. rewrite H. reflexivity. Qed.

(** C6 as the specification words it fails for an added file that
    cannot be read: the failure is swallowed, but the fragment is not the
    one of an empty file, which has a bare ['+'] line. *)
Lemma unreadable_added_file_is_not_empty_content :
  isOk (ReadFile Demo.unreadableWorld "/w/new.txt") = false /\
  ReadFile Demo.emptyFileWorld "/w/new.txt" = Ok "" /\
  fst (GetStagedDiff Demo.unreadableWorld Demo.fresh) =
    Ok (addedHeader "new.txt" "") /\
  fst (GetStagedDiff Demo.emptyFileWorld Demo.fresh) =
    Ok (addedHeader "new.txt" "" ++ "+" ++ nl) /\
  fst (GetStagedDiff Demo.unreadableWorld Demo.fresh) <>
  fst (GetStagedDiff Demo.emptyFileWorld Demo.fresh).
Proof.
  repeat split; try reflexivity. vm_compute. discriminate.
Qed.

(** C6, as the code has it. With no HEAD reference [GetStagedDiff]
    returns a diff, every old-content lookup being absent. Whatever the
    HEAD tree is, a failure to find or open the blob of a path, or to read
    its file, never makes [GetStagedDiff] fail: a Modified path takes the
    side that failed as empty content (one bare marker line, as a
    content that is empty gives), an Added path whose file cannot be read
    and a Deleted path whose blob cannot be had keep their header and
    have no body. *)
Theorem failed_lookups_are_swallowed (os : OS) (s s' : State) (r : Repository)
    (worktree : Worktree) (status : Status) :
  openRepo os s = (Ok r, s') ->
  Repository_Worktree r = Ok worktree ->
  Worktree_Status worktree = Ok status ->
  let wd := getwd os in
  (Repository_Head r = Err ErrReferenceNotFound ->
     GetStagedDiff os s = (Ok (capDiff (naiveDiff os r None status)), s') /\
     forall p, headContent r None p = None) /\
  (forall headTree, headTreeOf r = Ok headTree ->
     GetStagedDiff os s = (Ok (capDiff (naiveDiff os r headTree status)), s') /\
     forall b p fs,
       (Staging fs = Added -> isOk (ReadFile os (Join os wd p)) = false ->
          processEntry os r wd headTree b p fs = b ++ addedHeader p (Extra fs)) /\
       (Staging fs = Deleted -> blobUnavailable r headTree p ->
          processEntry os r wd headTree b p fs = b ++ deletedHeader p (Extra fs)) /\
       (Staging fs = Modified ->
          exists oldContent newContent,
            processEntry os r wd headTree b p fs =
              b ++ modifiedHeader p (Extra fs) (Extra fs) ++
              markedLines "-" (Split oldContent LF) ++
              markedLines "+" (Split newContent LF) /\
            (forall O, headContent r headTree p = Some O -> oldContent = O) /\
            (forall N, ReadFile os (Join os wd p) = Ok N -> newContent = N) /\
            (blobUnavailable r headTree p -> oldContent = "") /\
            (isOk (ReadFile os (Join os wd p)) = false -> newContent = "") /\
            markedLines "-" (Split "" LF) = "-" ++ nl /\
            markedLines "+" (Split "" LF) = "+" ++ nl)).
Proof.
  intros Hopen Hwt Hst wd.
  assert (Hrun : forall headTree, headTreeOf r = Ok headTree ->
            GetStagedDiff os s = (Ok (capDiff (naiveDiff os r headTree status)), s')).
  { intros headTree Hhead. apply GetStagedDiff_run.
    split; [exact Hopen|]. split; [exists worktree; split; assumption | exact Hhead]. }
  split.
  - intros Hhead. split; [|reflexivity].
    apply Hrun, headTreeOf_no_HEAD, Hhead.
  - intros headTree Hhead. split; [apply Hrun, Hhead|].
    intros b p fs. split; [|split].
    + intros Hk Hfail. rewrite processEntry_Added by assumption.
      destruct (ReadFile os (Join os wd p)); [discriminate|].
      rewrite app_empty_r. reflexivity.
    + intros Hk Hfail. rewrite processEntry_Deleted by assumption.
      apply headContent_None in Hfail. rewrite Hfail, app_empty_r. reflexivity.
    + intros Hk.
      exists (someOrEmpty (headContent r headTree p)),
             (orEmpty (ReadFile os (Join os wd p))).
      split; [apply processEntry_Modified; assumption|].
      split; [intros O HO; rewrite HO; reflexivity|].
      split; [intros N HN; rewrite HN; reflexivity|].
      split; [|split; [|split; reflexivity]].
      * intros Hfail. apply headContent_None in Hfail. rewrite Hfail. reflexivity.
      * intros Hfail. destruct (ReadFile os (Join os wd p)); [discriminate | reflexivity].
Qed.

Lemma failed_lookups_are_swallowed_witness :
  GetStagedDiff Demo.helloWorld Demo.fresh =
    (Ok (capDiff (naiveDiff Demo.helloWorld Demo.helloRepo None
                    Demo.helloStatus)),
     Demo.opened Demo.helloRepo) /\
  forall p, headContent Demo.helloRepo None p = None.
Proof.
  exact (proj1 (failed_lookups_are_swallowed Demo.helloWorld Demo.fresh
                  (Demo.opened Demo.helloRepo) Demo.helloRepo
                  {| Worktree_Status := Ok Demo.helloStatus;
                     Worktree_Commit := fun _ _ => Ok "c0ffee" |}
                  Demo.helloStatus eq_refl eq_refl eq_refl) eq_refl).
Defined.

(** ** The handle cache (C8) *)

(** One call logs at most the opening of the working directory. *)
Lemma openRepo_trace (os : OS) (s : State) :
  trace (snd (openRepo os s)) = trace s \/
  exists wd, Getwd os = Ok wd /\
             trace (snd (openRepo os s)) = (trace s ++ [EvPlainOpen wd])%list.
Proof.
  unfold openRepo. destruct (Getwd os) as [wd|]; [|left; reflexivity].
  destruct (repo (client s)) as [r0|];
    [destruct (String.eqb (repoPath (client s)) wd); [left; reflexivity|]|];
    right; exists wd; (split; [reflexivity|]);
    destruct (PlainOpenWithOptions os wd); reflexivity.
Qed.

Lemma openRepo_keeps (os : OS) (s : State) (ev : Event) :
  (forall wd, ev <> EvPlainOpen wd) ->
  In ev (trace (snd (openRepo os s))) -> In ev (trace s).
Proof.
  intros Hev Hin. destruct (openRepo_trace os s) as [Heq | (wd & _ & Heq)];
    rewrite Heq in Hin; [exact Hin|].
  apply in_app_or in Hin. destruct Hin as [Hin | [Hin | []]]; [exact Hin|].
  exfalso. eapply Hev. symmetry. exact Hin.
Qed.

Lemma openRepoCalls_keeps (calls : list OS) (s : State) (ev : Event) :
  (forall wd, ev <> EvPlainOpen wd) ->
  In ev (trace (openRepoCalls calls s)) -> In ev (trace s).
Proof.
  intros Hev. revert s. induction calls as [|os rest IH]; intros s Hin; [exact Hin|].
  simpl in Hin. apply IH in Hin. eapply openRepo_keeps; eassumption.
Qed.

Lemma app_one_neq {A} (l : list A) (x : A) : (l ++ [x])%list <> l.
Proof.
  intros H. apply (f_equal (@List.length A)) in H.
  rewrite List.length_app in H. simpl in H. lia.
Qed.

Lemma openRepo_decide (s : State) (wd : string) :
  (repo (client s) = None \/ repoPath (client s) <> wd) \/
  (exists r, repo (client s) = Some r /\ repoPath (client s) = wd).
Proof.
  destruct (repo (client s)) as [r|]; [|left; left; reflexivity].
  destruct (String.eqb_spec (repoPath (client s)) wd) as [Hp | Hp].
  - right. exists r. split; [reflexivity | exact Hp].
  - left. right. exact Hp.
Qed.

Lemma openRepo_cached (os : OS) (s : State) (wd : string) (r : Repository) :
  Getwd os = Ok wd ->
  repo (client s) = Some r -> repoPath (client s) = wd ->
  openRepo os s = (Ok r, s).
Proof.
  intros Hwd Hrepo Hpath. unfold openRepo.
  rewrite Hwd, Hrepo, Hpath, String.eqb_refl. reflexivity.
Qed.

Lemma openRepo_stale (os : OS) (s : State) (wd : string) :
  Getwd os = Ok wd ->
  repo (client s) = None \/ repoPath (client s) <> wd ->
  openRepo os s =
  match PlainOpenWithOptions os wd with
  | Ok r => (Ok r, setClient {| repo := Some r; repoPath := wd |}
                     (emit (EvPlainOpen wd) s))
  | Err err => (Err err, emit (EvPlainOpen wd) s)
  end.
Proof.
  intros Hwd Hstale. unfold openRepo. rewrite Hwd.
  destruct (repo (client s)) as [r0|].
  - destruct (String.eqb_spec (repoPath (client s)) wd) as [Hp | Hp].
    + destruct Hstale; [discriminate | contradiction].
    + destruct (PlainOpenWithOptions os wd); reflexivity.
  - destruct (PlainOpenWithOptions os wd); reflexivity.
Qed.

(** C8. After any sequence of [openRepo] calls, a call that finds the
    working directory [wd] opens a repository exactly when no handle is
    cached or the cached directory is not [wd]; what it opens becomes the
    cache (a failed open leaves the cache as it was). When the cached
    directory is [wd] the cached handle itself is returned, nothing is
    opened and the client is unchanged. No call ever closes a handle. *)
Theorem openRepo_cache_law (calls : list OS) (s0 : State) (os : OS) (wd : string) :
  Getwd os = Ok wd ->
  let s := openRepoCalls calls s0 in
  let c := client s in
  let stale := repo c = None \/ repoPath c <> wd in
  let res := fst (openRepo os s) in
  let s' := snd (openRepo os s) in
  (stale <-> trace s' = (trace s ++ [EvPlainOpen wd])%list) /\
  (~ stale <-> trace s' = trace s) /\
  (stale ->
     res = PlainOpenWithOptions os wd /\
     client s' = match res with
                 | Ok r => {| repo := Some r; repoPath := wd |}
                 | Err _ => c
                 end) /\
  (forall r, repo c = Some r -> repoPath c = wd -> res = Ok r /\ s' = s) /\
  (~ In EvClose (trace s0) -> ~ In EvClose (trace s')).
Proof.
  intros Hwd s c stale res s'.
  assert (Hclose : ~ In EvClose (trace s0) -> ~ In EvClose (trace s')).
  { intros Hno Hin. apply Hno.
    apply (openRepoCalls_keeps calls); [discriminate|].
    apply (openRepo_keeps os); [discriminate | exact Hin]. }
  destruct (openRepo_decide s wd) as [Hstale | (r0 & Hrepo & Hpath)].
  - (* nothing cached for this directory *)
    pose proof (openRepo_stale os s wd Hwd Hstale) as Hrun.
    assert (Hres : res = PlainOpenWithOptions os wd)
      by (subst res; rewrite Hrun; destruct (PlainOpenWithOptions os wd); reflexivity).
    assert (Htrace : trace s' = (trace s ++ [EvPlainOpen wd])%list)
      by (subst s'; rewrite Hrun; destruct (PlainOpenWithOptions os wd); reflexivity).
    split; [split; [intros _; exact Htrace | intros _; exact Hstale]|].
    split; [split; [intros H; contradiction
                   | intros H; rewrite H in Htrace; symmetry in Htrace;
                     exfalso; eapply app_one_neq; eassumption]|].
    split; [intros _; split; [exact Hres|]|].
    { rewrite Hres. subst s'. rewrite Hrun.
      destruct (PlainOpenWithOptions os wd); reflexivity. }
    split; [|exact Hclose].
    intros r Hr Hp. exfalso. destruct Hstale as [Hn | Hn];
      [fold c in Hn; congruence | contradiction].
  - (* cached for this directory *)
    pose proof (openRepo_cached os s wd r0 Hwd Hrepo Hpath) as Hrun.
    assert (Hfresh : ~ stale).
    { intros [Hn | Hn]; [fold c in Hrepo; congruence | contradiction]. }
    assert (Hsame : s' = s) by (subst s'; rewrite Hrun; reflexivity).
    split; [split; [intros H; contradiction
                   | intros H; rewrite Hsame in H; symmetry in H;
                     exfalso; eapply app_one_neq; eassumption]|].
    split; [split; [intros _; rewrite Hsame; reflexivity | intros _; exact Hfresh]|].
    split; [intros H; contradiction|].
    split; [|exact Hclose].
    intros r Hr _. split; [|exact Hsame].
    subst res. rewrite Hrun. simpl. fold c in Hrepo. congruence.
Qed.

Lemma openRepo_cache_law_witness :
  fst (openRepo Demo.mixedWorld
         (openRepoCalls [Demo.mixedWorld] Demo.fresh)) = Ok Demo.mixedRepo /\
  snd (openRepo Demo.mixedWorld
         (openRepoCalls [Demo.mixedWorld] Demo.fresh)) =
  openRepoCalls [Demo.mixedWorld] Demo.fresh.
Proof.
  exact (proj1 (proj2 (proj2 (proj2
    (openRepo_cache_law [Demo.mixedWorld] Demo.fresh Demo.mixedWorld "/w"
       eq_refl)))) Demo.mixedRepo eq_refl eq_refl).
Defined.

(** ** The commit writer (C3) *)

(** C3. Once the repository, its worktree and its configuration are
    read: with an empty author name [CommitWithMessage] returns the error
    that names [user.name] and its [git config] fix, with a name but an
    empty email the error that names [user.email] and its fix, and in
    both cases the worktree is not asked to commit. Otherwise the
    worktree is asked, once, to commit the index with the message and a
    signature made of the configured name and email and the current time,
    and the call succeeds when that commit does. *)
Theorem CommitWithMessage_identity (os : OS) (s s' : State) (r : Repository)
    (worktree : Worktree) (config : Config) (message : string) :
  openRepo os s = (Ok r, s') ->
  Repository_Worktree r = Ok worktree ->
  Repository_Config r = Ok config ->
  let name := UserName (ConfigUser config) in
  let email := UserEmail (ConfigUser config) in
  let author := {| SigName := name; SigEmail := email; When := Now os |} in
  (name = "" ->
     CommitWithMessage os message s = (Err nameMissing, s')) /\
  (name <> "" -> email = "" ->
     CommitWithMessage os message s = (Err emailMissing, s')) /\
  (name = "" \/ email = "" ->
     forall m a, In (EvCommit m a) (trace (snd (CommitWithMessage os message s))) ->
                 In (EvCommit m a) (trace s)) /\
  (name <> "" -> email <> "" ->
     CommitWithMessage os message s =
       (match Worktree_Commit worktree message author with
        | Ok _ => Ok tt
        | Err err => Err (wrapError "failed to commit: " err)
        end,
        emit (EvCommit message author) s')).
Proof.
  intros Hopen Hwt Hcfg name email author.
  assert (Hrun : CommitWithMessage os message s =
    if String.eqb name "" then (Err nameMissing, s')
    else if String.eqb email "" then (Err emailMissing, s')
    else (match Worktree_Commit worktree message author with
          | Ok _ => Ok tt
          | Err err => Err (wrapError "failed to commit: " err)
          end, emit (EvCommit message author) s')).
  { unfold CommitWithMessage, bind, orWrap, lift, fail.
    rewrite Hopen, Hwt, Hcfg. fold name email.
    destruct (String.eqb name ""); [reflexivity|].
    destruct (String.eqb email ""); [reflexivity|].
    fold author. destruct (Worktree_Commit worktree message author); reflexivity. }
  assert (Hs' : forall m a, In (EvCommit m a) (trace s') -> In (EvCommit m a) (trace s)).
  { intros m a Hin. apply (openRepo_keeps os); [discriminate|].
    rewrite Hopen. exact Hin. }
  rewrite Hrun. repeat split.
  - intros ->. reflexivity.
  - intros Hn ->. destruct (String.eqb_spec name ""); [contradiction | reflexivity].
  - intros Hmissing m a.
    destruct (String.eqb_spec name ""); [apply Hs'|].
    destruct (String.eqb_spec email ""); [apply Hs'|].
    destruct Hmissing; contradiction.
  - intros Hn He.
    destruct (String.eqb_spec name ""); [contradiction|].
    destruct (String.eqb_spec email ""); [contradiction | reflexivity].
Qed.

Lemma CommitWithMessage_identity_witness :
  CommitWithMessage
    (Demo.world ""
       (Demo.repository (Ok "head")
          {| ConfigUser := {| UserName := "Test User"; UserEmail := "" |} |}
          Demo.helloStatus))
    "feat: add hello" Demo.fresh =
  (Err emailMissing,
   Demo.opened
     (Demo.repository (Ok "head")
        {| ConfigUser := {| UserName := "Test User"; UserEmail := "" |} |}
        Demo.helloStatus)).
Proof.
  refine (proj1 (proj2
    (CommitWithMessage_identity
       (Demo.world ""
          (Demo.repository (Ok "head")
             {| ConfigUser := {| UserName := "Test User"; UserEmail := "" |} |}
             Demo.helloStatus))
       Demo.fresh _ _
       {| Worktree_Status := Ok Demo.helloStatus;
          Worktree_Commit := fun _ _ => Ok "c0ffee" |}
       _ "feat: add hello" eq_refl eq_refl eq_refl)) _ eq_refl).
  discriminate.
Defined.

Example commit_with_identity :
  CommitWithMessage Demo.helloWorld "feat: add hello" Demo.fresh =
  (Ok tt,
   emit (EvCommit "feat: add hello"
           {| SigName := "Test User"; SigEmail := "test@example.com";
              When := 1700000000%Z |})
        (Demo.opened Demo.helloRepo)).
Proof. reflexivity. Qed.

(** ** The retry policy (C7) *)

Section Retry.

Variables (env : ai.Env) (c : ai.OllamaClient) (jsonBody : string).

Hypothesis request_ok : ai.NewRequestError env "POST" (ai.baseURL c) = None.

Lemma attemptOnce_answer (attempt : nat) (resp : ai.HTTPResponse) :
  ai.Do env attempt (ai.requestOf c jsonBody) = Ok resp ->
  snd (ai.attemptOnce env c jsonBody attempt) = attemptEvents c jsonBody attempt.
Proof.
  intros HDo. unfold ai.attemptOnce. rewrite request_ok, HDo.
  destruct (Z.eqb (ai.StatusCode resp) 429);
    [destruct (Nat.eqb attempt ai.maxRetries); reflexivity|].
  destruct (negb (Z.eqb (ai.StatusCode resp) 200)); [reflexivity|].
  destruct (ai.Decode env (ai.Body resp)) as [o|]; [|reflexivity].
  destruct (String.eqb (ai.Response o) ""); reflexivity.
Qed.

Lemma attemptOnce_retry (attempt : nat) :
  attempt <> ai.maxRetries -> rateLimitedAt env c jsonBody attempt ->
  ai.attemptOnce env c jsonBody attempt = (ai.Retry, attemptEvents c jsonBody attempt).
Proof.
  intros Hne (resp & HDo & H429). unfold ai.attemptOnce.
  rewrite request_ok, HDo, H429. simpl Z.eqb. cbv iota.
  apply Nat.eqb_neq in Hne. rewrite Hne. reflexivity.
Qed.

(** [k] passes in a row that are answered by a 429, none of them the last
    one allowed, only add their events. *)
Lemma retryLoop_skip (k : nat) :
  forall (attempt remaining : nat) (done : list ai.Event),
    (forall i, attempt <= i < attempt + k -> rateLimitedAt env c jsonBody i) ->
    attempt + k <= ai.maxRetries ->
    ai.retryLoop env c jsonBody (k + remaining) attempt done =
    ai.retryLoop env c jsonBody remaining (attempt + k)
      (done ++ flat_map (attemptEvents c jsonBody) (seq attempt k))%list.
Proof.
  induction k as [|k IH]; intros attempt remaining done Hlim Hle.
  - simpl. rewrite Nat.add_0_r, List.app_nil_r. reflexivity.
  - simpl ai.retryLoop.
    rewrite attemptOnce_retry by (try apply Hlim; lia).
    rewrite IH by (try (intros i Hi; apply Hlim); lia).
    replace (S attempt + k) with (attempt + S k) by lia.
    simpl flat_map. rewrite <- List.app_assoc. reflexivity.
Qed.

End Retry.

Lemma requests_app (xs ys : list ai.Event) :
  requests (xs ++ ys)%list = requests xs + requests ys.
Proof. unfold requests. rewrite filter_app, List.length_app. reflexivity. Qed.

Lemma attemptOnce_requests (env : ai.Env) (c : ai.OllamaClient)
    (jsonBody : string) (attempt : nat) :
  requests (snd (ai.attemptOnce env c jsonBody attempt)) <= 1.
Proof.
  unfold ai.attemptOnce.
  destruct (ai.NewRequestError env "POST" (ai.baseURL c)).
  - destruct (Nat.ltb 0 attempt); simpl; unfold requests; simpl; lia.
  - assert (H : requests
      ((if Nat.ltb 0 attempt then [ai.EvSleep (ai.backoff attempt)] else [])
         ++ [ai.EvDo (ai.requestOf c jsonBody)])%list <= 1)
      by (destruct (Nat.ltb 0 attempt); unfold requests; simpl; lia).
    destruct (ai.Do env attempt (ai.requestOf c jsonBody)) as [resp|]; [|exact H].
    destruct (Z.eqb (ai.StatusCode resp) 429);
      [destruct (Nat.eqb attempt ai.maxRetries); exact H|].
    destruct (negb (Z.eqb (ai.StatusCode resp) 200)); [exact H|].
    destruct (ai.Decode env (ai.Body resp)) as [o|]; [|exact H].
    destruct (String.eqb (ai.Response o) ""); exact H.
Qed.

Lemma retryLoop_requests (env : ai.Env) (c : ai.OllamaClient)
    (jsonBody : string) (remaining : nat) :
  forall attempt done,
    requests (snd (ai.retryLoop env c jsonBody remaining attempt done)) <=
    requests done + remaining.
Proof.
  induction remaining as [|rem IH]; intros attempt done; simpl; [lia|].
  pose proof (attemptOnce_requests env c jsonBody attempt) as H1.
  destruct (ai.attemptOnce env c jsonBody attempt) as [[|r] evs]; simpl in *.
  - specialize (IH (S attempt) (done ++ evs)%list).
    rewrite requests_app in IH. lia.
  - rewrite requests_app. lia.
Qed.

Lemma retryTrace_events (c : ai.OllamaClient) (jsonBody : string) (k : nat) :
  k <= 3 ->
  (flat_map (attemptEvents c jsonBody) (seq 0 k) ++ attemptEvents c jsonBody k)%list =
  retryTrace (ai.requestOf c jsonBody) k.
Proof.
  intros Hk.
  destruct k as [|[|[|[|k]]]]; [reflexivity | reflexivity | reflexivity | reflexivity | lia].
Qed.

(** C7. Whatever the server answers, one call sends at most 4 requests.
    When the first [k] requests ([k] at most 3) are answered by a 429,
    each is followed by a sleep (2, 4, then 8 seconds) and a new request.
    If the fourth request is still answered by a 429 the call fails with
    the rate-limit error, after 3 retries. If the answer to request [k]
    has another status that is not 200, the call fails at once with the
    error that carries the status line, and nothing more is sent. *)
Theorem retry_policy (env : ai.Env) (c : ai.OllamaClient)
    (diff rules jsonBody : string) (k : nat) (resp : ai.HTTPResponse) :
  ai.Marshal env {| ai.Model := ai.model c;
                    ai.Prompt := ai.buildPrompt diff rules;
                    ai.Stream := false |} = Ok jsonBody ->
  ai.NewRequestError env "POST" (ai.baseURL c) = None ->
  k <= 3 ->
  (forall i, i < k -> rateLimitedAt env c jsonBody i) ->
  ai.Do env k (ai.requestOf c jsonBody) = Ok resp ->
  let req := ai.requestOf c jsonBody in
  let run := ai.GenerateCommitMessage env c diff rules in
  requests (snd run) <= 4 /\
  (ai.StatusCode resp = 429%Z -> k = 3 ->
     run = (Err (errorString
                   ("API rate limit exceeded after 3 retries: " ++ ai.Body resp)),
            [ai.EvDo req;
             ai.EvSleep (2 * ai.Second)%Z; ai.EvDo req;
             ai.EvSleep (4 * ai.Second)%Z; ai.EvDo req;
             ai.EvSleep (8 * ai.Second)%Z; ai.EvDo req])) /\
  (ai.StatusCode resp <> 429%Z -> ai.StatusCode resp <> 200%Z ->
     run = (Err (errorString
                   ("API returned error: " ++ ai.Status resp ++
                    " (body: " ++ ai.Body resp ++ ")")),
            retryTrace req k) /\
     requests (snd run) = k + 1).
Proof.
  intros Hjson Hreq Hk Hlim HDo req run. subst req.
  assert (Hloop : run =
    match ai.attemptOnce env c jsonBody k with
    | (ai.Return r, evs) =>
        (r, (flat_map (attemptEvents c jsonBody) (seq 0 k) ++ evs)%list)
    | (ai.Retry, evs) =>
        ai.retryLoop env c jsonBody (3 - k) (S k)
          (flat_map (attemptEvents c jsonBody) (seq 0 k) ++ evs)%list
    end).
  { subst run. unfold ai.GenerateCommitMessage. rewrite Hjson.
    replace (ai.maxRetries + 1) with (k + S (3 - k)) by (unfold ai.maxRetries; lia).
    rewrite (retryLoop_skip env c jsonBody Hreq k 0 (S (3 - k)) [])
      by (try (intros i Hi; apply Hlim); unfold ai.maxRetries; lia).
    reflexivity. }
  split; [|split].
  - subst run. unfold ai.GenerateCommitMessage. rewrite Hjson.
    pose proof (retryLoop_requests env c jsonBody (ai.maxRetries + 1) 0 []) as H.
    exact H.
  - intros H429 ->. rewrite Hloop. unfold ai.attemptOnce.
    rewrite Hreq, HDo, H429. reflexivity.
  - intros Hn429 Hn200.
    assert (Hrun : run =
      (Err (errorString ("API returned error: " ++ ai.Status resp ++
                         " (body: " ++ ai.Body resp ++ ")")),
       retryTrace (ai.requestOf c jsonBody) k)).
    { rewrite Hloop. rewrite <- (retryTrace_events c jsonBody k Hk).
      unfold ai.attemptOnce. rewrite Hreq, HDo.
      apply Z.eqb_neq in Hn429. apply Z.eqb_neq in Hn200.
      rewrite Hn429, Hn200. reflexivity. }
    split; [exact Hrun|]. rewrite Hrun. simpl snd.
    unfold retryTrace, requests. simpl filter. simpl List.length. f_equal.
    clear. generalize 0 at 1. induction k as [|k IH]; intros a; simpl.
    + reflexivity.
    + rewrite IH. lia.
Qed.

Example default_timeout :
  ai.timeout DemoAI.ollama = (60 * ai.Second)%Z.
Proof. reflexivity. Qed.

Example answered_after_two_retries :
  ai.GenerateCommitMessage (DemoAI.server 2 200 "200 OK") DemoAI.ollama "d" "" =
  (Ok "feat: add hello",
   retryTrace (ai.requestOf DemoAI.ollama (ai.buildPrompt "d" "")) 2).
Proof. reflexivity. Qed.

Example server_error_is_not_retried :
  ai.GenerateCommitMessage (DemoAI.server 0 500 "500 Internal Server Error")
    DemoAI.ollama "d" "" =
  (Err (errorString
          "API returned error: 500 Internal Server Error (body: feat: add hello)"),
   [ai.EvDo (ai.requestOf DemoAI.ollama (ai.buildPrompt "d" ""))]).
Proof. reflexivity. Qed.

Lemma retry_policy_witness :
  ai.GenerateCommitMessage (DemoAI.server 4 200 "200 OK") DemoAI.ollama "d" "" =
  (Err (errorString "API rate limit exceeded after 3 retries: slow down"),
   [ai.EvDo (ai.requestOf DemoAI.ollama (ai.buildPrompt "d" ""));
    ai.EvSleep (2 * ai.Second)%Z;
    ai.EvDo (ai.requestOf DemoAI.ollama (ai.buildPrompt "d" ""));
    ai.EvSleep (4 * ai.Second)%Z;
    ai.EvDo (ai.requestOf DemoAI.ollama (ai.buildPrompt "d" ""));
    ai.EvSleep (8 * ai.Second)%Z;
    ai.EvDo (ai.requestOf DemoAI.ollama (ai.buildPrompt "d" ""))]).
Proof.
  refine (proj1 (proj2
    (retry_policy (DemoAI.server 4 200 "200 OK") DemoAI.ollama "d" ""
       (ai.buildPrompt "d" "") 3
       {| ai.StatusCode := 429; ai.Status := "429 Too Many Requests";
          ai.Body := "slow down" |}
       eq_refl eq_refl (le_n 3) _ eq_refl)) eq_refl eq_refl).
  intros i Hi. exists {| ai.StatusCode := 429; ai.Status := "429 Too Many Requests";
                         ai.Body := "slow down" |}.
  split; [|reflexivity].
  destruct i as [|[|[|i]]]; [reflexivity | reflexivity | reflexivity | lia].
Defined.

(** * Further properties of the code *)

(** ** The git client *)

Lemma run_HasStagedChanges_state (os : OS) (s s' : State) (r : Repository) :
  openRepo os s = (Ok r, s') -> snd (HasStagedChanges os s) = s'.
Proof.
  intros Hopen. unfold HasStagedChanges, bind, orWrap, lift, ret. rewrite Hopen.
  destruct (Repository_Worktree r) as [wt|]; [|reflexivity].
  destruct (Worktree_Status wt); reflexivity.
Qed.

Lemma run_GetStagedDiff_state (os : OS) (s s' : State) (r : Repository) :
  openRepo os s = (Ok r, s') -> snd (GetStagedDiff os s) = s'.
Proof.
  intros Hopen. unfold GetStagedDiff, bind, orWrap, lift, ret. rewrite Hopen.
  destruct (Repository_Worktree r) as [wt|]; [|reflexivity].
  destruct (Worktree_Status wt); [|reflexivity].
  destruct (headTreeOf r); reflexivity.
Qed.

(** Once [IsInsideRepo] has answered [true], the handle is cached: in the
    same world [HasStagedChanges] and [GetStagedDiff] open nothing and
    leave the client as it is, so the pre-flight calls of one run open
    the repository once. *)
Theorem preflight_opens_once (os : OS) (s s1 : State) :
  IsInsideRepo os s = (Ok true, s1) ->
  (exists r, repo (client s1) = Some r /\ Getwd os = Ok (repoPath (client s1))) /\
  snd (HasStagedChanges os s1) = s1 /\
  snd (GetStagedDiff os s1) = s1 /\
  IsInsideRepo os s1 = (Ok true, s1).
Proof.
  intros Hin. unfold IsInsideRepo in Hin.
  destruct (openRepo os s) as [[r|err] s0] eqn:Hopen.
  - inversion Hin; subst s0. clear Hin.
    pose proof (openRepo_again os s s1 r Hopen) as Hagain.
    split; [|split; [|split]].
    + exists r. revert Hopen. unfold openRepo.
      destruct (Getwd os) as [wd|]; [|discriminate].
      destruct (repo (client s)) as [r0|] eqn:Hrepo.
      * destruct (String.eqb_spec (repoPath (client s)) wd) as [Hp|Hp].
        -- intros H; inversion H; subst. split; [exact Hrepo | reflexivity].
        -- destruct (PlainOpenWithOptions os wd); intros H; inversion H; subst.
           split; reflexivity.
      * destruct (PlainOpenWithOptions os wd); intros H; inversion H; subst.
        split; reflexivity.
    + eapply run_HasStagedChanges_state; eassumption.
    + eapply run_GetStagedDiff_state; eassumption.
    + unfold IsInsideRepo. rewrite Hagain. reflexivity.
  - destruct (isErrRepositoryNotExists err); inversion Hin.
Qed.

Lemma preflight_opens_once_witness :
  snd (HasStagedChanges Demo.mixedWorld (Demo.opened Demo.mixedRepo)) =
    Demo.opened Demo.mixedRepo /\
  snd (GetStagedDiff Demo.mixedWorld (Demo.opened Demo.mixedRepo)) =
    Demo.opened Demo.mixedRepo.
Proof.
  pose proof (preflight_opens_once Demo.mixedWorld Demo.fresh
                (Demo.opened Demo.mixedRepo) eq_refl) as H.
  split; [exact (proj1 (proj2 H)) | exact (proj1 (proj2 (proj2 H)))].
Defined.

Lemma length_substring_le (n m : nat) (s : string) :
  String.length (substring n m s) <= m.
Proof.
  revert n m. induction s as [|c s IH]; intros n m.
  - destruct n, m; simpl; lia.
  - destruct n as [|n]; destruct m as [|m]; simpl; try lia.
    + specialize (IH 0 m). lia.
    + apply IH.
    + apply IH.
Qed.

Lemma capDiff_bounded (diff : string) :
  (Z.of_nat (String.length (capDiff diff)) <= 10015)%Z.
Proof.
  unfold capDiff, diffLimit.
  destruct (Nat.ltb_spec (Z.to_nat 10000) (String.length diff)) as [Hlong | Hshort].
  - rewrite length_app.
    pose proof (length_substring_le 0 (Z.to_nat 10000) diff) as Hkept.
    change (String.length (nl ++ "...[TRUNCATED]")) with 15. lia.
  - lia.
Qed.

(** Whatever the repository holds, a diff that [GetStagedDiff] returns
    has at most 10,015 bytes (the 10,000 kept and the 15 of the marker). *)
Theorem GetStagedDiff_bounded (os : OS) (s : State) :
  match fst (GetStagedDiff os s) with
  | Ok out => (Z.of_nat (String.length out) <= 10015)%Z
  | Err _ => True
  end.
Proof.
  unfold GetStagedDiff, bind, orWrap, lift, ret.
  destruct (openRepo os s) as [[r|] s0]; [|exact I].
  destruct (Repository_Worktree r) as [wt|]; [|exact I].
  destruct (Worktree_Status wt) as [st|]; [|exact I].
  destruct (headTreeOf r) as [ht|]; [|exact I].
  simpl. apply capDiff_bounded.
Qed.


Lemma naiveDiff_cons (os : OS) (r : Repository) (headTree : option Tree)
    (entry : string * FileStatus) (rest : Status) :
  naiveDiff os r headTree (entry :: rest) =
  fragment os r headTree entry ++ naiveDiff os r headTree rest.
Proof.
  unfold naiveDiff. change (map ?f (entry :: rest)) with (f entry :: map f rest).
  apply flat_cons.
Qed.



Lemma fragment_silent (os : OS) (r : Repository) (headTree : option Tree)
    (entry : string * FileStatus) :
  silent entry -> fragment os r headTree entry = "".
Proof.
  unfold silent, fragment, processEntry.
  intros [H | [H | H]]; rewrite H; reflexivity.
Qed.

Lemma fragment_starts (os : OS) (r : Repository) (headTree : option Tree)
    (entry : string * FileStatus) :
  ~ silent entry ->
  exists rest, fragment os r headTree entry = "diff --git a/" ++ rest.
Proof.
  intros Hloud. unfold fragment. destruct entry as [p fs]. simpl fst; simpl snd.
  destruct (Staging fs) eqn:Hk;
    try (exfalso; apply Hloud; unfold silent; simpl; tauto).
  - rewrite processEntry_Modified by assumption. unfold modifiedHeader.
    eexists. simpl. reflexivity.
  - rewrite processEntry_Added by assumption. unfold addedHeader.
    eexists. simpl. reflexivity.
  - rewrite processEntry_Deleted by assumption. unfold deletedHeader.
    eexists. simpl. reflexivity.
  - rewrite processEntry_Renamed by assumption. unfold renamedHeader.
    eexists. simpl. reflexivity.
Qed.

Lemma silent_dec (entry : string * FileStatus) : silent entry \/ ~ silent entry.
Proof.
  unfold silent. destruct (Staging (snd entry));
    try (left; tauto);
    right; intros [H | [H | H]]; discriminate.
Qed.

(** The concatenation is empty when every entry is silent, and starts
    with the first line of a fragment otherwise. *)
Lemma naiveDiff_shape (os : OS) (r : Repository) (headTree : option Tree)
    (status : Status) :
  (Forall silent status /\ naiveDiff os r headTree status = "") \/
  (~ Forall silent status /\
   exists rest, naiveDiff os r headTree status = "diff --git a/" ++ rest).
Proof.
  induction status as [|entry rest IH].
  - left. split; [constructor | reflexivity].
  - rewrite naiveDiff_cons. destruct (silent_dec entry) as [Hs | Hs].
    + rewrite (fragment_silent _ _ _ _ Hs).
      destruct IH as [[Hall Hempty] | [Hnot (tl & Htl)]].
      * left. split; [constructor; assumption | exact Hempty].
      * right. split; [intros H; inversion H; contradiction | exists tl; exact Htl].
    + right. split; [intros H; inversion H; contradiction|].
      destruct (fragment_starts os r headTree entry Hs) as (tl & Htl).
      exists (tl ++ naiveDiff os r headTree rest).
      rewrite Htl, app_assoc_s. reflexivity.
Qed.

Lemma capDiff_keeps_start (rest : string) :
  HasPrefix (capDiff ("diff --git a/" ++ rest)) "diff --git a/" = true.
Proof.
  unfold capDiff.
  destruct (Nat.ltb diffLimit (String.length ("diff --git a/" ++ rest)));
    [|unfold HasPrefix; simpl; destruct rest; reflexivity].
  unfold diffLimit.
  replace (Z.to_nat 10000) with (13 + Z.to_nat 9987) by (vm_compute; reflexivity).
  unfold HasPrefix. simpl.
  match goal with |- prefix "" ?x = true => destruct x; reflexivity end.
Qed.

(** [GetStagedDiff] returns the empty string exactly when every entry of
    the status is Unmodified, Untracked or Copied; any other diff, also a
    truncated one, starts with [diff --git a/]. *)
Theorem GetStagedDiff_empty_iff (os : OS) (s s' : State) (r : Repository)
    (status : Status) (headTree : option Tree) :
  ready os s r s' status headTree ->
  exists out,
    GetStagedDiff os s = (Ok out, s') /\
    (out = "" <-> Forall silent status) /\
    (out = "" \/ HasPrefix out "diff --git a/" = true).
Proof.
  intros Hready. exists (capDiff (naiveDiff os r headTree status)).
  split; [apply GetStagedDiff_run; exact Hready|].
  destruct (naiveDiff_shape os r headTree status)
    as [[Hall Hempty] | [Hnot (rest & Hrest)]].
  - rewrite Hempty. split; [split; [intros _; exact Hall | reflexivity]|].
    left. reflexivity.
  - rewrite Hrest. pose proof (capDiff_keeps_start rest) as Hstart.
    split; [|right; exact Hstart].
    split; [|intros H; contradiction].
    intros Hempty. rewrite Hempty in Hstart. discriminate.
Qed.

Lemma GetStagedDiff_empty_iff_witness :
  exists out,
    GetStagedDiff DemoGit.copiedWorld Demo.fresh =
      (Ok out, Demo.opened DemoGit.copiedRepo) /\
    out = "".
Proof.
  destruct (GetStagedDiff_empty_iff DemoGit.copiedWorld Demo.fresh
              (Demo.opened DemoGit.copiedRepo) DemoGit.copiedRepo
              DemoGit.copiedStatus (Some Demo.tree))
    as (out & Hrun & Hiff & _).
  - split; [reflexivity|]. split; [|reflexivity]. eexists; split; reflexivity.
  - exists out. split; [exact Hrun|]. apply Hiff.
    repeat constructor; unfold silent; simpl; tauto.
Defined.

(** A path staged as Copied counts as a staged change, but the diff loop
    has no case for it: when the staged paths are all Copied,
    [HasStagedChanges] answers [true] and [GetStagedDiff] returns the
    empty string. *)
Theorem copied_is_staged_but_silent (os : OS) (s s' : State) (r : Repository)
    (status : Status) (headTree : option Tree) :
  ready os s r s' status headTree ->
  Forall silent status ->
  (exists p fs, In (p, fs) status /\ Staging fs = Copied) ->
  HasStagedChanges os s = (Ok true, s') /\
  GetStagedDiff os s = (Ok "", s').
Proof.
  intros Hready Hall (p & fs & Hin & Hcopied). split.
  - destruct Hready as (Hopen & (wt & Hwt & Hst) & _).
    unfold HasStagedChanges, bind, orWrap, lift, ret. rewrite Hopen, Hwt, Hst.
    replace (anyStaged status) with true; [reflexivity|].
    symmetry. apply anyStaged_true. exists p, fs.
    rewrite Hcopied. repeat split; [exact Hin | discriminate | discriminate].
  - rewrite (GetStagedDiff_run _ _ _ _ _ _ Hready).
    destruct (naiveDiff_shape os r headTree status) as [[_ Hempty] | [Hnot _]];
      [rewrite Hempty; reflexivity | contradiction].
Qed.

Lemma copied_is_staged_but_silent_witness :
  HasStagedChanges DemoGit.copiedWorld Demo.fresh =
    (Ok true, Demo.opened DemoGit.copiedRepo) /\
  GetStagedDiff DemoGit.copiedWorld Demo.fresh =
    (Ok "", Demo.opened DemoGit.copiedRepo).
Proof.
  apply (copied_is_staged_but_silent DemoGit.copiedWorld Demo.fresh
           (Demo.opened DemoGit.copiedRepo) DemoGit.copiedRepo
           DemoGit.copiedStatus (Some Demo.tree)).
  - split; [reflexivity|]. split; [|reflexivity]. eexists; split; reflexivity.
  - repeat constructor; unfold silent; simpl; tauto.
  - exists "copy.txt", (Demo.staged Copied "orig.txt"). split; [simpl; tauto | reflexivity].
Defined.

(** A renamed path gets three lines and no body: the old name is the
    [Extra] text of its status, and neither the working copy nor the HEAD
    tree is looked at, so the fragment is the same in every world. *)
Theorem renamed_fragment_lines (os : OS) (r : Repository) (wd : string)
    (headTree : option Tree) (p : string) (fs : FileStatus) :
  Staging fs = Renamed ->
  Count p LF = 0 -> Count (Extra fs) LF = 0 ->
  Split (processEntry os r wd headTree "" p fs) LF =
    ["diff --git a/" ++ Extra fs ++ " b/" ++ p;
     "rename from " ++ Extra fs;
     "rename to " ++ p;
     ""] /\
  forall os' r' wd' headTree' b,
    processEntry os' r' wd' headTree' b p fs = processEntry os r wd headTree b p fs.
Proof.
  intros Hk Hp He. split.
  - rewrite processEntry_Renamed by assumption.
    replace ("" ++ renamedHeader p (Extra fs))
      with (("diff --git a/" ++ Extra fs ++ " b/" ++ p) ++ String LF
              (("rename from " ++ Extra fs) ++ String LF
                 (("rename to " ++ p) ++ String LF "")))
      by (unfold renamedHeader; repeat rewrite app_assoc_s; reflexivity).
    rewrite Split_app_sep by (rewrite !Count_app; simpl; lia).
    rewrite Split_app_sep by (rewrite !Count_app; simpl; lia).
    rewrite Split_app_sep by (rewrite !Count_app; simpl; lia).
    reflexivity.
  - intros os' r' wd' headTree' b.
    rewrite !processEntry_Renamed by assumption. reflexivity.
Qed.

Lemma renamed_fragment_lines_witness :
  Split (processEntry Demo.helloWorld Demo.helloRepo "/w" None ""
           "new/name.txt" (Demo.staged Renamed "old/name.txt")) LF =
  ["diff --git a/old/name.txt b/new/name.txt";
   "rename from old/name.txt";
   "rename to new/name.txt";
   ""].
Proof.
  exact (proj1 (renamed_fragment_lines Demo.helloWorld Demo.helloRepo "/w" None
                  "new/name.txt" (Demo.staged Renamed "old/name.txt")
                  eq_refl eq_refl eq_refl)).
Defined.

(** For a deleted path whose old content [O] is read from its blob in the
    HEAD tree, the fragment is five header lines, the fourth naming the
    old path and the fifth being [+++ /dev/null], then every line of [O]
    behind ['-'], in the order of [O]; the working copy is not read. *)
Theorem deleted_fragment_lines (os : OS) (r : Repository) (wd : string)
    (tree : Tree) (entry : TreeEntry) (blob : Blob) (reader : Reader)
    (p : string) (fs : FileStatus) :
  Staging fs = Deleted ->
  Tree_FindEntry tree p = Ok entry ->
  Repository_BlobObject r (EntryHash entry) = Ok blob ->
  Blob_Reader blob = Ok reader ->
  Count p LF = 0 -> Count (Extra fs) LF = 0 ->
  let O := readBlob blob reader in
  (forall b, processEntry os r wd (Some tree) b p fs =
             b ++ deletedHeader p (Extra fs) ++ markedLines "-" (Split O LF)) /\
  Split (processEntry os r wd (Some tree) "" p fs) LF =
    ("diff --git a/" ++ p ++ " b/" ++ p) ::
    "deleted file mode 100644" ::
    ("index " ++ Extra fs ++ "..0000000") ::
    ("--- a/" ++ p) ::
    "+++ /dev/null" ::
    (map (append "-") (Split O LF) ++ [""])%list /\
  forall os' wd' b,
    processEntry os' r wd' (Some tree) b p fs = processEntry os r wd (Some tree) b p fs.
Proof.
  intros Hk Hentry Hblob Hreader Hp He O.
  assert (Hold : headContent r (Some tree) p = Some O).
  { unfold headContent. rewrite Hentry, Hblob, Hreader. reflexivity. }
  assert (Hfrag : forall os0 wd0 b, processEntry os0 r wd0 (Some tree) b p fs =
             b ++ deletedHeader p (Extra fs) ++ markedLines "-" (Split O LF)).
  { intros os0 wd0 b. rewrite processEntry_Deleted by assumption.
    rewrite Hold. reflexivity. }
  split; [apply Hfrag|]. split.
  - rewrite Hfrag.
    replace ("" ++ deletedHeader p (Extra fs) ++ markedLines "-" (Split O LF))
      with (("diff --git a/" ++ p ++ " b/" ++ p) ++ String LF
              ("deleted file mode 100644" ++ String LF
                 (("index " ++ Extra fs ++ "..0000000") ++ String LF
                    (("--- a/" ++ p) ++ String LF
                       ("+++ /dev/null" ++ String LF
                          (markedLines "-" (Split O LF)))))))
      by (unfold deletedHeader; repeat rewrite app_assoc_s; reflexivity).
    rewrite Split_app_sep by (rewrite !Count_app; simpl; lia).
    rewrite Split_app_sep by reflexivity.
    rewrite Split_app_sep by (rewrite !Count_app; simpl; lia).
    rewrite Split_app_sep by (rewrite !Count_app; simpl; lia).
    rewrite Split_app_sep by reflexivity.
    rewrite Split_markedLines by (try reflexivity; apply Split_pieces).
    reflexivity.
  - intros os' wd' b. rewrite !Hfrag. reflexivity.
Qed.

Lemma deleted_fragment_lines_witness :
  Split (processEntry DemoGit.goneWorld DemoGit.goneRepo "/w" (Some Demo.tree) ""
           "gone.txt" (Demo.staged Deleted "")) LF =
  ["diff --git a/gone.txt b/gone.txt";
   "deleted file mode 100644";
   "index ..0000000";
   "--- a/gone.txt";
   "+++ /dev/null";
   "-bye"; "-"; ""].
Proof.
  exact (proj1 (proj2
    (deleted_fragment_lines DemoGit.goneWorld DemoGit.goneRepo "/w" Demo.tree
       {| Name := "gone.txt"; EntryHash := "h-gone" |}
       (Demo.blobOf ("bye" ++ nl)) (Demo.readerOf ("bye" ++ nl))
       "gone.txt" (Demo.staged Deleted "")
       eq_refl eq_refl eq_refl eq_refl eq_refl eq_refl))).
Defined.

Lemma substring_all (s : string) : substring 0 (String.length s) s = s.
Proof. induction s; simpl; congruence. Qed.

Lemma stripMarker_marked (c : ascii) (line : string) :
  stripMarker (String c line) = line.
Proof.
  unfold stripMarker.
  change (String.length (String c line) - 1) with (String.length line - 0).
  rewrite Nat.sub_0_r. simpl. apply substring_all.
Qed.

Lemma removelast_snoc {A} (l : list A) (x : A) : removelast (l ++ [x])%list = l.
Proof. apply removelast_last. Qed.

(** Read back, a body gives the content it was written from. *)
Lemma contentOfBody_markedLines (c : ascii) (content : string) :
  Ascii.eqb c LF = false ->
  contentOfBody (markedLines (String c "") (Split content LF)) = content.
Proof.
  intros Hc. unfold contentOfBody.
  rewrite Split_markedLines
    by (try apply Split_pieces; simpl; rewrite Hc; reflexivity).
  rewrite removelast_snoc, map_map.
  rewrite (map_ext _ (fun l => l)) by (intros l; apply stripMarker_marked).
  rewrite map_id. apply Split_join.
Qed.

Lemma behind_app (a b : string) : behind (String.length a) (a ++ b) = b.
Proof.
  unfold behind. induction a as [|ch a IH].
  - simpl. rewrite Nat.sub_0_r. apply substring_all.
  - exact IH.
Qed.

(** The diff loses nothing of an added or a deleted file: when the path
    is the only staged one and its fragment is short enough not to be
    cut, the text [GetStagedDiff] returns is the header and a body from
    which the content is had back byte for byte, by taking the lines of
    the body but the empty rest after the last line feed, dropping the
    marker of each and joining them with line feeds. *)
Theorem body_round_trip (os : OS) (s s' : State) (r : Repository)
    (headTree : option Tree) (before after : Status)
    (p : string) (fs : FileStatus) (content : string) :
  ready os s r s' (before ++ (p, fs) :: after)%list headTree ->
  Forall unstaged before -> Forall unstaged after ->
  (Staging fs = Added /\ ReadFile os (Join os (getwd os) p) = Ok content) \/
  (Staging fs = Deleted /\ headContent r headTree p = Some content) ->
  let marker := match Staging fs with Added => "+" | _ => "-" end in
  let header := match Staging fs with
                | Added => addedHeader p (Extra fs)
                | _ => deletedHeader p (Extra fs)
                end in
  (Z.of_nat (String.length (header ++ markedLines marker (Split content LF)))
     <= 10000)%Z ->
  exists out,
    GetStagedDiff os s = (Ok out, s') /\
    out = header ++ behind (String.length header) out /\
    contentOfBody (behind (String.length header) out) = content.
Proof.
  intros Hready Hbefore Hafter Hcase marker header Hshort.
  exists (header ++ markedLines marker (Split content LF)).
  assert (Hbody : contentOfBody (markedLines marker (Split content LF)) = content).
  { unfold marker. destruct Hcase as [[Hk _] | [Hk _]]; rewrite Hk;
      apply contentOfBody_markedLines; reflexivity. }
  rewrite behind_app. split; [|split; [reflexivity | exact Hbody]].
  rewrite (GetStagedDiff_run _ _ _ _ _ _ Hready).
  rewrite naiveDiff_only by assumption.
  assert (Hfrag : processEntry os r (getwd os) headTree "" p fs =
                  header ++ markedLines marker (Split content LF)).
  { unfold header, marker. destruct Hcase as [[Hk Hread] | [Hk Hread]].
    - rewrite processEntry_Added by assumption. rewrite Hread, Hk. reflexivity.
    - rewrite processEntry_Deleted by assumption. rewrite Hread, Hk. reflexivity. }
  rewrite Hfrag, (capDiff_short _ Hshort). reflexivity.
Qed.

Lemma body_round_trip_witness :
  exists out,
    GetStagedDiff Demo.helloWorld Demo.fresh =
      (Ok out, Demo.opened Demo.helloRepo) /\
    contentOfBody (behind (String.length (addedHeader "hello.txt" "")) out) =
      "hello" ++ nl.
Proof.
  destruct (body_round_trip Demo.helloWorld Demo.fresh
              (Demo.opened Demo.helloRepo) Demo.helloRepo None
              [("notes.txt", Demo.staged Untracked "")] []
              "hello.txt" (Demo.staged Added "") ("hello" ++ nl)
              ready_helloWorld
              (Forall_cons ("notes.txt", Demo.staged Untracked "")
                 (or_intror eq_refl : unstaged ("notes.txt", Demo.staged Untracked ""))
                 (Forall_nil _))
              (Forall_nil _)
              (or_introl (conj eq_refl eq_refl)))
    as (out & Hrun & _ & Hback).
  - vm_compute. discriminate.
  - exists out. split; [exact Hrun | exact Hback].
Defined.

Lemma length_zeros (n : nat) : String.length (zeros n) = n.
Proof. induction n; simpl; congruence. Qed.

Lemma substring_0_short (n : nat) (s : string) :
  String.length s <= n -> substring 0 n s = s.
Proof.
  revert n. induction s as [|c s IH]; intros n H.
  - destruct n; reflexivity.
  - destruct n as [|n]; simpl in *; [lia|]. rewrite IH by lia. reflexivity.
Qed.

(** The bytes taken as the content of a blob are always [blob.Size] many:
    what one [Read] delivered, cut at the size, then zero bytes up to the
    size. They are the bytes of the blob only when that one [Read]
    delivers all of them. *)
Theorem readBlob_size (blob : Blob) (reader : Reader) :
  String.length (readBlob blob reader) = Blob_Size blob /\
  (forall delivered,
     Reader_Read reader (Blob_Size blob) = delivered ->
     String.length delivered <= Blob_Size blob ->
     readBlob blob reader =
       delivered ++ zeros (Blob_Size blob - String.length delivered)) /\
  (forall delivered,
     Reader_Read reader (Blob_Size blob) = delivered ->
     String.length delivered = Blob_Size blob ->
     readBlob blob reader = delivered).
Proof.
  unfold readBlob. split; [|split].
  - rewrite length_app, length_zeros.
    pose proof (length_substring_le 0 (Blob_Size blob)
                  (Reader_Read reader (Blob_Size blob))). lia.
  - intros delivered -> Hlen. rewrite substring_0_short by exact Hlen. reflexivity.
  - intros delivered -> Hlen. rewrite substring_0_short by lia.
    rewrite Hlen, Nat.sub_diag. apply app_empty_r.
Qed.

Lemma readBlob_size_witness :
  readBlob {| Blob_Size := 6; Blob_Reader := Ok (Demo.readerOf "one") |}
           (Demo.readerOf "one") = "one" ++ zeros 3 /\
  readBlob (Demo.blobOf "one") (Demo.readerOf "one") = "one".
Proof.
  split.
  - apply (proj1 (proj2 (readBlob_size
                           {| Blob_Size := 6; Blob_Reader := Ok (Demo.readerOf "one") |}
                           (Demo.readerOf "one"))) "one"); [reflexivity | simpl; lia].
  - apply (proj2 (proj2 (readBlob_size (Demo.blobOf "one") (Demo.readerOf "one"))) "one");
      reflexivity.
Defined.


Example short_read_is_zero_padded :
  readBlob {| Blob_Size := 6; Blob_Reader := Ok (Demo.readerOf "one") |}
           (Demo.readerOf "one") =
  "one" ++ zeros 3.
Proof. reflexivity. Qed.

(** ** The Ollama client *)

Section RetryMore.

Variables (env : ai.Env) (c : ai.OllamaClient) (jsonBody : string).

Hypothesis request_ok : ai.NewRequestError env "POST" (ai.baseURL c) = None.

(** Every pass that can build its request sleeps (but the first) and
    sends, whatever comes back. *)
Lemma attemptOnce_events (attempt : nat) :
  snd (ai.attemptOnce env c jsonBody attempt) = attemptEvents c jsonBody attempt.
Proof.
  unfold ai.attemptOnce. rewrite request_ok.
  destruct (ai.Do env attempt (ai.requestOf c jsonBody)) as [resp|]; [|reflexivity].
  destruct (Z.eqb (ai.StatusCode resp) 429);
    [destruct (Nat.eqb attempt ai.maxRetries); reflexivity|].
  destruct (negb (Z.eqb (ai.StatusCode resp) 200)); [reflexivity|].
  destruct (ai.Decode env (ai.Body resp)) as [o|]; [|reflexivity].
  destruct (String.eqb (ai.Response o) ""); reflexivity.
Qed.

(** The last pass allowed never asks for another one. *)
Lemma attemptOnce_last :
  fst (ai.attemptOnce env c jsonBody ai.maxRetries) <> ai.Retry.
Proof.
  unfold ai.attemptOnce. rewrite request_ok.
  destruct (ai.Do env ai.maxRetries (ai.requestOf c jsonBody)) as [resp|];
    [|discriminate].
  destruct (Z.eqb (ai.StatusCode resp) 429); [rewrite Nat.eqb_refl; discriminate|].
  destruct (negb (Z.eqb (ai.StatusCode resp) 200)); [discriminate|].
  destruct (ai.Decode env (ai.Body resp)) as [o|]; [|discriminate].
  destruct (String.eqb (ai.Response o) ""); discriminate.
Qed.

Lemma retryLoop_trace (remaining : nat) :
  forall attempt done,
    attempt + remaining = ai.maxRetries + 1 -> 1 <= remaining ->
    exists passes,
      1 <= passes <= remaining /\
      snd (ai.retryLoop env c jsonBody remaining attempt done) =
      (done ++ flat_map (attemptEvents c jsonBody) (seq attempt passes))%list.
Proof.
  induction remaining as [|rem IH]; intros attempt done Hsum Hpos; [lia|].
  simpl ai.retryLoop.
  pose proof (attemptOnce_events attempt) as Hevs.
  destruct (ai.attemptOnce env c jsonBody attempt) as [[|res] evs] eqn:Hone;
    simpl in Hevs; subst evs.
  - assert (Hne : attempt <> ai.maxRetries).
    { intros ->. apply attemptOnce_last. rewrite Hone. reflexivity. }
    destruct (IH (S attempt) (done ++ attemptEvents c jsonBody attempt)%list)
      as (passes & Hp & Htr); [lia | unfold ai.maxRetries in *; lia |].
    exists (S passes). split; [lia|].
    rewrite Htr. simpl flat_map. rewrite <- List.app_assoc. reflexivity.
  - exists 1. split; [lia|]. simpl. rewrite List.app_nil_r. reflexivity.
Qed.

(** The run after [k] requests answered by a 429: the pass at [k]
    decides. *)
Lemma run_after_retries (k : nat) :
  k <= 3 ->
  (forall i, i < k -> rateLimitedAt env c jsonBody i) ->
  ai.retryLoop env c jsonBody (ai.maxRetries + 1) 0 [] =
  match ai.attemptOnce env c jsonBody k with
  | (ai.Return res, evs) =>
      (res, (flat_map (attemptEvents c jsonBody) (seq 0 k) ++ evs)%list)
  | (ai.Retry, evs) =>
      ai.retryLoop env c jsonBody (3 - k) (S k)
        (flat_map (attemptEvents c jsonBody) (seq 0 k) ++ evs)%list
  end.
Proof.
  intros Hk Hlim.
  replace (ai.maxRetries + 1) with (k + S (3 - k)) by (unfold ai.maxRetries; lia).
  rewrite (retryLoop_skip env c jsonBody request_ok k 0 (S (3 - k)) [])
    by (try (intros i Hi; apply Hlim); unfold ai.maxRetries; lia).
  reflexivity.
Qed.

End RetryMore.

Lemma flat_map_seq_snoc {A} (f : nat -> list A) (k : nat) :
  flat_map f (seq 0 (S k)) = (flat_map f (seq 0 k) ++ f k)%list.
Proof.
  rewrite seq_S, flat_map_app. simpl. rewrite List.app_nil_r. reflexivity.
Qed.

(** Whatever the server does, when the request can be built a call sends
    a request, then only ever a sleep followed by a request, at most
    three times: the sleeps are 2, 4 and 8 seconds, in that order, and a
    call never sleeps more than 14 seconds in all. *)
Theorem call_trace_shape (env : ai.Env) (c : ai.OllamaClient)
    (diff rules jsonBody : string) :
  ai.Marshal env {| ai.Model := ai.model c;
                    ai.Prompt := ai.buildPrompt diff rules;
                    ai.Stream := false |} = Ok jsonBody ->
  ai.NewRequestError env "POST" (ai.baseURL c) = None ->
  let run := ai.GenerateCommitMessage env c diff rules in
  (exists retries, retries <= 3 /\
     snd run = retryTrace (ai.requestOf c jsonBody) retries /\
     requests (snd run) = retries + 1) /\
  (0 <= totalSleep (snd run) <= 14 * ai.Second)%Z.
Proof.
  intros Hjson Hreq run.
  assert (Hshape : exists retries, retries <= 3 /\
            snd run = retryTrace (ai.requestOf c jsonBody) retries).
  { subst run. unfold ai.GenerateCommitMessage. rewrite Hjson.
    destruct (retryLoop_trace env c jsonBody Hreq (ai.maxRetries + 1) 0 [])
      as (passes & Hp & Htr); [reflexivity | unfold ai.maxRetries; lia |].
    destruct passes as [|k]; [lia|].
    exists k. unfold ai.maxRetries in Hp. split; [lia|].
    rewrite Htr, List.app_nil_l, flat_map_seq_snoc.
    apply retryTrace_events. lia. }
  destruct Hshape as (k & Hk & Htr). rewrite Htr. split.
  - exists k. split; [exact Hk|]. split; [reflexivity|].
    destruct k as [|[|[|[|k]]]]; [reflexivity | reflexivity | reflexivity | reflexivity | lia].
  - destruct k as [|[|[|[|k]]]]; try lia; vm_compute; split; discriminate.
Qed.

Lemma call_trace_shape_witness :
  (0 <= totalSleep
          (snd (ai.GenerateCommitMessage (DemoAI.server 2 200 "200 OK")
                  DemoAI.ollama "d" ""))
     <= 14 * ai.Second)%Z.
Proof.
  exact (proj2 (call_trace_shape (DemoAI.server 2 200 "200 OK") DemoAI.ollama
                  "d" "" (ai.buildPrompt "d" "") eq_refl eq_refl)).
Defined.



(** Only a 429 is retried. A request that cannot be built ends the call
    before anything is sent; a request that fails in transport, after
    [k] requests answered by a 429, ends it at once with the cause
    wrapped, the failed request being the last one sent. *)
Theorem transport_failure_not_retried (env : ai.Env) (c : ai.OllamaClient)
    (diff rules jsonBody : string) :
  ai.Marshal env {| ai.Model := ai.model c;
                    ai.Prompt := ai.buildPrompt diff rules;
                    ai.Stream := false |} = Ok jsonBody ->
  (forall err, ai.NewRequestError env "POST" (ai.baseURL c) = Some err ->
     ai.GenerateCommitMessage env c diff rules =
       (Err (wrapError "failed to create request: " err), [])) /\
  (forall k err,
     ai.NewRequestError env "POST" (ai.baseURL c) = None ->
     k <= 3 ->
     (forall i, i < k -> rateLimitedAt env c jsonBody i) ->
     ai.Do env k (ai.requestOf c jsonBody) = Err err ->
     ai.GenerateCommitMessage env c diff rules =
       (Err (wrapError "API call failed: " err),
        retryTrace (ai.requestOf c jsonBody) k)).
Proof.
  intros Hjson. split.
  - intros err Hreq. unfold ai.GenerateCommitMessage. rewrite Hjson.
    simpl. unfold ai.attemptOnce. rewrite Hreq. reflexivity.
  - intros k err Hreq Hk Hlim HDo.
    unfold ai.GenerateCommitMessage. rewrite Hjson.
    rewrite (run_after_retries env c jsonBody Hreq k Hk Hlim).
    rewrite <- (retryTrace_events c jsonBody k Hk).
    unfold ai.attemptOnce. rewrite Hreq, HDo. reflexivity.
Qed.

Lemma transport_failure_not_retried_witness :
  ai.GenerateCommitMessage
    {| ai.Marshal := fun r => Ok (ai.Prompt r);
       ai.NewRequestError := fun _ _ => Some (errorString "invalid URL");
       ai.Do := fun _ _ => Err (errorString "never called");
       ai.Decode := fun body => Ok {| ai.Response := body; ai.Done := true |};
       ai.TrimSpace := fun s => s |}
    DemoAI.ollama "d" "" =
  (Err (wrapError "failed to create request: " (errorString "invalid URL")), []).
Proof.
  exact (proj1 (transport_failure_not_retried
                  {| ai.Marshal := fun r => Ok (ai.Prompt r);
                     ai.NewRequestError := fun _ _ => Some (errorString "invalid URL");
                     ai.Do := fun _ _ => Err (errorString "never called");
                     ai.Decode := fun body => Ok {| ai.Response := body; ai.Done := true |};
                     ai.TrimSpace := fun s => s |}
                  DemoAI.ollama "d" "" (ai.buildPrompt "d" "") eq_refl)
           (errorString "invalid URL") eq_refl).
Defined.

(** ** The configuration loaders *)

Lemma ancestor_S_inner (fs : Files) (n : nat) (dir : string) :
  ancestor fs (S n) dir = ancestor fs n (Dir fs dir).
Proof. unfold ancestor. apply Nat.iter_succ_r. Qed.

Lemma findRepoRootFrom_climb (fs : Files) (os : OS) (n : nat) :
  forall fuel dir,
    (forall i, i < n ->
       hasDotGit fs os (ancestor fs i dir) = false /\
       ancestor fs (S i) dir <> ancestor fs i dir) ->
    config.findRepoRootFrom fs os (n + fuel) dir =
    config.findRepoRootFrom fs os fuel (ancestor fs n dir).
Proof.
  induction n as [|n IH]; intros fuel dir Hup; [reflexivity|].
  destruct (Hup 0) as [Hgit Hmove]; [lia|].
  unfold hasDotGit, ancestor in Hgit, Hmove. simpl in Hgit, Hmove.
  simpl config.findRepoRootFrom.
  destruct (Stat fs (Join os dir ".git")); [discriminate|].
  destruct (String.eqb_spec (Dir fs dir) dir) as [Heq | _]; [contradiction|].
  rewrite IH, <- ancestor_S_inner; [reflexivity|].
  intros i Hi. rewrite <- !ancestor_S_inner. apply Hup. lia.
Qed.

(** [findRepoRoot] climbs from the working directory and answers the
    nearest directory that holds a [.git] entry; it gives up, with
    [os.ErrNotExist], at the first directory without one that is its own
    parent. Directories above the answer are not looked at. *)
Theorem findRepoRoot_nearest (fs : Files) (os : OS) (wd : string) (n fuel : nat) :
  Getwd os = Ok wd ->
  (forall i, i < n ->
     hasDotGit fs os (ancestor fs i wd) = false /\
     ancestor fs (S i) wd <> ancestor fs i wd) ->
  n < fuel ->
  (hasDotGit fs os (ancestor fs n wd) = true ->
   config.findRepoRoot fs os fuel = Some (Ok (ancestor fs n wd))) /\
  (hasDotGit fs os (ancestor fs n wd) = false ->
   ancestor fs (S n) wd = ancestor fs n wd ->
   config.findRepoRoot fs os fuel = Some (Err ErrNotExist)).
Proof.
  intros Hwd Hup Hfuel. unfold config.findRepoRoot. rewrite Hwd.
  replace fuel with (n + S (fuel - n - 1)) by lia.
  rewrite (findRepoRootFrom_climb fs os n _ wd Hup).
  simpl config.findRepoRootFrom. unfold hasDotGit. split.
  - intros Hgit. destruct (Stat fs (Join os (ancestor fs n wd) ".git"));
      [reflexivity | discriminate].
  - intros Hgit Htop. destruct (Stat fs (Join os (ancestor fs n wd) ".git"));
      [discriminate|].
    change (Dir fs (ancestor fs n wd)) with (ancestor fs (S n) wd).
    rewrite Htop, String.eqb_refl. reflexivity.
Qed.

Lemma findRepoRoot_nearest_witness :
  config.findRepoRoot DemoFiles.files (DemoFiles.world (Ok "rules") (Ok "{}")) 5 =
  Some (Ok "/w").
Proof.
  refine (proj1 (findRepoRoot_nearest DemoFiles.files
                   (DemoFiles.world (Ok "rules") (Ok "{}")) "/w/sub" 1 5
                   eq_refl _ _) eq_refl).
  - intros i Hi. destruct i; [split; [reflexivity | discriminate] | lia].
  - lia.
Defined.

(** Rules that were loaded and are not empty are served from the cache
    from then on, as long as the repository root is the same: the rules
    file is not read again, so a later change or removal of the file is
    not seen. A loader whose cached rules are empty gives the answer of a
    new loader: empty rules are read again at every call. *)
Theorem LoadRules_serves_cache (fs fs' : Files) (os os' : OS) (fuel fuel' : nat)
    (c c' : config.FileLoader) (rules : string) :
  config.LoadRules fs os fuel c = Some (rules, None, c') ->
  rules <> "" ->
  config.findRepoRoot fs' os' fuel' = config.findRepoRoot fs os fuel ->
  config.LoadRules fs' os' fuel' c' = Some (rules, None, c') /\
  (forall c0, config.cachedRules c0 = "" ->
     option_map fst (config.LoadRules fs os fuel c0) =
     option_map fst (config.LoadRules fs os fuel config.NewLoader)).
Proof.
  intros Hload Hne Hroot. split.
  - unfold config.LoadRules in *. rewrite Hroot.
    destruct (config.findRepoRoot fs os fuel) as [[root|]|]; try discriminate.
    + assert (Hc' : config.cachedRepoRoot c' = root /\ config.cachedRules c' = rules).
      { destruct (String.eqb_spec (config.cachedRepoRoot c) root) as [Hr|Hr];
          [destruct (String.eqb_spec (config.cachedRules c) "") as [He|He]|];
          simpl in Hload.
        - destruct (ReadFile os (Join os root ".git-commit-rules-for-ai")) as [content|err].
          + inversion Hload; subst; split; reflexivity.
          + destruct (IsNotExist fs err); inversion Hload; subst; contradiction.
        - inversion Hload; subst; split; reflexivity.
        - destruct (ReadFile os (Join os root ".git-commit-rules-for-ai")) as [content|err].
          + inversion Hload; subst; split; reflexivity.
          + destruct (IsNotExist fs err); inversion Hload; subst; contradiction. }
      destruct Hc' as [Hr' Hrules']. rewrite Hr', Hrules', String.eqb_refl.
      apply String.eqb_neq in Hne. rewrite Hne. reflexivity.
    + inversion Hload; subst. contradiction.
  - intros c0 Hempty. unfold config.LoadRules.
    destruct (config.findRepoRoot fs os fuel) as [[root|]|]; try reflexivity.
    rewrite Hempty. simpl. rewrite !andb_false_r.
    destruct (ReadFile os (Join os root ".git-commit-rules-for-ai")) as [content|err];
      [reflexivity|].
    destruct (IsNotExist fs err); reflexivity.
Qed.

Lemma LoadRules_serves_cache_witness :
  config.LoadRules DemoFiles.files
    (DemoFiles.world (Demo.notFound "no such file or directory") (Ok "{}")) 5
    {| config.cachedRepoRoot := "/w"; config.cachedRules := "rules" |} =
  Some ("rules", None,
        {| config.cachedRepoRoot := "/w"; config.cachedRules := "rules" |}).
Proof.
  exact (proj1 (LoadRules_serves_cache DemoFiles.files DemoFiles.files
                  (DemoFiles.world (Ok "rules") (Ok "{}"))
                  (DemoFiles.world (Demo.notFound "no such file or directory") (Ok "{}"))
                  5 5 config.NewLoader
                  {| config.cachedRepoRoot := "/w"; config.cachedRules := "rules" |}
                  "rules" eq_refl ltac:(discriminate) eq_refl)).
Defined.

(** [LoadRules] treats the rules file as optional: outside a repository,
    and in a repository without a rules file, it returns empty rules and
    no error; only a read failure of another kind is an error, and it
    leaves the cache as it was. *)
Theorem LoadRules_optional (fs : Files) (os : OS) (fuel : nat)
    (c : config.FileLoader) (found : result string) :
  config.findRepoRoot fs os fuel = Some found ->
  (isOk found = false -> config.LoadRules fs os fuel c = Some ("", None, c)) /\
  (forall root err,
     found = Ok root ->
     (config.cachedRepoRoot c <> root \/ config.cachedRules c = "") ->
     ReadFile os (Join os root ".git-commit-rules-for-ai") = Err err ->
     config.LoadRules fs os fuel c =
       if IsNotExist fs err
       then Some ("", None, {| config.cachedRepoRoot := root; config.cachedRules := "" |})
       else Some ("", Some err, c)).
Proof.
  intros Hfound. unfold config.LoadRules. rewrite Hfound. split.
  - intros Hfail. destruct found; [discriminate | reflexivity].
  - intros root err -> Hmiss Hread.
    replace (String.eqb (config.cachedRepoRoot c) root &&
             negb (String.eqb (config.cachedRules c) "")) with false.
    + rewrite Hread. reflexivity.
    + symmetry. destruct Hmiss as [Hr | He].
      * apply String.eqb_neq in Hr. rewrite Hr. reflexivity.
      * rewrite He. simpl. apply andb_false_r.
Qed.

Lemma LoadRules_optional_witness :
  config.LoadRules DemoFiles.files
    (DemoFiles.world (Demo.notFound "no such file or directory") (Ok "{}")) 5
    config.NewLoader =
  Some ("", None, {| config.cachedRepoRoot := "/w"; config.cachedRules := "" |}).
Proof.
  exact (proj2 (LoadRules_optional DemoFiles.files
                  (DemoFiles.world (Demo.notFound "no such file or directory") (Ok "{}"))
                  5 config.NewLoader (Ok "/w") eq_refl)
           "/w" (errorString "no such file or directory") eq_refl
           (or_intror eq_refl) eq_refl).
Defined.

(** [LoadConfig]: without a readable configuration file the defaults are
    returned, with the API key of the environment. A file that parses
    wins: the environment fills the API key only when the parsed one is
    empty. A file that is read but does not parse is an error, whatever
    the environment holds. *)
Theorem LoadConfig_precedence (fs : Files) (json : config.JSON) (os : OS)
    (fuel : nat) (found : result string) :
  config.findRepoRoot fs os fuel = Some found ->
  let env := Getenv fs "OLLAMA_API_KEY" in
  let fileOf root := ReadFile os (Join os root ".commit-generator-config") in
  ((isOk found = false \/ exists root, found = Ok root /\ isOk (fileOf root) = false) ->
   config.LoadConfig fs json os fuel =
     Some (Ok (config.setAPIKey env config.defaults))) /\
  (forall root data cfg,
     found = Ok root -> fileOf root = Ok data ->
     config.Unmarshal json data config.defaults = Ok cfg ->
     config.LoadConfig fs json os fuel =
       Some (Ok (if String.eqb (config.APIKey cfg) ""
                 then config.setAPIKey env cfg else cfg)) /\
     (config.APIKey cfg <> "" -> config.LoadConfig fs json os fuel = Some (Ok cfg))) /\
  (forall root data err,
     found = Ok root -> fileOf root = Ok data ->
     config.Unmarshal json data config.defaults = Err err ->
     config.LoadConfig fs json os fuel =
       Some (Err (wrapError "failed to parse config file: " err))).
Proof.
  intros Hfound env fileOf. unfold config.LoadConfig. rewrite Hfound.
  split; [|split].
  - intros [Hfail | (root & -> & Hfail)].
    + destruct found; [discriminate | reflexivity].
    + unfold fileOf in Hfail.
      destruct (ReadFile os (Join os root ".commit-generator-config"));
        [discriminate | reflexivity].
  - intros root data cfg -> Hread Hparse. unfold fileOf in Hread.
    rewrite Hread, Hparse.
    assert (H : (if String.eqb (config.APIKey cfg) ""
                 then Some (Ok (config.setAPIKey env cfg)) else Some (Ok cfg)) =
                Some (Ok (if String.eqb (config.APIKey cfg) ""
                          then config.setAPIKey env cfg else cfg)))
      by (destruct (String.eqb (config.APIKey cfg) ""); reflexivity).
    split; [exact H|].
    intros Hkey. apply String.eqb_neq in Hkey. rewrite Hkey. reflexivity.
  - intros root data err -> Hread Hparse. unfold fileOf in Hread.
    rewrite Hread, Hparse. reflexivity.
Qed.

Lemma LoadConfig_precedence_witness :
  config.LoadConfig DemoFiles.files DemoFiles.json
    (DemoFiles.world (Ok "rules") (Ok "{key, 5s}")) 5 =
  Some (Ok {| config.APIKey := "file-key"; config.Model := "gpt-oss:120b";
              config.BaseURL := "http://localhost:11434/api/generate";
              config.TimeoutSeconds := 5 |}).
Proof.
  refine (proj2 (proj1 (proj2
    (LoadConfig_precedence DemoFiles.files DemoFiles.json
       (DemoFiles.world (Ok "rules") (Ok "{key, 5s}")) 5 (Ok "/w") eq_refl))
    "/w" "{key, 5s}" _ eq_refl eq_refl eq_refl) _).
  discriminate.
Defined.

Lemma wrap64_small (z : Z) :
  (- 2 ^ 63 <= z < 2 ^ 63)%Z -> ai.wrap64 z = z.
Proof.
  intros H. unfold ai.wrap64. rewrite Z.mod_small by lia. lia.
Qed.

(** The client made from a configuration never has a zero timeout: a
    [timeout_seconds] of 0 gives the 60 seconds of [NewClient], and a
    number of seconds from 1 to 9,223,372,036 is taken as it is (the
    product with a second fits in 64 bits). Its URL and its model are
    never empty. *)
Theorem configured_timeout (cfg : config.Config) :
  ai.timeout (clientOf cfg) <> 0%Z /\
  (config.TimeoutSeconds cfg = 0%Z ->
   ai.timeout (clientOf cfg) = (60 * ai.Second)%Z) /\
  ((0 < config.TimeoutSeconds cfg <= 9223372036)%Z ->
   ai.timeout (clientOf cfg) = (config.TimeoutSeconds cfg * ai.Second)%Z) /\
  ai.baseURL (clientOf cfg) <> "" /\
  ai.model (clientOf cfg) <> "".
Proof.
  unfold clientOf, ai.NewClient. simpl.
  split; [|split; [|split; [|split]]].
  - destruct (Z.eqb_spec (config.GetTimeout cfg) 0); [discriminate | assumption].
  - intros H0. unfold config.GetTimeout. rewrite H0. reflexivity.
  - intros Hrange. unfold config.GetTimeout, ai.Second in *.
    rewrite (wrap64_small (config.TimeoutSeconds cfg)) by lia.
    rewrite wrap64_small by lia.
    destruct (Z.eqb_spec (config.TimeoutSeconds cfg * 1000000000) 0); [lia | reflexivity].
  - destruct (String.eqb_spec (config.BaseURL cfg) ""); [discriminate | assumption].
  - destruct (String.eqb_spec (config.Model cfg) ""); [discriminate | assumption].
Qed.

Lemma configured_timeout_witness :
  ai.timeout (clientOf {| config.APIKey := "key"; config.Model := "";
                          config.BaseURL := ""; config.TimeoutSeconds := 0 |}) =
    (60 * ai.Second)%Z /\
  ai.timeout (clientOf {| config.APIKey := "key"; config.Model := "";
                          config.BaseURL := ""; config.TimeoutSeconds := 30 |}) =
    (30 * ai.Second)%Z.
Proof.
  split.
  - apply (proj1 (proj2 (configured_timeout
             {| config.APIKey := "key"; config.Model := "";
                config.BaseURL := ""; config.TimeoutSeconds := 0 |}))).
    reflexivity.
  - apply (proj1 (proj2 (proj2 (configured_timeout
             {| config.APIKey := "key"; config.Model := "";
                config.BaseURL := ""; config.TimeoutSeconds := 30 |})))).
    simpl; lia.
Defined.


(** ** The application: [Run] *)

(** [Run] loads the rules, asks for the diff and calls the generator only
    after [IsInsideRepo] and [HasStagedChanges] have both answered
    [true]; the generator is given the diff that [GetStagedDiff] returned
    and the rules that [LoadRules] returned, and nothing else. *)
Theorem Run_calls_after_checks (a : app.App) (s : State) (ev : app.Event) :
  In ev (eventsOf (app.Run a s)) ->
  ev = app.CallLoadRules \/ ev = app.CallGetStagedDiff \/
  (exists diff rules, ev = app.CallGenerate diff rules) ->
  exists s1 s2,
    app.IsInsideRepo (app.Git a) s = (Ok true, s1) /\
    app.HasStagedChanges (app.Git a) s1 = (Ok true, s2) /\
    (forall diff rules, ev = app.CallGenerate diff rules ->
       rules = fst (app.LoadRules (app.RulesLoader a)) /\
       exists s3, app.GetStagedDiff (app.Git a) s2 = (Ok diff, s3)).
Proof.
  unfold eventsOf, app.Run. intros Hin Hkind.
  assert (Hcall : forall evs, In ev evs ->
            (forall e, In e evs -> e = app.CallIsInsideRepo \/ e = app.CallHasStagedChanges) ->
            False).
  { intros evs Hev Hall. destruct (Hall ev Hev) as [-> | ->];
      destruct Hkind as [H | [H | (d & r & H)]]; discriminate. }
  destruct (app.IsInsideRepo (app.Git a) s) as [[isRepo|err] s1] eqn:Hrepo.
  2: { exfalso. apply (Hcall _ Hin). simpl. intros e [<- | []]. left. reflexivity. }
  destruct isRepo; simpl negb in Hin; cbv iota in Hin.
  2: { exfalso. apply (Hcall _ Hin). simpl. intros e [<- | []]. left. reflexivity. }
  destruct (app.HasStagedChanges (app.Git a) s1) as [[has|err] s2] eqn:Hstaged.
  2: { exfalso. apply (Hcall _ Hin). simpl. intros e [<- | [<- | []]]; tauto. }
  destruct has; simpl negb in Hin; cbv iota in Hin.
  2: { exfalso. apply (Hcall _ Hin). simpl. intros e [<- | [<- | []]]; tauto. }
  exists s1, s2. split; [reflexivity|]. split; [exact Hstaged|].
  intros diff rules ->.
  destruct (app.LoadRules (app.RulesLoader a)) as [rules0 failed].
  simpl fst.
  destruct (app.GetStagedDiff (app.Git a) s2) as [[d|err] s3] eqn:Hdiff.
  2: { destruct failed; simpl in Hin; intuition discriminate. }
  assert (Heq : diff = d /\ rules = rules0).
  { destruct (app.GenerateCommitMessage (app.AI a) d rules0) as [message|err];
      [destruct (app.containsLF message)|];
      destruct failed; simpl in Hin;
      repeat (destruct Hin as [Hin | Hin];
              [try discriminate Hin; inversion Hin; split; reflexivity|]);
      contradiction. }
  destruct Heq as [-> ->]. split; [reflexivity|]. exists s3. reflexivity.
Qed.

Lemma Run_calls_after_checks_witness :
  exists s1 s2,
    app.IsInsideRepo (app.Git (DemoApp.mockApp (Ok true) (Ok true) (Ok "diff content")
                                 ("some rules", None) (Ok "feat: something")))
      Demo.fresh = (Ok true, s1) /\
    app.HasStagedChanges (app.Git (DemoApp.mockApp (Ok true) (Ok true) (Ok "diff content")
                                     ("some rules", None) (Ok "feat: something")))
      s1 = (Ok true, s2).
Proof.
  destruct (Run_calls_after_checks
              (DemoApp.mockApp (Ok true) (Ok true) (Ok "diff content")
                 ("some rules", None) (Ok "feat: something"))
              Demo.fresh (app.CallGenerate "diff content" "some rules"))
    as (s1 & s2 & H1 & H2 & _).
  - unfold eventsOf. simpl. tauto.
  - right. right. exists "diff content", "some rules". reflexivity.
  - exists s1, s2. split; assumption.
Defined.

(** [Run] returns no error exactly when the repository check and the
    staged-change check answer [true], the diff is obtained and the
    generator answers. An error of the rules loader does not count: the
    run goes on with the rules the loader returned. *)
Theorem Run_succeeds_iff (a : app.App) (s : State) :
  errorOf (app.Run a s) = None <->
  exists s1 s2 s3 diff message,
    app.IsInsideRepo (app.Git a) s = (Ok true, s1) /\
    app.HasStagedChanges (app.Git a) s1 = (Ok true, s2) /\
    app.GetStagedDiff (app.Git a) s2 = (Ok diff, s3) /\
    app.GenerateCommitMessage (app.AI a) diff
      (fst (app.LoadRules (app.RulesLoader a))) = Ok message.
Proof.
  unfold errorOf, app.Run.
  destruct (app.IsInsideRepo (app.Git a) s) as [[isRepo|err] s1] eqn:Hrepo.
  2: { split; [discriminate|]. intros (? & ? & ? & ? & ? & H & _). discriminate. }
  destruct isRepo; simpl negb; cbv iota.
  2: { split; [discriminate|]. intros (? & ? & ? & ? & ? & H & _). discriminate. }
  destruct (app.HasStagedChanges (app.Git a) s1) as [[has|err] s2] eqn:Hstaged.
  2: { split; [discriminate|]. intros (? & ? & ? & ? & ? & H1 & H2 & _).
       inversion H1; subst. rewrite Hstaged in H2. discriminate. }
  destruct has; simpl negb; cbv iota.
  2: { split; [discriminate|]. intros (? & ? & ? & ? & ? & H1 & H2 & _).
       inversion H1; subst. rewrite Hstaged in H2. discriminate. }
  destruct (app.LoadRules (app.RulesLoader a)) as [rules failed]. simpl fst.
  destruct (app.GetStagedDiff (app.Git a) s2) as [[diff|err] s3] eqn:Hdiff.
  2: { split; [discriminate|]. intros (? & ? & ? & ? & ? & H1 & H2 & H3 & _).
       inversion H1; subst. rewrite Hstaged in H2. inversion H2; subst.
       rewrite Hdiff in H3. discriminate. }
  destruct (app.GenerateCommitMessage (app.AI a) diff rules) as [message|err] eqn:Hanswer.
  - split.
    + intros _. exists s1, s2, s3, diff, message. repeat split; assumption.
    + intros _. destruct (app.containsLF message); reflexivity.
  - split; [discriminate|]. intros (? & ? & ? & ? & ? & H1 & H2 & H3 & H4).
    inversion H1; subst. rewrite Hstaged in H2. inversion H2; subst.
    rewrite Hdiff in H3. inversion H3; subst. rewrite Hanswer in H4. discriminate.
Qed.

Example rules_failure_is_not_fatal :
  errorOf (app.Run (DemoApp.mockApp (Ok true) (Ok true) (Ok "diff content")
                      ("", Some (errorString "permission denied"))
                      (Ok "feat: something")) Demo.fresh) = None.
Proof. reflexivity. Qed.

Lemma containsLF_lines (message : string) :
  app.containsLF message = true <-> 1 < List.length (Split message LF).
Proof.
  unfold app.containsLF. rewrite Split_length.
  destruct (Nat.eqb_spec (Count message LF) 0); simpl; split; intros; try lia;
    try discriminate; reflexivity.
Qed.

(** A run that succeeds prints [Generating commit message...] before it
    calls the generator, and then the answer: under the split-suggestion
    heading (in yellow) when the answer has more than one line, and as a
    single line in cyan otherwise. A warning is printed first when the
    rules loader returned an error. *)
Theorem Run_success_trace (a : app.App) (s s1 s2 s3 : State)
    (diff message : string) :
  app.IsInsideRepo (app.Git a) s = (Ok true, s1) ->
  app.HasStagedChanges (app.Git a) s1 = (Ok true, s2) ->
  app.GetStagedDiff (app.Git a) s2 = (Ok diff, s3) ->
  let rules := fst (app.LoadRules (app.RulesLoader a)) in
  app.GenerateCommitMessage (app.AI a) diff rules = Ok message ->
  app.Run a s =
    (None, s3,
     ([app.CallIsInsideRepo; app.CallHasStagedChanges; app.CallLoadRules] ++
      match snd (app.LoadRules (app.RulesLoader a)) with
      | Some err => [app.Warning err]
      | None => []
      end ++
      [app.CallGetStagedDiff; app.Println "Generating commit message...";
       app.CallGenerate diff rules] ++
      if Nat.ltb 1 (List.length (Split message LF))
      then [app.Println (nl ++ app.ESC ++ "[33mAI Suggestion (Split Changes):"
                            ++ app.ESC ++ "[0m");
            app.Println message]
      else [app.Println (nl ++ app.ESC ++ "[36m" ++ message ++ app.ESC ++ "[0m")])%list).
Proof.
  intros Hrepo Hstaged Hdiff rules Hanswer. subst rules.
  unfold app.Run. rewrite Hrepo. simpl negb. cbv iota.
  rewrite Hstaged. simpl negb. cbv iota.
  destruct (app.LoadRules (app.RulesLoader a)) as [rules failed].
  simpl fst in Hanswer. simpl snd.
  rewrite Hdiff, Hanswer.
  assert (Hlines : app.containsLF message = Nat.ltb 1 (List.length (Split message LF))).
  { destruct (Nat.ltb_spec 1 (List.length (Split message LF))) as [H | H].
    - apply containsLF_lines. exact H.
    - destruct (app.containsLF message) eqn:E; [|reflexivity].
      apply containsLF_lines in E. lia. }
  rewrite Hlines.
  destruct failed; destruct (Nat.ltb 1 (List.length (Split message LF))); reflexivity.
Qed.

Lemma Run_success_trace_witness :
  app.Run (DemoApp.mockApp (Ok true) (Ok true) (Ok "diff content")
             ("some rules", None) (Ok "feat: something")) Demo.fresh =
  (None, Demo.fresh,
   [app.CallIsInsideRepo; app.CallHasStagedChanges; app.CallLoadRules;
    app.CallGetStagedDiff; app.Println "Generating commit message...";
    app.CallGenerate "diff content" "some rules";
    app.Println (nl ++ app.ESC ++ "[36m" ++ "feat: something" ++ app.ESC ++ "[0m")]).
Proof.
  exact (Run_success_trace
           (DemoApp.mockApp (Ok true) (Ok true) (Ok "diff content")
              ("some rules", None) (Ok "feat: something"))
           Demo.fresh Demo.fresh Demo.fresh Demo.fresh "diff content" "feat: something"
           eq_refl eq_refl eq_refl eq_refl).
Defined.

Lemma opens_app (xs ys : list Event) : opens (xs ++ ys)%list = opens xs + opens ys.
Proof. unfold opens. rewrite filter_app, List.length_app. reflexivity. Qed.

(** With the git client of this repository behind it, a run opens the
    repository at most once, whatever happens: the client is left as the
    first [openRepo] left it, the later calls reusing the cached handle. *)
Theorem Run_opens_repository_once (fs : Files) (boundRoot : Worktree -> option string)
    (os : OS) (fuel : nat) (loader : app.Loader) (generator : app.AIClient)
    (s : State) :
  let a := {| app.Git := realGit fs boundRoot os fuel;
              app.RulesLoader := loader;
              app.AI := generator |} in
  stateOf (app.Run a s) = snd (git.openRepo os s) /\
  opens (trace (stateOf (app.Run a s))) <= opens (trace s) + 1.
Proof.
  intros a.
  assert (Hstate : stateOf (app.Run a s) = snd (git.openRepo os s)).
  { unfold stateOf, app.Run, a. simpl app.Git. unfold realGit.
    simpl app.IsInsideRepo. simpl app.HasStagedChanges. simpl app.GetStagedDiff.
    unfold git.IsInsideRepo.
    destruct (git.openRepo os s) as [[r|err] s0] eqn:Hopen; simpl snd.
    2: { destruct (isErrRepositoryNotExists err); reflexivity. }
    simpl negb. cbv iota.
    pose proof (openRepo_again os s s0 r Hopen) as Hagain.
    pose proof (run_HasStagedChanges_state os s0 s0 r Hagain) as Hs2.
    destruct (git.HasStagedChanges os s0) as [[has|err] s2]; simpl in Hs2; subst s2;
      [|reflexivity].
    destruct has; simpl negb; cbv iota; [|reflexivity].
    destruct (app.LoadRules loader) as [rules failed].
    pose proof (run_GetStagedDiff_state os s0 s0 r Hagain) as Hs3.
    destruct (git.GetStagedDiff os s0) as [[diff|err] s3]; simpl in Hs3; subst s3;
      [|reflexivity].
    destruct (app.GenerateCommitMessage generator diff rules) as [message|err];
      [destruct (app.containsLF message)|]; reflexivity. }
  split; [exact Hstate|]. rewrite Hstate.
  destruct (openRepo_trace os s) as [Heq | (wd & _ & Heq)]; rewrite Heq.
  - lia.
  - rewrite opens_app. change (opens [EvPlainOpen wd]) with 1. lia.
Qed.

Lemma climb_findRepoRootFrom (fs : Files) (os : OS) (fuel : nat) :
  forall dir,
    config.findRepoRootFrom fs os fuel dir =
    option_map (fun found => match found with
                             | Some root => Ok root
                             | None => Err ErrNotExist
                             end)
               (gitroot.climb fs os fuel dir).
Proof.
  induction fuel as [|fuel IH]; intros dir; [reflexivity|].
  simpl. destruct (Stat fs (Join os dir ".git")); [reflexivity|].
  destruct (String.eqb (Dir fs dir) dir); [reflexivity | apply IH].
Qed.

(** When the repository opens and the filesystem of its worktree is not
    a bound one, [GetRepoRoot] answers the directory that [findRepoRoot]
    of the configuration loaders answers: the place where [Init] writes
    the configuration is the place where [LoadConfig] and [ConfigExists]
    look for it. With a bound filesystem [GetRepoRoot] answers its root,
    without looking at any directory. *)
Theorem GetRepoRoot_agrees (fs : Files) (boundRoot : Worktree -> option string)
    (os : OS) (fuel : nat) (s s' : State) (r : Repository) (worktree : Worktree) :
  openRepo os s = (Ok r, s') ->
  Repository_Worktree r = Ok worktree ->
  (boundRoot worktree = None ->
   forall root,
     gitroot.GetRepoRoot fs boundRoot os fuel s = Some (Ok root, s') <->
     config.findRepoRoot fs os fuel = Some (Ok root)) /\
  (forall root, boundRoot worktree = Some root ->
     gitroot.GetRepoRoot fs boundRoot os fuel s = Some (Ok root, s')).
Proof.
  intros Hopen Hwt. unfold gitroot.GetRepoRoot. rewrite Hopen, Hwt. split.
  - intros Hfree root. rewrite Hfree. unfold config.findRepoRoot.
    assert (Hwd : exists wd, Getwd os = Ok wd).
    { unfold openRepo in Hopen. destruct (Getwd os) as [wd|]; [|discriminate].
      exists wd. reflexivity. }
    destruct Hwd as (wd & Hwd). rewrite Hwd, climb_findRepoRootFrom.
    destruct (gitroot.climb fs os fuel wd) as [[dir|]|]; simpl; split; intros H;
      inversion H; reflexivity.
  - intros root Hbound. rewrite Hbound. reflexivity.
Qed.

Lemma GetRepoRoot_agrees_witness :
  gitroot.GetRepoRoot DemoFiles.files (fun _ => Some "/bound")
    Demo.mixedWorld 0 Demo.fresh =
  Some (Ok "/bound", Demo.opened Demo.mixedRepo).
Proof.
  exact (proj2 (GetRepoRoot_agrees DemoFiles.files (fun _ => Some "/bound")
                  Demo.mixedWorld 0 Demo.fresh (Demo.opened Demo.mixedRepo)
                  Demo.mixedRepo
                  {| Worktree_Status := Ok Demo.mixedStatus;
                     Worktree_Commit := fun _ _ => Ok "c0ffee" |}
                  eq_refl eq_refl) "/bound" eq_refl).
Defined.

(** ** The application: [Init] *)

Example hook_sizes :
  Z.of_nat (String.length appinit.generateUnixHook) = 1958%Z /\
  Z.of_nat (String.length appinit.generateWindowsHook) = 1503%Z /\
  Z.of_nat (String.length appinit.rulesContent) = 288%Z /\
  HasPrefix appinit.generateUnixHook "#!/bin/bash" = true /\
  HasPrefix appinit.generateWindowsHook "@echo off" = true.
Proof. vm_compute. repeat split; reflexivity. Qed.

(** [Init] writes nothing unless it runs inside a repository whose root
    it finds and whose configuration file does not exist yet; and then it
    writes at three paths only: the configuration file and the rules file
    in the root, and the pre-commit hook. *)
Theorem Init_writes_only_when_fresh (fs : Files) (json : config.JSON) (os : OS)
    (fuel : nat) (Git : app.GitClient) (s s' : State)
    (failed : option error) (evs : list appinit.Event) (w : FileEvent) :
  appinit.Init fs json os fuel Git s = Some (failed, s', evs) ->
  In w (writesOf evs) ->
  exists s1 root,
    app.IsInsideRepo Git s = (Ok true, s1) /\
    app.GetRepoRoot Git s1 = Some (Ok root, s') /\
    config.ConfigExists fs os fuel = Some (Ok false) /\
    (pathOf w = Join os root ".commit-generator-config" \/
     pathOf w = Join os root ".git-commit-rules-for-ai" \/
     pathOf w = hookPathOf fs os root).
Proof.
  unfold appinit.Init, hookPathOf. intros Hrun Hin.
  destruct (app.IsInsideRepo Git s) as [[isRepo|err] s1] eqn:Hrepo.
  2: { inversion Hrun; subst. contradiction. }
  destruct isRepo; simpl negb in Hrun; cbv iota in Hrun.
  2: { inversion Hrun; subst. contradiction. }
  destruct (app.GetRepoRoot Git s1) as [[[root|err] s2]|] eqn:Hroot; [| |discriminate].
  2: { inversion Hrun; subst. contradiction. }
  destruct (config.ConfigExists fs os fuel) as [[[|]|err]|] eqn:Hexists;
    [| | |discriminate].
  1, 3: inversion Hrun; subst; simpl in Hin; contradiction.
  unfold config.SaveDefaultConfig in Hrun.
  destruct (config.MarshalIndent json _) as [data|err].
  2: { inversion Hrun; subst. simpl in Hin. contradiction. }
  destruct (WriteFile fs (Join os root ".commit-generator-config") data 420).
  2: { inversion Hrun; subst. exists s1, root.
       repeat split; try reflexivity; try assumption.
       simpl in Hin. destruct Hin as [<- | []]. left. reflexivity. }
  exists s1, root.
  assert (Hs : s2 = s' /\
    forall v, In v (writesOf evs) ->
      v = CallWriteFile (Join os root ".commit-generator-config") data 420 \/
      v = CallWriteFile (Join os root ".git-commit-rules-for-ai") appinit.rulesContent 420 \/
      v = CallWriteFile
            (if String.eqb (GOOS fs) "windows"
             then Join os (Join os (Join os root ".git") "hooks") "pre-commit" ++ ".bat"
             else Join os (Join os (Join os root ".git") "hooks") "pre-commit")
            (appinit.generatePreCommitHook fs) 493).
  { destruct (match Stat fs (Join os root ".git-commit-rules-for-ai") with
              | Ok _ => false
              | Err err => IsNotExist fs err
              end);
      [destruct (WriteFile fs (Join os root ".git-commit-rules-for-ai")
                   appinit.rulesContent 420)|];
      simpl in Hrun;
      try (destruct (WriteFile fs _ (appinit.generatePreCommitHook fs) 493));
      inversion Hrun; subst; (split; [reflexivity|]);
      intros v Hv; simpl in Hv; intuition. }
  destruct Hs as [-> Hw]. repeat split; try reflexivity; try assumption.
  destruct (Hw w Hin) as [-> | [-> | ->]]; simpl; tauto.
Qed.

Lemma Init_writes_only_when_fresh_witness :
  exists s1 root,
    app.IsInsideRepo (DemoApp.mockGit (Ok true) (Ok true) (Ok "")) Demo.fresh =
      (Ok true, s1) /\
    app.GetRepoRoot (DemoApp.mockGit (Ok true) (Ok true) (Ok "")) s1 =
      Some (Ok root, Demo.fresh) /\
    config.ConfigExists DemoFiles.files
      (DemoFiles.world (Ok "rules") (Ok "{}")) 5 = Some (Ok false) /\
    (Demo.join "/tmp/test-repo" ".commit-generator-config" =
       Demo.join root ".commit-generator-config" \/
     Demo.join "/tmp/test-repo" ".commit-generator-config" =
       Demo.join root ".git-commit-rules-for-ai" \/
     Demo.join "/tmp/test-repo" ".commit-generator-config" =
       hookPathOf DemoFiles.files (DemoFiles.world (Ok "rules") (Ok "{}")) root).
Proof.
  destruct (appinit.Init DemoFiles.files DemoFiles.json
              (DemoFiles.world (Ok "rules") (Ok "{}")) 5
              (DemoApp.mockGit (Ok true) (Ok true) (Ok "")) Demo.fresh)
    as [[[failed s'] evs]|] eqn:Hrun; [|discriminate Hrun].
  apply (Init_writes_only_when_fresh DemoFiles.files DemoFiles.json
           (DemoFiles.world (Ok "rules") (Ok "{}")) 5
           (DemoApp.mockGit (Ok true) (Ok true) (Ok "")) Demo.fresh Demo.fresh
           failed evs
           (CallWriteFile (Demo.join "/tmp/test-repo" ".commit-generator-config") "{}" 420)).
  - rewrite Hrun. vm_compute in Hrun. inversion Hrun. reflexivity.
  - vm_compute in Hrun. inversion Hrun. subst. simpl. left. reflexivity.
Defined.

(** In a repository without a configuration file, when every write
    succeeds, [Init] writes the configuration file, then the rules file
    only if [Stat] says that it does not exist, then the pre-commit hook:
    an existing rules file is kept, but the hook is written without a
    look at what is there. On Windows the hook is the batch script, at
    the path with [.bat] appended. *)
Theorem Init_fresh_writes (fs : Files) (json : config.JSON) (os : OS)
    (fuel : nat) (Git : app.GitClient) (s s1 s2 : State) (root data : string) :
  app.IsInsideRepo Git s = (Ok true, s1) ->
  app.GetRepoRoot Git s1 = Some (Ok root, s2) ->
  config.ConfigExists fs os fuel = Some (Ok false) ->
  config.MarshalIndent json
    {| config.APIKey := Getenv fs "OLLAMA_API_KEY";
       config.Model := "gpt-oss:120b";
       config.BaseURL := "http://localhost:11434/api/generate";
       config.TimeoutSeconds := 60 |} = Ok data ->
  (forall path text perm, WriteFile fs path text perm = Ok tt) ->
  let rulesPath := Join os root ".git-commit-rules-for-ai" in
  let rulesMissing :=
    match Stat fs rulesPath with
    | Ok _ => false
    | Err err => IsNotExist fs err
    end in
  exists evs,
    appinit.Init fs json os fuel Git s = Some (None, s2, evs) /\
    writesOf evs =
      ([CallWriteFile (Join os root ".commit-generator-config") data 420] ++
       (if rulesMissing then [CallWriteFile rulesPath appinit.rulesContent 420] else []) ++
       [CallWriteFile (hookPathOf fs os root)
          (if String.eqb (GOOS fs) "windows"
           then appinit.generateWindowsHook else appinit.generateUnixHook) 493])%list.
Proof.
  intros Hrepo Hroot Hexists Hjson Hwrite rulesPath rulesMissing.
  unfold appinit.Init, config.SaveDefaultConfig, hookPathOf, appinit.generatePreCommitHook.
  rewrite Hrepo. simpl negb. cbv iota. rewrite Hroot, Hexists, Hjson.
  rewrite !Hwrite. fold rulesPath. fold rulesMissing.
  destruct rulesMissing; simpl; rewrite ?Hwrite; eexists; (split; [reflexivity|]);
    reflexivity.
Qed.

Lemma Init_fresh_writes_witness :
  exists evs,
    appinit.Init DemoFiles.files DemoFiles.json
      (DemoFiles.world (Ok "rules") (Ok "{}")) 5
      (DemoApp.mockGit (Ok true) (Ok true) (Ok "")) Demo.fresh =
      Some (None, Demo.fresh, evs) /\
    map pathOf (writesOf evs) =
      ["/tmp/test-repo/.commit-generator-config";
       "/tmp/test-repo/.git-commit-rules-for-ai";
       "/tmp/test-repo/.git/hooks/pre-commit"].
Proof.
  destruct (Init_fresh_writes DemoFiles.files DemoFiles.json
              (DemoFiles.world (Ok "rules") (Ok "{}")) 5
              (DemoApp.mockGit (Ok true) (Ok true) (Ok "")) Demo.fresh
              Demo.fresh Demo.fresh "/tmp/test-repo" "{}"
              eq_refl eq_refl eq_refl eq_refl (fun _ _ _ => eq_refl))
    as (evs & Hrun & Hwrites).
  exists evs. split; [exact Hrun|]. rewrite Hwrites. reflexivity.
Defined.

(** [Init] undoes nothing: when the write of the hook fails, after the
    earlier writes succeeded, the error is returned with the
    configuration file already written. *)
Theorem Init_hook_failure_keeps_config (fs : Files) (json : config.JSON) (os : OS)
    (fuel : nat) (Git : app.GitClient) (s s1 s2 : State)
    (root data : string) (err : error) :
  app.IsInsideRepo Git s = (Ok true, s1) ->
  app.GetRepoRoot Git s1 = Some (Ok root, s2) ->
  config.ConfigExists fs os fuel = Some (Ok false) ->
  config.MarshalIndent json
    {| config.APIKey := Getenv fs "OLLAMA_API_KEY";
       config.Model := "gpt-oss:120b";
       config.BaseURL := "http://localhost:11434/api/generate";
       config.TimeoutSeconds := 60 |} = Ok data ->
  WriteFile fs (Join os root ".commit-generator-config") data 420 = Ok tt ->
  WriteFile fs (Join os root ".git-commit-rules-for-ai") appinit.rulesContent 420 = Ok tt ->
  WriteFile fs (hookPathOf fs os root) (appinit.generatePreCommitHook fs) 493 = Err err ->
  exists evs,
    appinit.Init fs json os fuel Git s =
      Some (Some (wrapError "failed to create pre-commit hook: " err), s2, evs) /\
    In (CallWriteFile (Join os root ".commit-generator-config") data 420) (writesOf evs) /\
    last (writesOf evs) (CallWriteFile "" "" 0) =
      CallWriteFile (hookPathOf fs os root) (appinit.generatePreCommitHook fs) 493.
Proof.
  intros Hrepo Hroot Hexists Hjson Hcfg Hrules Hhook.
  unfold appinit.Init, config.SaveDefaultConfig.
  rewrite Hrepo. simpl negb. cbv iota. rewrite Hroot, Hexists, Hjson, Hcfg.
  unfold hookPathOf in Hhook.
  destruct (match Stat fs (Join os root ".git-commit-rules-for-ai") with
            | Ok _ => false
            | Err e => IsNotExist fs e
            end); rewrite ?Hrules; simpl; rewrite Hhook;
    eexists; (split; [reflexivity|]); simpl; (split; [tauto | reflexivity]).
Qed.

Lemma Init_hook_failure_keeps_config_witness :
  exists evs,
    appinit.Init
      {| Stat := Stat DemoFiles.files; Dir := Dir DemoFiles.files;
         Getenv := Getenv DemoFiles.files; IsNotExist := IsNotExist DemoFiles.files;
         GOOS := "linux";
         WriteFile := fun path _ _ =>
           if String.eqb path "/tmp/test-repo/.git/hooks/pre-commit"
           then Demo.notFound "permission denied" else Ok tt |}
      DemoFiles.json (DemoFiles.world (Ok "rules") (Ok "{}")) 5
      (DemoApp.mockGit (Ok true) (Ok true) (Ok "")) Demo.fresh =
    Some (Some (wrapError "failed to create pre-commit hook: "
                  (errorString "permission denied")), Demo.fresh, evs) /\
    In (CallWriteFile "/tmp/test-repo/.commit-generator-config" "{}" 420) (writesOf evs).
Proof.
  destruct (Init_hook_failure_keeps_config
              {| Stat := Stat DemoFiles.files; Dir := Dir DemoFiles.files;
                 Getenv := Getenv DemoFiles.files; IsNotExist := IsNotExist DemoFiles.files;
                 GOOS := "linux";
                 WriteFile := fun path _ _ =>
                   if String.eqb path "/tmp/test-repo/.git/hooks/pre-commit"
                   then Demo.notFound "permission denied" else Ok tt |}
              DemoFiles.json (DemoFiles.world (Ok "rules") (Ok "{}")) 5
              (DemoApp.mockGit (Ok true) (Ok true) (Ok "")) Demo.fresh
              Demo.fresh Demo.fresh "/tmp/test-repo" "{}" (errorString "permission denied")
              eq_refl eq_refl eq_refl eq_refl eq_refl eq_refl eq_refl)
    as (evs & Hrun & Hin & _).
  exists evs. split; [exact Hrun | exact Hin].
Defined.

(** ** The prompt *)

Lemma append_inv_head (a b c : string) : a ++ b = a ++ c -> b = c.
Proof.
  induction a as [|ch a IH]; simpl; intros H; [exact H|].
  inversion H. apply IH. assumption.
Qed.

Lemma buildPrompt_parts (diff rules : string) :
  ai.buildPrompt diff rules =
    promptInstructions ++
    (if String.eqb rules "" then ""
     else "Team Rules:" ++ nl ++ rules ++ nl ++ nl) ++
    "Diff:" ++ nl ++ diff.
Proof.
  unfold ai.buildPrompt. cbv zeta.
  destruct (String.eqb rules ""); simpl negb; cbv iota;
    repeat rewrite app_assoc_s; vm_compute; reflexivity.
Qed.

(** A prompt is the same instructions every time, then the team rules
    under their heading when there are any (and no heading when there are
    none), then [Diff:] and the diff, unchanged, as the end of the
    prompt: for the same rules, two diffs that differ give prompts that
    differ. *)
Theorem buildPrompt_shape (diff rules : string) :
  ai.buildPrompt diff rules =
    promptInstructions ++
    (if String.eqb rules "" then ""
     else "Team Rules:" ++ nl ++ rules ++ nl ++ nl) ++
    "Diff:" ++ nl ++ diff /\
  HasPrefix promptInstructions "You are an expert DevOps engineer" = true /\
  (forall diff', ai.buildPrompt diff rules = ai.buildPrompt diff' rules ->
                 diff = diff').
Proof.
  split; [apply buildPrompt_parts|].
  split; [vm_compute; reflexivity|].
  intros diff' Heq. rewrite !buildPrompt_parts in Heq.
  apply append_inv_head, append_inv_head in Heq.
  apply (append_inv_head "Diff:"), (append_inv_head nl) in Heq.
  exact Heq.
Qed.

Lemma buildPrompt_shape_witness :
  ai.buildPrompt "+a" "" <> ai.buildPrompt "+b" "".
Proof.
  intros Heq.
  apply (proj2 (proj2 (buildPrompt_shape "+a" "")) "+b") in Heq.
  discriminate Heq.
Defined.


(** ** Inside or outside a repository *)

(** [IsInsideRepo] answers from the cache when a handle is cached for the
    working directory: it says [true] without asking whether the
    repository can still be opened. Without such a handle it says what
    opening the working directory says: [true] when it opens, [false]
    (and no error) exactly for the error [ErrRepositoryNotExists], and
    any other error as it is. A working directory that cannot be
    determined is an error, not a [false]. *)
Theorem IsInsideRepo_answers (os : OS) (s : State) :
  (forall wd r,
     Getwd os = Ok wd -> repo (client s) = Some r -> repoPath (client s) = wd ->
     IsInsideRepo os s = (Ok true, s)) /\
  (forall wd,
     Getwd os = Ok wd ->
     repo (client s) = None \/ repoPath (client s) <> wd ->
     fst (IsInsideRepo os s) =
       match PlainOpenWithOptions os wd with
       | Ok _ => Ok true
       | Err err => if isErrRepositoryNotExists err then Ok false else Err err
       end) /\
  (forall err,
     Getwd os = Err err ->
     IsInsideRepo os s =
       (Err (wrapError "failed to get working directory: " err), s)).
Proof.
  split; [|split].
  - intros wd r Hwd Hrepo Hpath. unfold IsInsideRepo.
    rewrite (openRepo_cached os s wd r Hwd Hrepo Hpath). reflexivity.
  - intros wd Hwd Hstale. unfold IsInsideRepo.
    rewrite (openRepo_stale os s wd Hwd Hstale).
    destruct (PlainOpenWithOptions os wd) as [r|err]; [reflexivity|].
    destruct (isErrRepositoryNotExists err); reflexivity.
  - intros err Hwd. unfold IsInsideRepo, openRepo. rewrite Hwd. reflexivity.
Qed.

Lemma IsInsideRepo_answers_witness :
  IsInsideRepo DemoGit.vanished (Demo.opened Demo.mixedRepo) =
    (Ok true, Demo.opened Demo.mixedRepo) /\
  fst (IsInsideRepo DemoGit.vanished Demo.fresh) = Ok false /\
  IsInsideRepo DemoGit.lost Demo.fresh =
    (Err (wrapError "failed to get working directory: "
            (errorString "getwd: no such file or directory")), Demo.fresh).
Proof.
  split; [|split].
  - exact (proj1 (IsInsideRepo_answers DemoGit.vanished (Demo.opened Demo.mixedRepo))
             "/w" Demo.mixedRepo eq_refl eq_refl eq_refl).
  - exact (proj1 (proj2 (IsInsideRepo_answers DemoGit.vanished Demo.fresh))
             "/w" eq_refl (or_introl eq_refl)).
  - exact (proj2 (proj2 (IsInsideRepo_answers DemoGit.lost Demo.fresh))
             (errorString "getwd: no such file or directory") eq_refl).
Defined.

Lemma openRepo_not_exists (os : OS) (s s1 : State) :
  openRepo os s = (Err ErrRepositoryNotExists, s1) ->
  exists wd,
    Getwd os = Ok wd /\
    (repo (client s) = None \/ repoPath (client s) <> wd) /\
    PlainOpenWithOptions os wd = Err ErrRepositoryNotExists /\
    s1 = emit (EvPlainOpen wd) s.
Proof.
  intros Hopen. unfold openRepo in Hopen.
  destruct (Getwd os) as [wd|]; [|discriminate].
  exists wd. split; [reflexivity|].
  destruct (repo (client s)) as [r0|] eqn:Hrepo.
  - destruct (String.eqb_spec (repoPath (client s)) wd) as [Hp|Hp]; [discriminate|].
    destruct (PlainOpenWithOptions os wd); inversion Hopen; subst.
    repeat split. right. exact Hp.
  - destruct (PlainOpenWithOptions os wd); inversion Hopen; subst.
    repeat split. left. reflexivity.
Qed.

(** Where [IsInsideRepo] has answered [false], the other operations fail
    with the same cause, wrapped: nothing is cached for a directory that
    is not a repository, so each of them tries to open it again; and
    [CommitWithMessage] asks no worktree to commit. *)
Theorem outside_repository (os : OS) (s s1 : State) (message : string) :
  IsInsideRepo os s = (Ok false, s1) ->
  let failure := wrapError "failed to open repository: " ErrRepositoryNotExists in
  exists wd,
    Getwd os = Ok wd /\
    s1 = emit (EvPlainOpen wd) s /\
    HasStagedChanges os s1 = (Err failure, emit (EvPlainOpen wd) s1) /\
    GetStagedDiff os s1 = (Err failure, emit (EvPlainOpen wd) s1) /\
    CommitWithMessage os message s1 = (Err failure, emit (EvPlainOpen wd) s1).
Proof.
  intros Hfalse failure. unfold IsInsideRepo in Hfalse.
  destruct (openRepo os s) as [[r|err] s0] eqn:Hopen; [discriminate|].
  destruct err; simpl in Hfalse; try discriminate. inversion Hfalse; subst s0.
  destruct (openRepo_not_exists os s s1 Hopen) as (wd & Hwd & Hstale & Hfail & Hs1).
  exists wd. split; [exact Hwd|]. split; [exact Hs1|].
  assert (Hagain : openRepo os s1 = (Err ErrRepositoryNotExists, emit (EvPlainOpen wd) s1)).
  { rewrite (openRepo_stale os s1 wd Hwd) by (subst s1; exact Hstale).
    rewrite Hfail. reflexivity. }
  unfold HasStagedChanges, GetStagedDiff, CommitWithMessage, bind, orWrap.
  rewrite Hagain. repeat split.
Qed.

Lemma outside_repository_witness :
  IsInsideRepo DemoGit.elsewhere Demo.fresh =
    (Ok false, emit (EvPlainOpen "/elsewhere") Demo.fresh) /\
  exists wd,
    Getwd DemoGit.elsewhere = Ok wd /\
    emit (EvPlainOpen "/elsewhere") Demo.fresh = emit (EvPlainOpen wd) Demo.fresh /\
    HasStagedChanges DemoGit.elsewhere (emit (EvPlainOpen "/elsewhere") Demo.fresh) =
      (Err (wrapError "failed to open repository: " ErrRepositoryNotExists),
       emit (EvPlainOpen wd) (emit (EvPlainOpen "/elsewhere") Demo.fresh)) /\
    GetStagedDiff DemoGit.elsewhere (emit (EvPlainOpen "/elsewhere") Demo.fresh) =
      (Err (wrapError "failed to open repository: " ErrRepositoryNotExists),
       emit (EvPlainOpen wd) (emit (EvPlainOpen "/elsewhere") Demo.fresh)) /\
    CommitWithMessage DemoGit.elsewhere "feat: add parser"
        (emit (EvPlainOpen "/elsewhere") Demo.fresh) =
      (Err (wrapError "failed to open repository: " ErrRepositoryNotExists),
       emit (EvPlainOpen wd) (emit (EvPlainOpen "/elsewhere") Demo.fresh)).
Proof.
  split; [reflexivity|].
  exact (outside_repository DemoGit.elsewhere Demo.fresh
           (emit (EvPlainOpen "/elsewhere") Demo.fresh) "feat: add parser" eq_refl).
Defined.
